(** * Smart resume analyzer: the analysis pipeline in Rocq

    A shallow embedding of [backend/app/services/ats_parser.py],
    [keyword_matcher.py], [scorer.py], [text_extraction.py] and
    [ai_feedback.py], and of the routes of
    [backend/app/api/routes/analyze.py] and [upload.py].

    Conventions of the embedding:
    - a Python [str] is a [string] of bytes, a character above ASCII
      being the bytes of its UTF-8 form; the embedding follows Python on
      ASCII text (code points below 128), characters above are inert
      (never white space, never a letter or a digit, unchanged by
      [lower]), but for the en dash that the date pattern names;
    - a Python [int] is a [Z], a length is a [nat]; a Python [float] is an
      exact rational of [Q] (compared with [==]) in the matcher and in
      the two composite scores, and a binary64 [float] in the shortlist
      estimate, whose thresholds are met at the precision of a double;
    - the [sections] dict is an insertion-ordered association list, the
      job-role table loaded from [job_roles.json] is a [gmap];
    - the spaCy model held by [ATSParser] and the scikit-learn vectoriser
      called by [KeywordMatcher] are external: the first is a field of the
      parser record, the second a field of the matcher record; so are
      the PDF and DOCX libraries of [TextExtractor], the chat client of
      [AIFeedbackGenerator], and the disk, the clock and the identifiers
      of the upload route. *)

From Stdlib Require Import Floats.
From Stdlib Require Import ZArith QArith Qround Lqa Lia List Bool.
From Stdlib Require Import Strings.Ascii Strings.String Sorting.Permutation.
From stdpp Require Import gmap strings.

Import ListNotations.
Local Open Scope string_scope.
Local Open Scope list_scope.

(** ** Python strings *)

Module PyStr.

Definition code (c : ascii) : nat := nat_of_ascii c.

Definition in_range (lo hi : nat) (c : ascii) : bool :=
  (lo <=? code c)%nat && (code c <=? hi)%nat.

(** [str.isspace] on ASCII: tab to carriage return, the four separators
    0x1c to 0x1f, and the space. *)
Definition is_space (c : ascii) : bool :=
  in_range 9 13 c || in_range 28 32 c.

Definition is_digit (c : ascii) : bool := in_range 48 57 c.
Definition is_upper (c : ascii) : bool := in_range 65 90 c.
Definition is_lower (c : ascii) : bool := in_range 97 122 c.
Definition is_alpha (c : ascii) : bool := is_upper c || is_lower c.

(** The class [\w]: letters, digits and the underscore. *)
Definition is_word (c : ascii) : bool :=
  is_alpha c || is_digit c || (code c =? 95)%nat.

Definition lower_char (c : ascii) : ascii :=
  if is_upper c then ascii_of_nat (code c + 32) else c.

(** [s.lower()] *)
Fixpoint lower (s : string) : string :=
  match s with
  | EmptyString => EmptyString
  | String c s' => String (lower_char c) (lower s')
  end.

Definition newline : ascii := ascii_of_nat 10.
Definition nl : string := String newline EmptyString.

(** [s.split(sep)] for a one-character separator: never returns the
    empty list, [''.split('\n')] is [['']]. *)
Fixpoint split_char (sep : ascii) (s : string) : list string :=
  match s with
  | EmptyString => [EmptyString]
  | String c s' =>
      if Ascii.eqb c sep then EmptyString :: split_char sep s'
      else match split_char sep s' with
           | [] => [String c EmptyString]
           | w :: ws => String c w :: ws
           end
  end.

(** [s.split()] without argument: the maximal runs of characters that
    are not white space; [cur] is the run being read, if any. *)
Fixpoint split_ws_aux (cur : option string) (s : string) : list string :=
  match s with
  | EmptyString =>
      match cur with Some w => [w] | None => [] end
  | String c s' =>
      if is_space c then
        match cur with
        | Some w => w :: split_ws_aux None s'
        | None => split_ws_aux None s'
        end
      else
        match cur with
        | Some w => split_ws_aux (Some (w +:+ String c EmptyString)) s'
        | None => split_ws_aux (Some (String c EmptyString)) s'
        end
  end.

Definition split_ws (s : string) : list string := split_ws_aux None s.

(** [s.lstrip()], [s.rstrip()], [s.strip()] *)
Fixpoint lstrip (s : string) : string :=
  match s with
  | EmptyString => EmptyString
  | String c s' => if is_space c then lstrip s' else s
  end.

Fixpoint rstrip (s : string) : string :=
  match s with
  | EmptyString => EmptyString
  | String c s' =>
      match rstrip s' with
      | EmptyString => if is_space c then EmptyString else String c EmptyString
      | r => String c r
      end
  end.

Definition strip (s : string) : string := rstrip (lstrip s).

(** [sep.join(l)] *)
Fixpoint join (sep : string) (l : list string) : string :=
  match l with
  | [] => EmptyString
  | [x] => x
  | x :: rest => x +:+ sep +:+ join sep rest
  end.

(** [a in b] on strings *)
Fixpoint contains (b a : string) : bool :=
  String.prefix a b ||
  match b with
  | EmptyString => false
  | String _ b' => contains b' a
  end.

(** Truth value of a string: non-empty. *)
Definition truthy (s : string) : bool :=
  match s with EmptyString => false | _ => true end.

Definition lines (l : list string) : string := join nl l.

End PyStr.

(** ** The fragment of Python's [re] used by the parser

    A backtracking matcher in continuation-passing style, with the
    priorities of [re]: alternatives left to right, greedy [?] and greedy
    bounded repetition of a character class (longest first). All the
    patterns of [ats_parser.py] are written in this fragment. *)

Module Re.
Import PyStr.

Inductive regex : Type :=
| Eps
| Cls (p : ascii -> bool)
| Cat (r1 r2 : regex)
| Alt (r1 r2 : regex)
| Opt (r : regex)
| Rep (p : ascii -> bool) (lo : nat) (hi : option nat)
| Group (i : nat) (r : regex)
| WordB.

(** Matcher state: the character before the cursor, the text after it,
    and the groups captured so far. *)
Record mstate : Type := MState {
  prev : option ascii;
  rest : string;
  caps : list (nat * string)
}.

Definition word_opt (o : option ascii) : bool :=
  match o with Some c => is_word c | None => false end.

Definition next_char (s : string) : option ascii :=
  match s with String c _ => Some c | EmptyString => None end.

Definition hi_allows (hi : option nat) : bool :=
  match hi with Some O => false | _ => true end.

Definition hi_pred (hi : option nat) : option nat :=
  match hi with Some n => Some (Nat.pred n) | None => None end.

Definition or_else {A} (x : option A) (y : option A) : option A :=
  match x with Some _ => x | None => y end.

Section Matcher.
Context {A : Type}.

(** Greedy [p{lo,hi}]: take one more character when possible, and
    fall back to stopping here when the rest of the pattern fails. *)
Fixpoint rep (p : ascii -> bool) (lo : nat) (hi : option nat)
    (pv : option ascii) (s : string) (cs : list (nat * string))
    (k : mstate -> option A) : option A :=
  let stop := if (lo =? 0)%nat then k (MState pv s cs) else None in
  match s with
  | String c s' =>
      if p c && hi_allows hi
      then or_else (rep p (Nat.pred lo) (hi_pred hi) (Some c) s' cs k) stop
      else stop
  | EmptyString => stop
  end.

Fixpoint run (r : regex) (st : mstate) (k : mstate -> option A)
    : option A :=
  match r with
  | Eps => k st
  | Cls p =>
      match rest st with
      | String c s' => if p c then k (MState (Some c) s' (caps st)) else None
      | EmptyString => None
      end
  | Cat r1 r2 => run r1 st (fun st1 => run r2 st1 k)
  | Alt r1 r2 => or_else (run r1 st k) (run r2 st k)
  | Opt r1 => or_else (run r1 st k) (k st)
  | Rep p lo hi => rep p lo hi (prev st) (rest st) (caps st) k
  | Group i r1 =>
      run r1 st (fun st1 =>
        let n := (String.length (rest st) - String.length (rest st1))%nat in
        k (MState (prev st1) (rest st1)
             ((i, String.substring 0 n (rest st)) :: caps st1)))
  | WordB =>
      if xorb (word_opt (prev st)) (word_opt (next_char (rest st)))
      then k st else None
  end.
End Matcher.

(** A match: the text it covers, the state after it. *)
Record rmatch : Type := RMatch {
  m_text : string;
  m_end : mstate
}.

Definition match_at (r : regex) (pv : option ascii) (s : string)
    : option rmatch :=
  run r (MState pv s [])
    (fun st => Some (RMatch
       (String.substring 0 (String.length s - String.length (rest st)) s) st)).

(** [re.search]: the first position, left to right, where the pattern
    matches; the end of the text is a position too. *)
Fixpoint search_from (r : regex) (pv : option ascii) (s : string)
    : option rmatch :=
  match match_at r pv s with
  | Some m => Some m
  | None =>
      match s with
      | String c s' => search_from r (Some c) s'
      | EmptyString => None
      end
  end.

Definition search (r : regex) (s : string) : option rmatch :=
  search_from r None s.

(** [m.group(i)]: the last capture of group [i], if it took part. *)
Fixpoint lookup_cap (i : nat) (cs : list (nat * string)) : option string :=
  match cs with
  | [] => None
  | (j, v) :: cs' => if (i =? j)%nat then Some v else lookup_cap i cs'
  end.

Definition group (m : rmatch) (i : nat) : option string :=
  match i with
  | O => Some (m_text m)
  | _ => lookup_cap i (caps (m_end m))
  end.

Fixpoint ngroups (r : regex) : nat :=
  match r with
  | Cat r1 r2 | Alt r1 r2 => ngroups r1 + ngroups r2
  | Opt r1 => ngroups r1
  | Group _ r1 => S (ngroups r1)
  | _ => 0
  end.

(** An element of the list [re.findall] returns: a string when the
    pattern has no group (the whole match) or one group (that group
    alone), a tuple of all the groups when it has several. A group that
    took no part in the match shows as the empty string. *)
Inductive found : Type :=
| FStr (s : string)
| FTuple (l : list string).

Definition group_or_empty (m : rmatch) (i : nat) : string :=
  match group m i with Some v => v | None => EmptyString end.

Definition found_of (r : regex) (m : rmatch) : found :=
  match ngroups r with
  | 0 => FStr (m_text m)
  | 1 => FStr (group_or_empty m 1)
  | n => FTuple (map (group_or_empty m) (seq 1 n))
  end.

(** [re.findall]: successive non-overlapping matches, left to right.
    Each round consumes at least one character, so a fuel of one more
    than the length of the text is never exhausted. After an empty match
    the scan moves one character on; none of the patterns given to
    [findall] in the parser matches the empty string. *)
Fixpoint findall_from (fuel : nat) (r : regex) (pv : option ascii)
    (s : string) : list found :=
  match fuel with
  | O => []
  | S fuel' =>
      match search_from r pv s with
      | None => []
      | Some m =>
          let st := m_end m in
          found_of r m ::
          match m_text m, rest st with
          | EmptyString, String c s' => findall_from fuel' r (Some c) s'
          | EmptyString, EmptyString => []
          | _, s' => findall_from fuel' r (prev st) s'
          end
      end
  end.

Definition findall (r : regex) (s : string) : list found :=
  findall_from (S (String.length s)) r None s.

(** *** Building patterns *)

Definition chr (c : ascii) : regex := Cls (Ascii.eqb c).

(** A literal word. *)
Fixpoint lit (w : string) : regex :=
  match w with
  | EmptyString => Eps
  | String c EmptyString => chr c
  | String c w' => Cat (chr c) (lit w')
  end.

(** [r1 r2 ... rn] *)
Fixpoint cat (l : list regex) : regex :=
  match l with
  | [] => Eps
  | [r] => r
  | r :: l' => Cat r (cat l')
  end.

(** [r1|r2|...|rn] *)
Fixpoint alt (l : list regex) : regex :=
  match l with
  | [] => Eps
  | [r] => r
  | r :: l' => Alt r (alt l')
  end.

Definition words (l : list string) : regex := alt (map lit l).

Definition one_of (chars : string) (c : ascii) : bool :=
  existsb (Ascii.eqb c) (list_ascii_of_string chars).

Definition plus (p : ascii -> bool) : regex := Rep p 1 None.
Definition star (p : ascii -> bool) : regex := Rep p 0 None.
Definition exactly (n : nat) (p : ascii -> bool) : regex := Rep p n (Some n).
Definition opt_cls (p : ascii -> bool) : regex := Rep p 0 (Some 1).

(** [re.sub(pattern, repl, s)] for a replacement without group
    reference: the non-overlapping matches, left to right, give way to
    [repl], the text between them is copied. As for [findall], each round
    consumes a character and the fuel is never exhausted; an empty match
    is replaced and the scan moves one character on. *)
Fixpoint sub_from (fuel : nat) (r : regex) (repl : string)
    (pv : option ascii) (s : string) : string :=
  match fuel with
  | O => s
  | S fuel' =>
      let copy_one :=
        match s with
        | String c s' => String c (sub_from fuel' r repl (Some c) s')
        | EmptyString => EmptyString
        end in
      match match_at r pv s with
      | Some m =>
          match m_text m with
          | EmptyString => repl +:+ copy_one
          | _ => repl +:+ sub_from fuel' r repl (prev (m_end m)) (rest (m_end m))
          end
      | None => copy_one
      end
  end.

Definition sub (r : regex) (repl s : string) : string :=
  sub_from (S (String.length s)) r repl None s.

(** The least number of characters a match of the pattern covers. *)
Fixpoint min_len (r : regex) : nat :=
  match r with
  | Eps | WordB => 0
  | Cls _ => 1
  | Cat r1 r2 => min_len r1 + min_len r2
  | Alt r1 r2 => Nat.min (min_len r1) (min_len r2)
  | Opt _ => 0
  | Rep _ lo _ => lo
  | Group _ r1 => min_len r1
  end.

End Re.

(** ** Python dictionaries with string keys

    Insertion-ordered, as a [dict] is: assigning to a key that is present
    replaces the value in place, a new key goes to the end. *)

Module PyDict.

Definition t (V : Type) : Type := list (string * V).

Fixpoint set {V} (k : string) (v : V) (d : t V) : t V :=
  match d with
  | [] => [(k, v)]
  | (k', v') :: d' =>
      if String.eqb k k' then (k, v) :: d' else (k', v') :: set k v d'
  end.

Fixpoint get {V} (k : string) (d : t V) : option V :=
  match d with
  | [] => None
  | (k', v') :: d' => if String.eqb k k' then Some v' else get k d'
  end.

Definition keys {V} (d : t V) : list string := map fst d.
Definition values {V} (d : t V) : list V := map snd d.

(** [k in d] *)
Definition mem {V} (k : string) (d : t V) : bool :=
  match get k d with Some _ => true | None => false end.

(** Truth value of a dict: non-empty. *)
Definition truthy {V} (d : t V) : bool :=
  match d with [] => false | _ => true end.

End PyDict.

(** ** ats_parser.py *)

Import PyStr.

(** What the parser reads off a spaCy [Doc]: the token texts and the
    texts of the noun chunks. *)
Record Doc : Type := {
  tokens : list string;
  noun_chunks : list string
}.

(** The [metadata] dict of a request; only [has_images] is read, and it
    may be absent. *)
Record Metadata : Type := {
  has_images : option bool
}.

(** The [contact] dict: its keys are fixed, each present or not. *)
Record Contact : Type := {
  email : option string;
  phone : option string;
  linkedin : option string;
  github : option string
}.

Record Education : Type := {
  degree : string;
  level : string
}.

Record Formatting : Type := {
  score : Z;
  issues : list string;
  sections_found : list string;
  word_count : nat
}.

Record ParsedData : Type := {
  pd_sections : PyDict.t string;
  pd_contact : Contact;
  pd_skills : list string;
  pd_experience : list (PyDict.t string);
  pd_education : list Education;
  pd_formatting : Formatting
}.

Record ATSParser : Type := {
  nlp : string -> Doc
}.

(** [self.section_patterns], in the order of the dict literal. *)
Definition section_patterns : list (string * Re.regex) :=
  [ ("contact", Re.Group 1 (Re.words
       ["email"; "phone"; "mobile"; "address"; "linkedin"; "github"]));
    ("summary", Re.Group 1 (Re.words
       ["summary"; "objective"; "profile"; "about"]));
    ("experience", Re.Group 1 (Re.words
       ["experience"; "employment"; "work history"; "professional experience"]));
    ("education", Re.Group 1 (Re.words
       ["education"; "academic"; "qualifications"; "degrees"]));
    ("skills", Re.Group 1 (Re.words
       ["skills"; "technical skills"; "competencies"; "expertise"]));
    ("projects", Re.Group 1 (Re.words ["projects"; "portfolio"]));
    ("certifications", Re.Group 1 (Re.words
       ["certifications"; "licenses"; "credentials"]));
    ("achievements", Re.Group 1 (Re.words
       ["achievements"; "awards"; "honors"; "accomplishments"])) ].

Definition is_some {A} (o : option A) : bool :=
  match o with Some _ => true | None => false end.

(** The inner [for ... break] of [parse_sections]: the first section
    whose pattern is found in the lowered, stripped line, for a line of at
    most five words. *)
Fixpoint first_section (pats : list (string * Re.regex))
    (line_lower line : string) : option string :=
  match pats with
  | [] => None
  | (section_name, pattern) :: pats' =>
      if is_some (Re.search pattern line_lower)
         && (length (split_ws line) <=? 5)%nat
      then Some section_name
      else first_section pats' line_lower line
  end.

Definition section_found (line : string) : option string :=
  first_section section_patterns (strip (lower line)) line.

(** The variables of the loop of [parse_sections]. *)
Record SegState : Type := {
  sections : PyDict.t string;
  current_section : string;
  section_content : list string
}.

(** [if section_content: sections[current_section] = ...] *)
Definition save_section (st : SegState) : PyDict.t string :=
  match section_content st with
  | [] => sections st
  | content =>
      PyDict.set (current_section st) (strip (join nl content)) (sections st)
  end.

Definition segment_step (st : SegState) (line : string) : SegState :=
  match section_found line with
  | Some name =>
      {| sections := save_section st;
         current_section := name;
         section_content := [] |}
  | None =>
      {| sections := sections st;
         current_section := current_section st;
         section_content := section_content st ++ [line] |}
  end.

Definition segment_init : SegState :=
  {| sections := []; current_section := "header"; section_content := [] |}.

Definition parse_sections (text : string) : PyDict.t string :=
  save_section (fold_left segment_step (split_char newline text) segment_init).

(** *** Contact *)

Definition email_pattern : Re.regex :=
  let local c := is_alpha c || is_digit c || Re.one_of "._%+-" c in
  let domain c := is_alpha c || is_digit c || Re.one_of ".-" c in
  let tld c := is_alpha c || Re.one_of "|" c in
  Re.cat [ Re.WordB; Re.plus local; Re.chr "@"; Re.plus domain;
           Re.chr "."; Re.Rep tld 2 None; Re.WordB ].

Definition phone_sep (c : ascii) : bool := Re.one_of "-." c || is_space c.

Definition phone_pattern : Re.regex :=
  Re.cat [ Re.Opt (Re.Group 1 (Re.cat
             [ Re.opt_cls (Ascii.eqb "+"); Re.Rep is_digit 1 (Some 3);
               Re.opt_cls phone_sep ]));
           Re.opt_cls (Ascii.eqb "("); Re.exactly 3 is_digit;
           Re.opt_cls (Ascii.eqb ")"); Re.opt_cls phone_sep;
           Re.exactly 3 is_digit; Re.opt_cls phone_sep;
           Re.exactly 4 is_digit ].

Definition handle_char (c : ascii) : bool := is_word c || Ascii.eqb c "-".

Definition linkedin_pattern : Re.regex :=
  Re.Cat (Re.lit "linkedin.com/in/") (Re.plus handle_char).

Definition github_pattern : Re.regex :=
  Re.Cat (Re.lit "github.com/") (Re.plus handle_char).

(** [l[0]] when [l] is not empty, for the three patterns without group:
    [findall] yields strings for them, the tuple case does not arise
    (lemma [ReFacts.findall_from_strings]). *)
Definition first_str (l : list Re.found) : option string :=
  match l with
  | Re.FStr s :: _ => Some s
  | Re.FTuple ss :: _ => Some (join "" ss)
  | [] => None
  end.

(** ['' .join(phones[0]) if isinstance(phones[0], tuple) else phones[0]] *)
Definition phone_of (l : list Re.found) : option string :=
  match l with
  | Re.FTuple ss :: _ => Some (join "" ss)
  | Re.FStr s :: _ => Some s
  | [] => None
  end.

Definition extract_contact_info (text : string) : Contact :=
  let emails := Re.findall email_pattern text in
  let phones := Re.findall phone_pattern text in
  let linkedin := Re.findall linkedin_pattern (lower text) in
  let github := Re.findall github_pattern (lower text) in
  {| email := first_str emails;
     phone := phone_of phones;
     linkedin := first_str linkedin;
     github := first_str github |}.

(** [contact.get(key)] as a condition: present and not empty. *)
Definition has_field (o : option string) : bool :=
  match o with Some s => truthy s | None => false end.

(** *** Skills, experience, education *)

Definition skill_keywords : list string :=
  [ "python"; "java"; "javascript"; "c++"; "sql"; "html"; "css";
    "react"; "angular"; "vue"; "node"; "django"; "flask"; "spring";
    "aws"; "azure"; "gcp"; "docker"; "kubernetes"; "terraform";
    "machine learning"; "deep learning"; "nlp"; "computer vision";
    "git"; "jira"; "agile"; "scrum"; "ci/cd"; "devops" ].

Definition str_in (s : string) (l : list string) : bool :=
  existsb (String.eqb s) l.

(** [list(set(found_skills))]: each skill once; Python leaves the order
    of the result open, here the first occurrences are kept in order. *)
Definition extract_skills (self : ATSParser) (text : string) : list string :=
  let doc := nlp self (lower text) in
  let from_tokens := List.filter (fun t => str_in t skill_keywords) (tokens doc) in
  let from_chunks :=
    List.filter (fun c => (length (split_ws c) <=? 3)%nat)
           (map lower (noun_chunks doc)) in
  remove_dups (from_tokens ++ from_chunks).

(** The class [[-–]]: the hyphen or the en dash, U+2013, the latter as
    the three bytes of its UTF-8 form. *)
Definition en_dash : string := "–".

Definition dash : Re.regex := Re.Alt (Re.chr "-") (Re.lit en_dash).

(** [(\d{4})\s*[-–]\s*(\d{4}|present|current)] *)
Definition date_pattern : Re.regex :=
  Re.cat [ Re.Group 1 (Re.exactly 4 is_digit); Re.star is_space;
           dash; Re.star is_space;
           Re.Group 2 (Re.alt [ Re.exactly 4 is_digit;
                                Re.lit "present"; Re.lit "current" ]) ].

(** The loop of [extract_experience]: the finished entries and the entry
    being filled, a dict that is empty until a date range is seen. *)
Definition experience_step (acc : list (PyDict.t string) * PyDict.t string)
    (raw : string) : list (PyDict.t string) * PyDict.t string :=
  let '(experiences, current_exp) := acc in
  let line := strip raw in
  if negb (truthy line) then
    if PyDict.truthy current_exp then (experiences ++ [current_exp], [])
    else (experiences, current_exp)
  else
    match Re.search date_pattern (lower line) with
    | Some date_match =>
        (experiences,
         PyDict.set "description" line
           (PyDict.set "duration" (Re.m_text date_match) current_exp))
    | None =>
        if PyDict.truthy current_exp then
          let old := match PyDict.get "description" current_exp with
                     | Some d => d | None => "" end in
          (experiences,
           PyDict.set "description" (old +:+ " " +:+ line) current_exp)
        else (experiences, current_exp)
    end.

Definition extract_experience (text : string) : list (PyDict.t string) :=
  let '(experiences, current_exp) :=
    fold_left experience_step (split_char newline text) ([], []) in
  if PyDict.truthy current_exp then experiences ++ [current_exp]
  else experiences.

Definition dot_opt : Re.regex := Re.opt_cls (Ascii.eqb ".").

(** [b\.?s\.?] and its three siblings. *)
Definition abbrev (a b : ascii) : Re.regex :=
  Re.cat [ Re.chr a; dot_opt; Re.chr b; dot_opt ].

Definition degree_patterns : list Re.regex :=
  [ Re.Group 1 (Re.alt
      [ Re.lit "bachelor"; Re.lit "master"; Re.lit "phd"; Re.lit "doctorate";
        Re.lit "associate"; abbrev "b" "s"; abbrev "m" "s";
        abbrev "b" "a"; abbrev "m" "a" ]);
    Re.Group 1 (Re.words ["undergraduate"; "graduate"; "postgraduate"]) ].

Definition extract_education (text : string) : list Education :=
  flat_map
    (fun line =>
       if existsb (fun pattern => is_some (Re.search pattern (lower line)))
                  degree_patterns
       then [ {| degree := strip line; level := "detected" |} ]
       else [])
    (split_char newline text).

(** *** Formatting *)

Definition required_sections : list string :=
  ["experience"; "education"; "skills"].

Definition truthy_opt (o : option bool) : bool :=
  match o with Some b => b | None => false end.

(** [analyze_formatting], statement by statement: [fa_score] and
    [fa_issues] are the two variables the checks update. *)
Record Audit : Type := {
  fa_score : Z;
  fa_issues : list string
}.

Definition deduct (cond : bool) (points : Z) (issue : string) (a : Audit)
    : Audit :=
  if cond
  then {| fa_score := fa_score a - points; fa_issues := fa_issues a ++ [issue] |}
  else a.

Definition missing_sections (sections : PyDict.t string) : list string :=
  List.filter (fun s => negb (PyDict.mem s sections)) required_sections.

Definition analyze_formatting (text : string) (metadata : Metadata)
    : Formatting :=
  let a0 := {| fa_score := 100; fa_issues := [] |} in
  let a1 := deduct (truthy_opt (has_images metadata)) 10
              "Contains images - may not be ATS-friendly" a0 in
  let word_count := length (split_ws text) in
  let a2 :=
    if (word_count <? 300)%nat
    then deduct true 15 "Resume too short (< 300 words)" a1
    else if (1200 <? word_count)%nat
    then deduct true 5 "Resume too long (> 1200 words, ~2 pages)" a1
    else a1 in
  let sections := parse_sections text in
  let missing := missing_sections sections in
  let a3 :=
    match missing with
    | [] => a2
    | _ => deduct true (10 * Z.of_nat (length missing))
             ("Missing sections: " +:+ join ", " missing) a2
    end in
  let contact := extract_contact_info text in
  let a4 := deduct (negb (has_field (email contact))) 10
              "No email address found" a3 in
  let a5 := deduct (negb (has_field (phone contact))) 5
              "No phone number found" a4 in
  {| score := Z.max 0 (fa_score a5);
     issues := fa_issues a5;
     sections_found := PyDict.keys sections;
     word_count := word_count |}.

Definition parse (self : ATSParser) (text : string) (metadata : Metadata)
    : ParsedData :=
  {| pd_sections := parse_sections text;
     pd_contact := extract_contact_info text;
     pd_skills := extract_skills self text;
     pd_experience := extract_experience text;
     pd_education := extract_education text;
     pd_formatting := analyze_formatting text metadata |}.

(** ** Floats as rationals *)

(** The nearest integer, ties to the even one. *)
Definition round_half_even (q : Q) : Z :=
  let n := Qnum q in
  let d := Zpos (Qden q) in
  let fl := (n / d)%Z in
  let twice := (2 * (n mod d))%Z in
  if (twice <? d)%Z then fl
  else if (d <? twice)%Z then (fl + 1)%Z
  else if Z.even fl then fl else (fl + 1)%Z.

(** [round(x, 2)] *)
Definition round2 (x : Q) : Q :=
  (inject_Z (round_half_even (x * 100)) / 100)%Q.

Definition Qmax (a b : Q) : Q := if Qle_bool a b then b else a.
Definition Qmin (a b : Q) : Q := if Qle_bool a b then a else b.

Definition Qnat (n : nat) : Q := inject_Z (Z.of_nat n).

(** ** Floats as binary64

    The shortlist estimate compares a sum of two products with its
    thresholds; there a float is a double, with the rounding of each
    operation. *)

Set Warnings "-inexact-float".

(** The exact value of a double; 0 for an infinity and for nan. *)
Definition float_to_Q (x : float) : Q :=
  match Prim2SF x with
  | S754_finite s m e =>
      let v := match e with
               | Zneg p => Zpos m # Pos.pow 2 p
               | _ => inject_Z (Zpos m * 2 ^ e)
               end in
      if s then Qopp v else v
  | _ => 0%Q
  end.

(** The double nearest to a rational, ties to the even one: the quotient
    of the numerator by the denominator, which binary64 rounds once. *)
Definition float_of_Q (q : Q) : float :=
  let d := S754_finite false (Qden q) 0 in
  match Qnum q with
  | Z0 => 0%float
  | Zpos n => SF2Prim (SFdiv prec emax (S754_finite false n 0) d)
  | Zneg n => SF2Prim (SFdiv prec emax (S754_finite true n 0) d)
  end.

(** [round(x, 2)] of a float: the exact value is rounded to two decimals,
    ties to even, and the result is the double nearest to that decimal; a
    zero keeps the sign of [x], an infinity and nan are returned as they
    are. *)
Definition py_round2 (x : float) : float :=
  match Prim2SF x with
  | S754_finite s _ _ =>
      let q := round2 (float_to_Q x) in
      if Qeq_bool q 0 then (if s then (-0)%float else 0%float)
      else float_of_Q q
  | _ => x
  end.

(** ** keyword_matcher.py *)

(** One entry of [job_roles.json]; a list that the entry does not have
    reads as the empty list, as [job_data.get(key, [])] does. *)
Record JobData : Type := {
  name : option string;
  core_skills : list string;
  tools : list string;
  frameworks : list string;
  keywords : list string
}.

(** [{}] *)
Definition no_job_data : JobData :=
  {| name := None; core_skills := []; tools := []; frameworks := [];
     keywords := [] |}.

(** The matcher: the table loaded once from [job_roles.json], and the
    scikit-learn computation it calls, [fit_transform] on the two
    documents followed by [cosine_similarity]; [None] stands for the
    exception that [fit_transform] raises on an empty vocabulary. *)
Record KeywordMatcher : Type := {
  job_roles : gmap string JobData;
  tfidf_cosine : string -> string -> option Q
}.

Record KeywordMatch : Type := {
  match_percentage : Q;
  matched_keywords : list string;
  missing_keywords : list string;
  total_required : nat;
  total_matched : nat
}.

Record Categorized : Type := {
  cat_core_skills : list string;
  cat_tools : list string;
  cat_frameworks : list string;
  cat_other : list string
}.

Record KeywordAnalysis : Type := {
  keyword_match : KeywordMatch;
  semantic_similarity : Q;
  categorized_skills : Categorized;
  ka_job_field : string
}.

(** [self.job_roles.get(job_field, {})] *)
Definition job_data_of (self : KeywordMatcher) (job_field : string) : JobData :=
  default no_job_data (job_roles self !! job_field).

(** The list [keywords] that [get_job_keywords] builds with its four
    [extend], in the casing of the table. *)
Definition stored_keywords (job_data : JobData) : list string :=
  core_skills job_data ++ tools job_data ++ frameworks job_data
    ++ keywords job_data.

Definition get_job_keywords (self : KeywordMatcher) (job_field : string)
    : list string :=
  let job_data := job_data_of self job_field in
  map lower (stored_keywords job_data).

(** The loop of [calculate_keyword_match] over the two result lists. *)
Definition keyword_step (resume_text_lower : string)
    (acc : list string * list string) (keyword : string)
    : list string * list string :=
  let '(matched, missing) := acc in
  if contains resume_text_lower (lower keyword)
  then (matched ++ [keyword], missing)
  else (matched, missing ++ [keyword]).

Definition calculate_keyword_match (self : KeywordMatcher)
    (resume_text job_field : string) : KeywordMatch :=
  let job_keywords := get_job_keywords self job_field in
  let resume_text_lower := lower resume_text in
  let '(matched, missing) :=
    fold_left (keyword_step resume_text_lower) job_keywords ([], []) in
  let percentage :=
    match job_keywords with
    | [] => 0%Q
    | _ => (Qnat (length matched) / Qnat (length job_keywords) * 100)%Q
    end in
  {| match_percentage := round2 percentage;
     matched_keywords := matched;
     missing_keywords := firstn 10 missing;
     total_required := length job_keywords;
     total_matched := length matched |}.

Definition calculate_semantic_similarity (self : KeywordMatcher)
    (resume_text job_field : string) : Q :=
  let job_keywords := get_job_keywords self job_field in
  let job_description := join " " job_keywords in
  match tfidf_cosine self resume_text job_description with
  | Some similarity => round2 (similarity * 100)
  | None => 0%Q
  end.

(** The loop of [categorize_skills]: one [append] per skill. *)
Definition categorize_step (core_lower tools_lower frameworks_lower : list string)
    (c : Categorized) (skill : string) : Categorized :=
  let skill_lower := lower skill in
  if str_in skill_lower core_lower then
    {| cat_core_skills := cat_core_skills c ++ [skill];
       cat_tools := cat_tools c; cat_frameworks := cat_frameworks c;
       cat_other := cat_other c |}
  else if str_in skill_lower tools_lower then
    {| cat_core_skills := cat_core_skills c;
       cat_tools := cat_tools c ++ [skill];
       cat_frameworks := cat_frameworks c; cat_other := cat_other c |}
  else if str_in skill_lower frameworks_lower then
    {| cat_core_skills := cat_core_skills c; cat_tools := cat_tools c;
       cat_frameworks := cat_frameworks c ++ [skill];
       cat_other := cat_other c |}
  else
    {| cat_core_skills := cat_core_skills c; cat_tools := cat_tools c;
       cat_frameworks := cat_frameworks c;
       cat_other := cat_other c ++ [skill] |}.

Definition no_skills : Categorized :=
  {| cat_core_skills := []; cat_tools := []; cat_frameworks := [];
     cat_other := [] |}.

Definition categorize_skills (self : KeywordMatcher)
    (extracted_skills : list string) (job_field : string) : Categorized :=
  let job_data := job_data_of self job_field in
  let core_skills_lower := map lower (core_skills job_data) in
  let tools_lower := map lower (tools job_data) in
  let frameworks_lower := map lower (frameworks job_data) in
  fold_left (categorize_step core_skills_lower tools_lower frameworks_lower)
            extracted_skills no_skills.

Definition analyze (self : KeywordMatcher) (resume_text : string)
    (extracted_skills : list string) (job_field : string) : KeywordAnalysis :=
  {| keyword_match := calculate_keyword_match self resume_text job_field;
     semantic_similarity :=
       calculate_semantic_similarity self resume_text job_field;
     categorized_skills := categorize_skills self extracted_skills job_field;
     ka_job_field := default job_field (name (job_data_of self job_field)) |}.

(** ** scorer.py *)

Inductive Grade : Type := GradeA | GradeB | GradeC | GradeD | GradeF.

(** The letter [_get_grade] returns. *)
Definition grade_letter (g : Grade) : string :=
  match g with
  | GradeA => "A" | GradeB => "B" | GradeC => "C" | GradeD => "D"
  | GradeF => "F"
  end.

(** The order F < D < C < B < A. *)
Definition grade_rank (g : Grade) : nat :=
  match g with
  | GradeF => 0 | GradeD => 1 | GradeC => 2 | GradeB => 3 | GradeA => 4
  end.

Definition grade_le (g1 g2 : Grade) : Prop := (grade_rank g1 <= grade_rank g2)%nat.

(** [WEIGHTS['ats']] and the [scores] dict of [calculate_ats_score]: the
    same six keys, in the order of insertion. *)
Record AtsScores : Type := {
  formatting : Q;
  sections_sc : Q;
  readability : Q;
  contact_info : Q;
  length_sc : Q;
  keywords_sc : Q
}.

(** [WEIGHTS['job_fit']] and the [scores] dict of
    [calculate_job_fit_score]. *)
Record JobFitScores : Type := {
  keyword_match_sc : Q;
  semantic_similarity_sc : Q;
  experience_relevance : Q;
  education_fit : Q;
  skills_coverage : Q
}.

Definition ats_weights : AtsScores :=
  {| formatting := 0.20%Q; sections_sc := 0.20%Q; readability := 0.20%Q;
     contact_info := 0.15%Q; length_sc := 0.15%Q; keywords_sc := 0.10%Q |}.

Definition job_fit_weights : JobFitScores :=
  {| keyword_match_sc := 0.40%Q; semantic_similarity_sc := 0.20%Q;
     experience_relevance := 0.20%Q; education_fit := 0.10%Q;
     skills_coverage := 0.10%Q |}.

Record AtsResult : Type := {
  ats_total : Q;
  ats_breakdown : AtsScores;
  ats_grade : Grade
}.

Record JobFitResult : Type := {
  jf_total : Q;
  jf_breakdown : JobFitScores;
  jf_grade : Grade
}.

Definition _get_grade (score : Q) : Grade :=
  if Qle_bool 85%Q score then GradeA
  else if Qle_bool 70%Q score then GradeB
  else if Qle_bool 50%Q score then GradeC
  else if Qle_bool 30%Q score then GradeD
  else GradeF.

(** [sum(scores[key] * WEIGHTS['ats'][key] for key in scores.keys())] *)
Definition ats_weighted_total (s w : AtsScores) : Q :=
  (0 + formatting s * formatting w + sections_sc s * sections_sc w
     + readability s * readability w + contact_info s * contact_info w
     + length_sc s * length_sc w + keywords_sc s * keywords_sc w)%Q.

Definition job_fit_weighted_total (s w : JobFitScores) : Q :=
  (0 + keyword_match_sc s * keyword_match_sc w
     + semantic_similarity_sc s * semantic_similarity_sc w
     + experience_relevance s * experience_relevance w
     + education_fit s * education_fit w
     + skills_coverage s * skills_coverage w)%Q.

Definition ats_required_sections : list string :=
  ["experience"; "education"; "skills"; "contact"].

Definition bonus (cond : bool) (points : Z) : Z := if cond then points else 0%Z.

Definition calculate_ats_score (parsed_data : ParsedData)
    (keyword_analysis : KeywordAnalysis) : AtsResult :=
  let formatting_score := inject_Z (score (pd_formatting parsed_data)) in
  let found := List.filter (fun s => PyDict.mem s (pd_sections parsed_data))
                      ats_required_sections in
  let sections_score :=
    (Qnat (length found) / Qnat (length ats_required_sections) * 100)%Q in
  let word_count := word_count (pd_formatting parsed_data) in
  let readability_score : Q :=
    (if (300 <=? word_count)%nat && (word_count <=? 800)%nat then 100
     else if (800 <? word_count)%nat && (word_count <=? 1200)%nat then 90
     else if (200 <=? word_count)%nat && (word_count <? 300)%nat then 70
     else 50)%Q in
  let contact := pd_contact parsed_data in
  let contact_score :=
    (0 + bonus (has_field (email contact)) 40
       + bonus (has_field (phone contact)) 30
       + bonus (has_field (linkedin contact)) 15
       + bonus (has_field (github contact)) 15)%Z in
  let length_score : Q :=
    (if (300 <=? word_count)%nat && (word_count <=? 1000)%nat then 100
     else Qmax 50 (100 - inject_Z (Z.abs (Z.of_nat word_count - 650)) / 10))%Q in
  let keyword_score :=
    Qmin 100%Q (match_percentage (keyword_match keyword_analysis) * 1.5)%Q in
  let scores :=
    {| formatting := formatting_score; sections_sc := sections_score;
       readability := readability_score;
       contact_info := inject_Z contact_score;
       length_sc := length_score; keywords_sc := keyword_score |} in
  let total_score := ats_weighted_total scores ats_weights in
  {| ats_total := round2 total_score;
     ats_breakdown := scores;
     ats_grade := _get_grade total_score |}.

Definition calculate_job_fit_score (parsed_data : ParsedData)
    (keyword_analysis : KeywordAnalysis) : JobFitResult :=
  let experience_count := length (pd_experience parsed_data) in
  let experience_score : Q :=
    (if (3 <=? experience_count)%nat then 100
     else if (experience_count =? 2)%nat then 80
     else if (experience_count =? 1)%nat then 60
     else 30)%Q in
  let education_count := length (pd_education parsed_data) in
  let education_score := Qmin 100%Q (Qnat (education_count * 50)) in
  let categorized := categorized_skills keyword_analysis in
  let core_skills_count := length (cat_core_skills categorized) in
  let skills_coverage := Qmin 100%Q (Qnat (core_skills_count * 10)) in
  let scores :=
    {| keyword_match_sc := match_percentage (keyword_match keyword_analysis);
       semantic_similarity_sc := semantic_similarity keyword_analysis;
       experience_relevance := experience_score;
       education_fit := education_score;
       skills_coverage := skills_coverage |} in
  let total_score := job_fit_weighted_total scores job_fit_weights in
  {| jf_total := round2 total_score;
     jf_breakdown := scores;
     jf_grade := _get_grade total_score |}.

Record RadarEntry : Type := {
  category : string;
  radar_score : Q
}.

Definition generate_skill_radar_data (keyword_analysis : KeywordAnalysis)
    : list RadarEntry :=
  let categorized := categorized_skills keyword_analysis in
  let capped (n per : nat) := Qmin 100%Q (Qnat (n * per)) in
  [ {| category := "Core Skills";
       radar_score := capped (length (cat_core_skills categorized)) 15 |};
    {| category := "Tools";
       radar_score := capped (length (cat_tools categorized)) 15 |};
    {| category := "Frameworks";
       radar_score := capped (length (cat_frameworks categorized)) 15 |};
    {| category := "Other Skills";
       radar_score := capped (length (cat_other categorized)) 10 |};
    {| category := "Keywords";
       radar_score := match_percentage (keyword_match keyword_analysis) |} ].

(** The dict [calculate_shortlist_probability] returns; the key of the
    label is named after the local variable that fills it. *)
Record Shortlist : Type := {
  probability : string;
  combined_score : float;
  color : string
}.

(** The two scores are doubles, and so are the products, their sum and
    the rounded score of the result; [x >= 80] is [80 <=? x], false of
    nan. *)
Definition calculate_shortlist_probability (ats_score job_fit_score : float)
    : Shortlist :=
  let combined := (ats_score * 0.45 + job_fit_score * 0.55)%float in
  let '(probability, color) :=
    if (80 <=? combined)%float then ("Very High (85-95%)", "#10b981")
    else if (65 <=? combined)%float then ("High (70-85%)", "#3b82f6")
    else if (50 <=? combined)%float then ("Moderate (50-70%)", "#f59e0b")
    else if (35 <=? combined)%float then ("Low (30-50%)", "#ef4444")
    else ("Very Low (< 30%)", "#991b1b") in
  {| probability := probability;
     combined_score := py_round2 combined;
     color := color |}.

(** ** api/routes/analyze.py: the pipeline of [analyze_resume] *)

Record Analysis : Type := {
  parsed_data : ParsedData;
  keyword_analysis : KeywordAnalysis;
  ats_score : AtsResult;
  job_fit_score : JobFitResult;
  skills_radar : list RadarEntry;
  shortlist_prob : Shortlist
}.

(** The two totals, decimals of the scorer, reach the shortlist estimate
    as the doubles nearest to them, the values [round] returns. *)
Definition analyze_resume (ats_parser : ATSParser)
    (keyword_matcher : KeywordMatcher)
    (extracted_text : string) (metadata : Metadata) (job_field : string)
    : Analysis :=
  let parsed_data := parse ats_parser extracted_text metadata in
  let keyword_analysis :=
    analyze keyword_matcher extracted_text (pd_skills parsed_data) job_field in
  let ats_score := calculate_ats_score parsed_data keyword_analysis in
  let job_fit_score := calculate_job_fit_score parsed_data keyword_analysis in
  {| parsed_data := parsed_data;
     keyword_analysis := keyword_analysis;
     ats_score := ats_score;
     job_fit_score := job_fit_score;
     skills_radar := generate_skill_radar_data keyword_analysis;
     shortlist_prob :=
       calculate_shortlist_probability
         (float_of_Q (ats_total ats_score))
         (float_of_Q (jf_total job_fit_score)) |}.

(** ** services/text_extraction.py: [TextExtractor.clean_text] *)

(** [\s+] *)
Definition space_run : Re.regex := Re.plus is_space.

(** The class [\w\s\.\,\-\@\+\(\)\/\:], whose complement is removed. *)
Definition kept_char (c : ascii) : bool :=
  is_word c || is_space c || Re.one_of ".,-@+()/:" c.

(** [[^\w\s\.\,\-\@\+\(\)\/\:]] *)
Definition special_char : Re.regex := Re.Cls (fun c => negb (kept_char c)).

Definition clean_text (text : string) : string :=
  let text1 := Re.sub space_run " " text in
  let text2 := Re.sub special_char "" text1 in
  strip text2.

(** ** The run time: conversions and exceptions *)

From Stdlib Require Import DecimalString.

(** What the run time and the libraries decide: [str(x)] of a float [x]
    and [str(e)] of a FastAPI [HTTPException], which the analysis never
    reads back. *)
Record HTTPException : Type := {
  status_code : Z;
  detail : string
}.

Record PyRuntime : Type := {
  float_str : Q -> string;
  http_exception_str : HTTPException -> string
}.

(** [str(n)] of a non-negative int. *)
Definition nat_str (n : nat) : string :=
  NilZero.string_of_uint (Nat.to_uint n).

(** [f"{x:.0f}"]: the nearest integer, ties to even, with the sign of
    [x]. *)
Definition format_0f (x : Q) : string :=
  let digits := NilZero.string_of_uint (N.to_uint (Z.abs_N (round_half_even x))) in
  if Qle_bool 0 x then digits else "-" +:+ digits.

(** [x < y] on floats. *)
Definition Qlt_bool (x y : Q) : bool := negb (Qle_bool y x).

(** The exceptions met in the routes: those the code raises by itself,
    and [Exception_] for [Exception(msg)] and for whatever a library or
    the operating system raises, with its text. *)
Inductive PyExc : Type :=
| KeyError (key : string)
| ValueError (msg : string)
| Exception_ (msg : string)
| HTTPError (e : HTTPException).

(** [str(e)]; for a [KeyError], the [repr] of the key (a key without quote
    or backslash). *)
Definition exc_str (rt : PyRuntime) (e : PyExc) : string :=
  match e with
  | KeyError key => "'" +:+ key +:+ "'"
  | ValueError msg => msg
  | Exception_ msg => msg
  | HTTPError e => http_exception_str rt e
  end.

Inductive PyResult (A : Type) : Type :=
| Return (a : A)
| Raise (e : PyExc).
Arguments Return {A} a.
Arguments Raise {A} e.

(** ** services/text_extraction.py: extraction

    The three libraries are fields of the extractor. A PDF opened by
    PyMuPDF is the list of its pages, a DOCX document its paragraphs, the
    number of its tables and the targets of its relationships. Of the
    metadata only the key [has_images], the one the parser reads, is
    kept. *)

Record Page : Type := {
  get_text : string;
  get_images : nat
}.

Record Docx : Type := {
  paragraphs : list string;
  tables : nat;
  rels : list string
}.

Record TextExtractor : Type := {
  fitz_open : string -> PyResult (list Page);
  pdf_extract_text : string -> PyResult string;
  Document : string -> PyResult Docx
}.

(** The dict of [extract_from_pdf] and [extract_from_docx]. *)
Record RawExtraction : Type := {
  raw_text : string;
  raw_metadata : Metadata;
  raw_method : string
}.

(** The same dict once [extract] has cleaned the text and added the key
    [word_count]. *)
Record Extraction : Type := {
  ex_text : string;
  ex_metadata : Metadata;
  extraction_method : string;
  ex_word_count : nat
}.

(** The [except] branch of [extract_from_pdf]. *)
Definition pdfminer_fallback (self : TextExtractor) (rt : PyRuntime)
    (file_path : string) (e : PyExc) : PyResult RawExtraction :=
  match pdf_extract_text self file_path with
  | Return text =>
      Return {| raw_text := strip text;
                raw_metadata := {| has_images := None |};
                raw_method := "pdfminer" |}
  | Raise fallback_error =>
      Raise (Exception_ ("Failed to extract PDF: " +:+ exc_str rt e
                         +:+ ", Fallback: " +:+ exc_str rt fallback_error))
  end.

Definition extract_from_pdf (self : TextExtractor) (rt : PyRuntime)
    (file_path : string) : PyResult RawExtraction :=
  match fitz_open self file_path with
  | Raise e => pdfminer_fallback self rt file_path e
  | Return doc =>
      let text := fold_left (fun text page => text +:+ get_text page)
                            doc "" in
      let metadata :=
        {| has_images :=
             Some (existsb (fun page => (0 <? get_images page)%nat) doc) |} in
      if negb (truthy (strip text))
      then match pdf_extract_text self file_path with
           | Raise e => pdfminer_fallback self rt file_path e
           | Return text' =>
               Return {| raw_text := strip text';
                         raw_metadata := metadata;
                         raw_method := "PyMuPDF" |}
           end
      else Return {| raw_text := strip text;
                     raw_metadata := metadata;
                     raw_method := "PyMuPDF" |}
  end.

Definition extract_from_docx (self : TextExtractor) (rt : PyRuntime)
    (file_path : string) : PyResult RawExtraction :=
  match Document self file_path with
  | Raise e => Raise (Exception_ ("Failed to extract DOCX: " +:+ exc_str rt e))
  | Return doc =>
      let text := join nl (paragraphs doc) in
      let metadata :=
        {| has_images :=
             Some (existsb truthy
                     (List.filter (fun target_ref => contains target_ref "image")
                                  (rels doc))) |} in
      Return {| raw_text := strip text;
                raw_metadata := metadata;
                raw_method := "python-docx" |}
  end.

Definition extract (self : TextExtractor) (rt : PyRuntime)
    (file_path file_type : string) : PyResult Extraction :=
  let result :=
    if String.eqb file_type "pdf" then extract_from_pdf self rt file_path
    else if existsb (String.eqb file_type) ["doc"; "docx"]
    then extract_from_docx self rt file_path
    else Raise (ValueError ("Unsupported file type: " +:+ file_type)) in
  match result with
  | Raise e => Raise e
  | Return result =>
      let text := clean_text (raw_text result) in
      Return {| ex_text := text;
                ex_metadata := raw_metadata result;
                extraction_method := raw_method result;
                ex_word_count := length (split_ws text) |}
  end.

(** ** core/config.py and api/routes/upload.py *)

Record Settings : Type := {
  MAX_FILE_SIZE : Z;
  UPLOAD_DIR : string
}.

(** The defaults of the class; an environment file may override them. *)
Definition default_settings : Settings :=
  {| MAX_FILE_SIZE := 5 * 1024 * 1024; UPLOAD_DIR := "uploads" |}.

Record UploadFile : Type := {
  content_type : option string;
  filename : option string;
  file_bytes : string
}.

(** The files of the host, by path. *)
Definition Disk : Type := gmap string string.

(** What the host decides during one upload: the two identifiers drawn,
    whether opening and writing the file fail, and the time. *)
Record UploadEnv : Type := {
  uuid4_first : string;
  uuid4_second : string;
  open_error : string -> option PyExc;
  write_error : string -> string -> option PyExc;
  now_isoformat : string
}.

Record UploadResponse : Type := {
  up_resume_id : string;
  up_file_name : string;
  up_file_path : string;
  up_job_field : string;
  up_user_id : string;
  up_extracted_text : string;
  up_metadata : Metadata;
  up_word_count : nat;
  up_upload_time : string;
  up_status : string
}.

Definition allowed_types : list string :=
  ["application/pdf"; "application/msword";
   "application/vnd.openxmlformats-officedocument.wordprocessingml.document"].

(** [x in allowed_types] for a content type that may be [None]. *)
Definition type_allowed (t : option string) : bool :=
  match t with
  | Some t => existsb (String.eqb t) allowed_types
  | None => false
  end.

Fixpoint ends_with_slash (s : string) : bool :=
  match s with
  | EmptyString => false
  | String c EmptyString => Ascii.eqb c "/"
  | String _ s' => ends_with_slash s'
  end.

(** [os.path.join(a, b)] of [posixpath]. *)
Definition path_join (a b : string) : string :=
  if String.prefix "/" b then b
  else if negb (truthy a) || ends_with_slash a then a +:+ b
  else a +:+ "/" +:+ b.

(** The body of the [try] of [upload_resume]: the disk after it and what
    it returns or raises. *)
Definition upload_body (settings : Settings) (env : UploadEnv)
    (text_extractor : TextExtractor) (rt : PyRuntime)
    (file : UploadFile) (job_field user_id : string) (disk : Disk)
    : Disk * PyResult UploadResponse :=
  if negb (type_allowed (content_type file))
  then (disk, Raise (HTTPError
          {| status_code := 400;
             detail := "Invalid file type. Only PDF and DOC/DOCX allowed." |}))
  else
  let contents := file_bytes file in
  if (MAX_FILE_SIZE settings <? Z.of_nat (String.length contents))%Z
  then (disk, Raise (HTTPError
          {| status_code := 400;
             detail := "File size exceeds 5MB limit." |}))
  else
  match filename file with
  | None =>
      (disk, Raise (Exception_ "'NoneType' object has no attribute 'split'"))
  | Some name =>
      let file_extension := List.last (split_char "." name) "" in
      let unique_filename := uuid4_first env +:+ "." +:+ file_extension in
      let file_path := path_join (UPLOAD_DIR settings) unique_filename in
      match open_error env file_path with
      | Some e => (disk, Raise e)
      | None =>
          let disk := <[file_path := ""]> disk in
          match write_error env file_path contents with
          | Some e => (disk, Raise e)
          | None =>
              let disk := <[file_path := contents]> disk in
              match extract text_extractor rt file_path file_extension with
              | Raise e => (disk, Raise e)
              | Return extracted_data =>
                  (disk,
                   Return {| up_resume_id := uuid4_second env;
                             up_file_name := name;
                             up_file_path := file_path;
                             up_job_field := job_field;
                             up_user_id := user_id;
                             up_extracted_text := ex_text extracted_data;
                             up_metadata := ex_metadata extracted_data;
                             up_word_count := ex_word_count extracted_data;
                             up_upload_time := now_isoformat env;
                             up_status := "success" |})
              end
          end
      end
  end.

(** The route: [except Exception] catches whatever the body raises, its
    own [HTTPException] included. *)
Definition upload_resume (settings : Settings) (env : UploadEnv)
    (text_extractor : TextExtractor) (rt : PyRuntime)
    (file : UploadFile) (job_field user_id : string) (disk : Disk)
    : Disk * (UploadResponse + HTTPException) :=
  match upload_body settings env text_extractor rt file job_field user_id
                    disk with
  | (disk, Return response_data) => (disk, inl response_data)
  | (disk, Raise e) =>
      (disk, inr {| status_code := 500;
                    detail := "Upload failed: " +:+ exc_str rt e |})
  end.

(** ** services/ai_feedback.py

    The constants of this file hold characters outside ASCII (pictograms,
    check marks, bullets); they are kept as their UTF-8 bytes. *)

(** The generator: its OpenAI client, if an API key is set. The client is
    the chat completion as a function from the prompt to the content of
    the first choice, [None] when the call or the access raises. *)
Record AIFeedbackGenerator : Type := {
  client : option (string -> option string)
}.

(** The dict [analysis_data]; the key ['suggestions'] may be absent. *)
Record AnalysisData : Type := {
  ad_ats : AtsResult;
  ad_job_fit : JobFitResult;
  ad_keyword_analysis : KeywordAnalysis;
  ad_parsed_data : ParsedData;
  ad_job_field : string;
  ad_shortlist_probability : Shortlist;
  ad_suggestions : option (list string)
}.

Definition ats_hint : string :=
  "🔧 **ATS Compatibility**: Your resume scored below 70% for ATS compatibility. Focus on simplifying formatting and using standard section headers.".
Definition images_hint : string :=
  "📷 **Remove Images**: ATS systems cannot read images. Replace with text descriptions.".
Definition short_hint : string :=
  "📝 **Expand Content**: Add more details about your experience and achievements (aim for 500-800 words).".
Definition long_hint : string :=
  "✂️ **Reduce Length**: Trim your resume to 1-2 pages by focusing on most relevant experiences.".
Definition sections_hint (issue : string) : string :=
  "📋 **Add Sections**: " +:+ issue.
Definition job_fit_hint (job_fit_score : Q) : string :=
  "🎯 **Improve Job Match**: Your resume matches only "
  +:+ format_0f job_fit_score
  +:+ "% with the target role. Add relevant keywords and experiences.".
Definition keywords_hint (top_missing : list string) : string :=
  "🔑 **Add Keywords**: Include these high-value skills: "
  +:+ join ", " top_missing.
Definition experience_hint : string :=
  "💼 **Quantify Achievements**: Add numbers and metrics to your experience bullets (e.g., 'Increased sales by 30%').".
Definition skills_hint : string :=
  "🛠️ **Expand Skills Section**: Add more technical skills relevant to your target role.".

(** The body of [for issue in formatting_issues]. *)
Definition issue_step (suggestions : list string) (issue : string)
    : list string :=
  let issue_lower := lower issue in
  if contains issue_lower "image" then suggestions ++ [images_hint]
  else if contains issue_lower "short" then suggestions ++ [short_hint]
  else if contains issue_lower "long" then suggestions ++ [long_hint]
  else if contains issue_lower "section"
       then suggestions ++ [sections_hint issue]
  else suggestions.

(** [suggestions.append(...)] under a condition. *)
Definition append_if (cond : bool) (s : string) (suggestions : list string)
    : list string :=
  if cond then suggestions ++ [s] else suggestions.

(** [generate_suggestions] up to the test of [self.client]. *)
Definition rule_suggestions (analysis_data : AnalysisData) : list string :=
  let ats_score := ats_total (ad_ats analysis_data) in
  let job_fit_score := jf_total (ad_job_fit analysis_data) in
  let missing_keywords :=
    missing_keywords (keyword_match (ad_keyword_analysis analysis_data)) in
  let formatting_issues :=
    issues (pd_formatting (ad_parsed_data analysis_data)) in
  let s1 := append_if (Qlt_bool ats_score 70) ats_hint [] in
  let s2 := fold_left issue_step formatting_issues s1 in
  let s3 := append_if (Qlt_bool job_fit_score 60)
              (job_fit_hint job_fit_score) s2 in
  let s4 := append_if (0 <? length missing_keywords)%nat
              (keywords_hint (firstn 5 missing_keywords)) s3 in
  let exp_score :=
    experience_relevance (jf_breakdown (ad_job_fit analysis_data)) in
  let s5 := append_if (Qlt_bool exp_score 70) experience_hint s4 in
  let skills_score :=
    skills_coverage (jf_breakdown (ad_job_fit analysis_data)) in
  append_if (Qlt_bool skills_score 60) skills_hint s5.

Definition dquote : string := String (ascii_of_nat 34) EmptyString.

(** The prompt of [_generate_ai_suggestions], with the indentation of the
    source. *)
Definition ai_prompt (rt : PyRuntime) (analysis_data : AnalysisData) : string :=
  let pad := "            " in
  join nl
    [ "";
      pad +:+ "Based on this resume analysis, provide 2-3 specific, actionable improvement suggestions:";
      pad;
      pad +:+ "ATS Score: "
        +:+ float_str rt (ats_total (ad_ats analysis_data)) +:+ "%";
      pad +:+ "Job Fit Score: "
        +:+ float_str rt (jf_total (ad_job_fit analysis_data)) +:+ "%";
      pad +:+ "Target Role: " +:+ ad_job_field analysis_data;
      pad +:+ "Missing Keywords: "
        +:+ join ", " (firstn 5 (missing_keywords
              (keyword_match (ad_keyword_analysis analysis_data))));
      pad;
      pad +:+ "Focus on practical improvements that will increase both ATS compatibility and job match percentage.";
      pad +:+ "Format each suggestion as: " +:+ dquote
        +:+ "emoji **Title**: Description" +:+ dquote;
      pad ].

(** [[s.strip() for s in ai_text.split('\n') if s.strip()]] *)
Definition reply_lines (ai_text : string) : list string :=
  map strip (List.filter (fun s => truthy (strip s))
                         (split_char newline ai_text)).

(** Every exception of the body, the missing client included, ends in
    the empty list. *)
Definition _generate_ai_suggestions (self : AIFeedbackGenerator)
    (rt : PyRuntime) (analysis_data : AnalysisData) : list string :=
  match client self with
  | None => []
  | Some create =>
      match create (ai_prompt rt analysis_data) with
      | Some ai_text => firstn 3 (reply_lines ai_text)
      | None => []
      end
  end.

Definition generate_suggestions (self : AIFeedbackGenerator)
    (rt : PyRuntime) (analysis_data : AnalysisData) : list string :=
  let suggestions := rule_suggestions analysis_data in
  let suggestions :=
    match client self with
    | Some _ => suggestions ++ _generate_ai_suggestions self rt analysis_data
    | None => suggestions
    end in
  firstn 8 suggestions.

(** [str(match_percentage)]: the int 0 when the profile has no keyword,
    a float otherwise. *)
Definition percentage_str (rt : PyRuntime) (km : KeywordMatch) : string :=
  match total_required km with
  | O => "0"
  | _ => float_str rt (match_percentage km)
  end.

(** [f'{i+1}. {s}' for i, s in enumerate(l)], from index [i]. *)
Fixpoint numbered (i : nat) (l : list string) : list string :=
  match l with
  | [] => []
  | s :: l' => (nat_str (i + 1) +:+ ". " +:+ s) :: numbered (S i) l'
  end.

Definition rule_line : string := "===========================================".

(** [generate_detailed_report]: the fields of the f-string are read from
    left to right, the last one is [analysis_data['suggestions']]. *)
Definition generate_detailed_report (rt : PyRuntime)
    (analysis_data : AnalysisData) : PyResult string :=
  let ka := ad_keyword_analysis analysis_data in
  let km := keyword_match ka in
  match ad_suggestions analysis_data with
  | None => Raise (KeyError "suggestions")
  | Some suggestions =>
      let report :=
        join nl
          [ ""; rule_line; "        RESUME ANALYSIS REPORT"; rule_line; "";
            "TARGET ROLE: " +:+ ad_job_field analysis_data; "";
            "SCORES:"; "-------";
            "✓ ATS Compatibility: "
              +:+ float_str rt (ats_total (ad_ats analysis_data))
              +:+ "% (Grade: "
              +:+ grade_letter (ats_grade (ad_ats analysis_data)) +:+ ")";
            "✓ Job Field Fit: "
              +:+ float_str rt (jf_total (ad_job_fit analysis_data))
              +:+ "% (Grade: "
              +:+ grade_letter (jf_grade (ad_job_fit analysis_data)) +:+ ")";
            "✓ Shortlist Probability: "
              +:+ probability (ad_shortlist_probability analysis_data);
            ""; "KEYWORD ANALYSIS:"; "-----------------";
            "✓ Keywords Matched: " +:+ nat_str (total_matched km)
              +:+ "/" +:+ nat_str (total_required km);
            "✓ Match Percentage: " +:+ percentage_str rt km +:+ "%";
            "✓ Semantic Similarity: "
              +:+ float_str rt (semantic_similarity ka) +:+ "%";
            ""; "TOP MISSING KEYWORDS:";
            join nl (map (fun k => "  • " +:+ k)
                         (firstn 10 (missing_keywords km)));
            ""; "SUGGESTIONS FOR IMPROVEMENT:";
            "----------------------------";
            join nl (numbered 0 suggestions);
            ""; rule_line; "        " ] in
      Return (strip report)
  end.

(** ** api/routes/analyze.py: the route [analyze_resume] *)

Record AnalyzeRequest : Type := {
  resume_id : string;
  extracted_text : string;
  rq_metadata : Metadata;
  rq_job_field : string;
  user_id : string
}.

(** The response dict, its nested dicts flattened. *)
Record AnalyzeResponse : Type := {
  analysis_id : string;
  rs_user_id : string;
  rs_job_field : string;
  rs_ats_score : Q;
  rs_ats_grade : Grade;
  rs_ats_breakdown : AtsScores;
  rs_job_fit_score : Q;
  rs_job_fit_grade : Grade;
  rs_job_fit_breakdown : JobFitScores;
  rs_shortlist_probability : Shortlist;
  rs_match_percentage : Q;
  rs_matched_keywords : list string;
  rs_missing_keywords : list string;
  rs_semantic_similarity : Q;
  rs_categorized_skills : Categorized;
  rs_skills_radar_data : list RadarEntry;
  rs_contact : Contact;
  rs_sections_found : list string;
  rs_experience_count : nat;
  rs_education_count : nat;
  rs_formatting_analysis : Formatting;
  rs_suggestions : list string;
  rs_detailed_report : string;
  rs_status : string
}.

(** The dict literal that [analyze_resume] hands to the feedback
    generator: five keys, ['suggestions'] not among them. *)
Definition analysis_data_of (a : Analysis) : AnalysisData :=
  {| ad_ats := ats_score a;
     ad_job_fit := job_fit_score a;
     ad_keyword_analysis := keyword_analysis a;
     ad_parsed_data := parsed_data a;
     ad_job_field := ka_job_field (keyword_analysis a);
     ad_shortlist_probability := shortlist_prob a;
     ad_suggestions := None |}.

(** The route: the pipeline, then the suggestions and the report, all
    inside [try]; every exception becomes an HTTP error 500. *)
Definition analyze_resume_route (ats_parser : ATSParser)
    (keyword_matcher : KeywordMatcher)
    (feedback_generator : AIFeedbackGenerator) (rt : PyRuntime)
    (request : AnalyzeRequest) : AnalyzeResponse + HTTPException :=
  let a := analyze_resume ats_parser keyword_matcher
             (extracted_text request) (rq_metadata request)
             (rq_job_field request) in
  let analysis_data := analysis_data_of a in
  let suggestions :=
    generate_suggestions feedback_generator rt analysis_data in
  match generate_detailed_report rt analysis_data with
  | Raise e =>
      inr {| status_code := 500;
             detail := "Analysis failed: " +:+ exc_str rt e |}
  | Return detailed_report =>
      let km := keyword_match (keyword_analysis a) in
      inl {| analysis_id := resume_id request;
             rs_user_id := user_id request;
             rs_job_field := rq_job_field request;
             rs_ats_score := ats_total (ats_score a);
             rs_ats_grade := ats_grade (ats_score a);
             rs_ats_breakdown := ats_breakdown (ats_score a);
             rs_job_fit_score := jf_total (job_fit_score a);
             rs_job_fit_grade := jf_grade (job_fit_score a);
             rs_job_fit_breakdown := jf_breakdown (job_fit_score a);
             rs_shortlist_probability := shortlist_prob a;
             rs_match_percentage := match_percentage km;
             rs_matched_keywords := matched_keywords km;
             rs_missing_keywords := missing_keywords km;
             rs_semantic_similarity := semantic_similarity (keyword_analysis a);
             rs_categorized_skills := categorized_skills (keyword_analysis a);
             rs_skills_radar_data := skills_radar a;
             rs_contact := pd_contact (parsed_data a);
             rs_sections_found := PyDict.keys (pd_sections (parsed_data a));
             rs_experience_count := length (pd_experience (parsed_data a));
             rs_education_count := length (pd_education (parsed_data a));
             rs_formatting_analysis := pd_formatting (parsed_data a);
             rs_suggestions := suggestions;
             rs_detailed_report := detailed_report;
             rs_status := "completed" |}
  end.

(** * Properties

    The vocabulary of the statements comes first, then the lemmas, one
    component at a time. *)

(** ** Vocabulary: segmenter *)

(** A run: the lines gathered between two header lines, with the label
    they were gathered under. *)
Definition Run : Type := (string * list string)%type.

Definition emit (label : string) (content : list string) : list Run :=
  match content with [] => [] | _ => [(label, content)] end.

(** The runs of a list of lines, in order: [label] and [content] are the
    label in force and the lines gathered under it so far. A run is
    recorded when a header line or the end of the text closes it, unless
    it has no line. *)
Fixpoint runs (label : string) (content lines : list string) : list Run :=
  match lines with
  | [] => emit label content
  | line :: lines' =>
      match section_found line with
      | Some name => emit label content ++ runs name [] lines'
      | None => runs label (content ++ [line]) lines'
      end
  end.

Definition segments (text : string) : list Run :=
  runs "header" [] (split_char newline text).

(** The block stored for a run. *)
Definition block_of (content : list string) : string := strip (join nl content).

Definition store_run (d : PyDict.t string) (r : Run) : PyDict.t string :=
  PyDict.set (fst r) (block_of (snd r)) d.

(** The last run recorded under a label, if any. *)
Fixpoint last_run (label : string) (rs : list Run) : option (list string) :=
  match rs with
  | [] => None
  | (l, content) :: rs' =>
      match last_run label rs' with
      | Some c => Some c
      | None => if String.eqb label l then Some content else None
      end
  end.

Definition is_header (line : string) : bool := is_some (section_found line).

Definition body_lines (text : string) : list string :=
  List.filter (fun l => negb (is_header l)) (split_char newline text).

Definition resume_once : string :=
  lines ["Jane Doe"; "Experience"; "2020-2022 Engineer"; "Skills"; "python sql"].

Definition resume_twice : string :=
  lines ["Skills"; "Python"; "Skills"; "Java"].

(** ** Vocabulary: keyword matcher *)

(** The test of [calculate_keyword_match] on one keyword. *)
Definition hit (resume_text_lower keyword : string) : bool :=
  contains resume_text_lower (lower keyword).

(** Case-insensitive membership of a skill in a list of the table. *)
Definition member_ci (skill : string) (l : list string) : bool :=
  str_in (lower skill) (map lower l).

Inductive Bucket : Type := Core | Tools | Frameworks | Other.

(** The bucket of a skill: core before tools before frameworks, and
    other for the rest. *)
Definition bucket_of (job_data : JobData) (skill : string) : Bucket :=
  if member_ci skill (core_skills job_data) then Core
  else if member_ci skill (tools job_data) then Tools
  else if member_ci skill (frameworks job_data) then Frameworks
  else Other.

Definition bucket_eqb (a b : Bucket) : bool :=
  match a, b with
  | Core, Core | Tools, Tools | Frameworks, Frameworks | Other, Other => true
  | _, _ => false
  end.

Definition in_bucket (job_data : JobData) (b : Bucket) (skill : string) : bool :=
  bucket_eqb (bucket_of job_data skill) b.

Definition bucket_list (c : Categorized) (b : Bucket) : list string :=
  match b with
  | Core => cat_core_skills c
  | Tools => cat_tools c
  | Frameworks => cat_frameworks c
  | Other => cat_other c
  end.

(** The cosine of two vectors with no negative coordinate. *)
Definition cosine_in_unit (m : KeywordMatcher) : Prop :=
  forall a b q, tfidf_cosine m a b = Some q -> (0 <= q <= 1)%Q.

Definition casing_matcher : KeywordMatcher :=
  {| job_roles :=
       {[ "backend" := {| name := Some "Backend Developer";
                          core_skills := ["Python"]; tools := [];
                          frameworks := []; keywords := [] |} ]};
     tfidf_cosine := fun _ _ => None |}.

Definition empty_matcher : KeywordMatcher :=
  {| job_roles := ∅; tfidf_cosine := fun _ _ => None |}.

(** ** Vocabulary: formatting audit *)

(** The issues the audit can raise. *)
Record Issues : Type := {
  i_images : bool;
  i_short : bool;
  i_long : bool;
  i_missing : list string;
  i_no_email : bool;
  i_no_phone : bool
}.

Definition issues_of (text : string) (metadata : Metadata) : Issues :=
  let word_count := length (split_ws text) in
  let contact := extract_contact_info text in
  {| i_images := truthy_opt (has_images metadata);
     i_short := (word_count <? 300)%nat;
     i_long := (1200 <? word_count)%nat;
     i_missing := missing_sections (parse_sections text);
     i_no_email := negb (has_field (email contact));
     i_no_phone := negb (has_field (phone contact)) |}.

Definition points (cond : bool) (p : Z) : Z := if cond then p else 0%Z.

(** The fixed deductions, in the order of evaluation. *)
Definition penalty (i : Issues) : Z :=
  (points (i_images i) 10 + points (i_short i) 15 + points (i_long i) 5
   + 10 * Z.of_nat (length (i_missing i))
   + points (i_no_email i) 10 + points (i_no_phone i) 5)%Z.

Definition said (cond : bool) (issue : string) : list string :=
  if cond then [issue] else [].

Definition issue_list (i : Issues) : list string :=
  said (i_images i) "Contains images - may not be ATS-friendly"
  ++ said (i_short i) "Resume too short (< 300 words)"
  ++ said (i_long i) "Resume too long (> 1200 words, ~2 pages)"
  ++ said (negb (Nat.eqb (length (i_missing i)) 0))
          ("Missing sections: " +:+ join ", " (i_missing i))
  ++ said (i_no_email i) "No email address found"
  ++ said (i_no_phone i) "No phone number found".

(** [a] raises no issue that [b] does not raise. *)
Definition issues_le (a b : Issues) : Prop :=
  (i_images a = true -> i_images b = true)
  /\ (i_short a = true -> i_short b = true)
  /\ (i_long a = true -> i_long b = true)
  /\ (length (i_missing a) <= length (i_missing b))%nat
  /\ (i_no_email a = true -> i_no_email b = true)
  /\ (i_no_phone a = true -> i_no_phone b = true).

Definition with_images (b : bool) : Metadata := {| has_images := Some b |}.

(** ** Vocabulary: scenarios *)

Definition empty_doc : Doc := {| tokens := []; noun_chunks := [] |}.

(** A language model that finds nothing. *)
Definition silent_parser : ATSParser := {| nlp := fun _ => empty_doc |}.

(** A table with one profile of five keywords; the vectoriser reports
    orthogonal documents. *)
Definition sample_matcher : KeywordMatcher :=
  {| job_roles :=
       {[ "data_scientist" :=
            {| name := Some "Data Scientist";
               core_skills := ["Python"; "SQL"]; tools := ["AWS"];
               frameworks := ["PyTorch"]; keywords := ["statistics"] |} ]};
     tfidf_cosine := fun _ _ => Some 0%Q |}.

Definition contact_line : string :=
  "john@x.com 555-123-4567 linkedin.com/in/john github.com/john".

(** The unrounded totals, the values that [_get_grade] reads. *)
Definition ats_raw_total (pd : ParsedData) (ka : KeywordAnalysis) : Q :=
  ats_weighted_total (ats_breakdown (calculate_ats_score pd ka)) ats_weights.

Definition job_fit_raw_total (pd : ParsedData) (ka : KeywordAnalysis) : Q :=
  job_fit_weighted_total (jf_breakdown (calculate_job_fit_score pd ka))
                         job_fit_weights.

(** [combined_score] before it is rounded for the result. *)
Definition combined_of (ats_score job_fit_score : float) : float :=
  (ats_score * 0.45 + job_fit_score * 0.55)%float.

(** ** Vocabulary: further results *)

(** The words of [self.section_patterns], label by label. *)
Definition section_words : list (string * list string) :=
  [ ("contact", ["email"; "phone"; "mobile"; "address"; "linkedin"; "github"]);
    ("summary", ["summary"; "objective"; "profile"; "about"]);
    ("experience",
     ["experience"; "employment"; "work history"; "professional experience"]);
    ("education", ["education"; "academic"; "qualifications"; "degrees"]);
    ("skills", ["skills"; "technical skills"; "competencies"; "expertise"]);
    ("projects", ["projects"; "portfolio"]);
    ("certifications", ["certifications"; "licenses"; "credentials"]);
    ("achievements", ["achievements"; "awards"; "honors"; "accomplishments"]) ].

(** Header detection without regular expressions: the first label one of
    whose words occurs in the line, lowered and stripped, for a line of at
    most five words. *)
Fixpoint label_by_words (table : list (string * list string))
    (line_lower line : string) : option string :=
  match table with
  | [] => None
  | (label, ws) :: table' =>
      if existsb (contains line_lower) ws
         && (length (split_ws line) <=? 5)%nat
      then Some label
      else label_by_words table' line_lower line
  end.

(** The nine labels a section map can hold. *)
Definition section_labels : list string :=
  "header" :: map fst section_patterns.

Definition chars (s : string) : list ascii := list_ascii_of_string s.

(** A line in which [extract_experience] finds a year range. *)
Definition is_dated (raw : string) : bool :=
  let line := strip raw in
  truthy line && is_some (Re.search date_pattern (lower line)).

Definition entry_keys : list string := ["duration"; "description"].

Definition one_line_resume : string :=
  "Jane Doe Experience 2020-2022 Engineer at Acme Skills python sql".

(** An experience entry with its two keys, in the order they are set. *)
Definition entry_ok (e : PyDict.t string) : Prop := PyDict.keys e = entry_keys.

(** 1 when an entry is under construction, 0 otherwise. *)
Definition open_count (cur : PyDict.t string) : nat :=
  if PyDict.truthy cur then 1 else 0.

(** A profile in which one keyword occurs inside another. *)
Definition java_matcher : KeywordMatcher :=
  {| job_roles :=
       {[ "web" := {| name := Some "Web Developer";
                      core_skills := ["JavaScript"; "Java"]; tools := [];
                      frameworks := []; keywords := [] |} ]};
     tfidf_cosine := fun _ _ => None |}.

(** A sub-score on the scale of the composites. *)
Definition percent (q : Q) : Prop := (0 <= q <= 100)%Q.

(** What [clean_text] lets through: word characters, the space, and
    the punctuation of its second pattern. *)
Definition clean_char (c : ascii) : Prop :=
  is_word c = true \/ c = " "%char \/ In c (chars ".,-@+()/:").

(** The suggestions the issues of the audit give rise to, in the order of
    the audit. *)
Definition audit_hints (i : Issues) : list string :=
  said (i_images i) images_hint
  ++ said (i_short i) short_hint
  ++ said (i_long i) long_hint
  ++ said (negb (Nat.eqb (length (i_missing i)) 0))
          (sections_hint ("Missing sections: " +:+ join ", " (i_missing i))).

(** An AI suggestion as the generator lets it through. *)
Definition suggestion_line (s : string) : Prop :=
  s <> "" /\ strip s = s /\ ~ In newline (chars s).

(** The file extensions the extractor knows. *)
Definition known_types : list string := ["pdf"; "doc"; "docx"].

(** A run time, an extractor whose PDF library reads one page, a host
    on which nothing fails, and two uploads. *)
Definition sample_rt : PyRuntime :=
  {| float_str := fun _ => "0.0";
     http_exception_str := fun e => detail e |}.

Definition sample_extractor : TextExtractor :=
  {| fitz_open := fun _ =>
       Return [{| get_text := "Jane Doe, Python developer"; get_images := 0 |}];
     pdf_extract_text := fun _ => Raise (Exception_ "no text layer");
     Document := fun _ => Raise (Exception_ "not a zip file") |}.

Definition sample_env : UploadEnv :=
  {| uuid4_first := "1b4e28ba";
     uuid4_second := "6fa459ea";
     open_error := fun _ => None;
     write_error := fun _ _ => None;
     now_isoformat := "2024-01-01T00:00:00" |}.

Definition sample_upload (name : string) : UploadFile :=
  {| content_type := Some "application/pdf";
     filename := Some name;
     file_bytes := "%PDF-1.4" |}.

Definition sample_request : AnalyzeRequest :=
  {| resume_id := "6fa459ea";
     extracted_text := contact_line;
     rq_metadata := with_images false;
     rq_job_field := "data_scientist";
     user_id := "u1" |}.

(** A double that is a number: a zero or a finite value. *)
Definition is_number (x : float) : bool :=
  match Prim2SF x with
  | S754_zero _ | S754_finite _ _ _ => true
  | _ => false
  end.

(** The exact value of a double in units of [2 ^ -1074], the least
    positive double. *)
Definition scaled (x : spec_float) : Z :=
  match x with
  | S754_finite s m e =>
      let n := (Zpos m * 2 ^ (e + 1074))%Z in
      if s then (- n)%Z else n
  | _ => 0%Z
  end.

(** The label of the bucket of a combined score, as an exact value. *)
Definition bucket_label (v : Q) : string :=
  if Qle_bool 80 v then "Very High (85-95%)"
  else if Qle_bool 65 v then "High (70-85%)"
  else if Qle_bool 50 v then "Moderate (50-70%)"
  else if Qle_bool 35 v then "Low (30-50%)"
  else "Very Low (< 30%)".

(** ** Lists and rationals *)

Lemma filter_all_true {A} (f : A -> bool) (l : list A) :
  (forall x, In x l -> f x = true) -> List.filter f l = l.
Proof.
  induction l as [|a l IH]; simpl; intros H; [reflexivity|].
  rewrite (H a (or_introl eq_refl)), IH; auto.
Qed.

Lemma filter_all_false {A} (f : A -> bool) (l : list A) :
  (forall x, In x l -> f x = false) -> List.filter f l = [].
Proof.
  induction l as [|a l IH]; simpl; intros H; [reflexivity|].
  rewrite (H a (or_introl eq_refl)), IH; auto.
Qed.

Section QFacts.
Local Open Scope Q_scope.

Lemma Qle_bool_spec (a b : Q) : reflect (a <= b) (Qle_bool a b).
Proof. apply iff_reflect. symmetry. apply Qle_bool_iff. Qed.

Lemma Qmin_spec (a b : Q) :
  (a <= b /\ Qmin a b = a) \/ (b < a /\ Qmin a b = b).
Proof.
  unfold Qmin. destruct (Qle_bool_spec a b) as [H | H]; [left | right]; split;
    auto. now apply Qnot_le_lt.
Qed.

Lemma Qmax_spec (a b : Q) :
  (a <= b /\ Qmax a b = b) \/ (b < a /\ Qmax a b = a).
Proof.
  unfold Qmax. destruct (Qle_bool_spec a b) as [H | H]; [left | right]; split;
    auto. now apply Qnot_le_lt.
Qed.

Lemma Qnat_nonneg (n : nat) : 0 <= Qnat n.
Proof. unfold Qnat. change 0 with (inject_Z 0). rewrite <- Zle_Qle. lia. Qed.

Lemma Qnat_le (m n : nat) : (m <= n)%nat -> Qnat m <= Qnat n.
Proof. intros H. unfold Qnat. rewrite <- Zle_Qle. lia. Qed.

Lemma Qnat_pos (n : nat) : (0 < n)%nat -> 0 < Qnat n.
Proof. intros H. unfold Qnat. change 0 with (inject_Z 0). rewrite <- Zlt_Qlt. lia. Qed.

(** A share [m/n*100] of a part in a whole is a percentage. *)
Lemma percentage_bounds (m n : nat) :
  (m <= n)%nat -> (0 < n)%nat ->
  0 <= Qnat m / Qnat n * 100 /\ Qnat m / Qnat n * 100 <= 100.
Proof.
  intros Hmn Hn.
  pose proof (Qnat_pos n Hn) as Pn. pose proof (Qnat_nonneg m) as Pm.
  pose proof (Qnat_le m n Hmn) as Lmn.
  assert (L : 0 <= Qnat m / Qnat n).
  { apply Qle_shift_div_l; [exact Pn|]. lra. }
  assert (U : Qnat m / Qnat n <= 1).
  { apply Qle_shift_div_r; [exact Pn|]. lra. }
  split; lra.
Qed.
End QFacts.

Section Rounding.
Local Open Scope Z_scope.

Lemma round_half_even_lower (k : Z) (q : Q) :
  (inject_Z k <= q)%Q -> k <= round_half_even q.
Proof.
  unfold Qle, round_half_even; simpl. intros H.
  pose proof (Z.div_mod (Qnum q) (Zpos (Qden q)) ltac:(lia)) as E.
  pose proof (Z.mod_pos_bound (Qnum q) (Zpos (Qden q)) ltac:(lia)) as B.
  assert (k <= Qnum q / Zpos (Qden q)) by (apply Z.div_le_lower_bound; lia).
  repeat match goal with |- context [if ?b then _ else _] => destruct b end; lia.
Qed.

Lemma round_half_even_upper (k : Z) (q : Q) :
  (q <= inject_Z k)%Q -> round_half_even q <= k.
Proof.
  unfold Qle, round_half_even; simpl. intros H.
  pose proof (Z.div_mod (Qnum q) (Zpos (Qden q)) ltac:(lia)) as E.
  pose proof (Z.mod_pos_bound (Qnum q) (Zpos (Qden q)) ltac:(lia)) as B.
  set (d := Zpos (Qden q)) in *. set (fl := Qnum q / d) in *.
  set (r := Qnum q mod d) in *.
  assert (fl <= k) by nia.
  destruct (2 * r <? d) eqn:E1; [lia|].
  apply Z.ltb_ge in E1.
  assert (fl + 1 <= k) by nia.
  repeat match goal with |- context [if ?b then _ else _] => destruct b end; lia.
Qed.
End Rounding.

Lemma round2_bounds (lo hi : Z) (x : Q) :
  (inject_Z lo <= x)%Q -> (x <= inject_Z hi)%Q ->
  (inject_Z lo <= round2 x)%Q /\ (round2 x <= inject_Z hi)%Q.
Proof.
  intros Hlo Hhi. unfold round2.
  assert (L : (lo * 100 <= round_half_even (x * 100))%Z).
  { apply round_half_even_lower. rewrite inject_Z_mult.
    apply Qmult_le_compat_r; [exact Hlo | discriminate]. }
  assert (U : (round_half_even (x * 100) <= hi * 100)%Z).
  { apply round_half_even_upper. rewrite inject_Z_mult.
    apply Qmult_le_compat_r; [exact Hhi | discriminate]. }
  rewrite Zle_Qle in L, U. rewrite inject_Z_mult in L, U.
  set (r := inject_Z (round_half_even (x * 100))) in *.
  change (inject_Z 100) with 100%Q in *.
  split; apply Qle_shift_div_l || apply Qle_shift_div_r; try reflexivity; auto.
Qed.

(** ** The matcher consumes text: [findall] never runs out of fuel *)

Module ReFacts.
Import Re.

Lemma substring_length (n : nat) (s : string) :
  String.length (String.substring 0 n s) = Nat.min n (String.length s).
Proof.
  revert n. induction s as [|c s IH]; intros [|n]; simpl; auto.
Qed.

Lemma rep_consumes {A} (p : ascii -> bool) (s : string) :
  forall lo hi pv cs (k : mstate -> option A) x,
    rep p lo hi pv s cs k = Some x ->
    exists st, (String.length (rest st) <= String.length s)%nat
               /\ k st = Some x.
Proof.
  induction s as [|c s IH]; intros lo hi pv cs k x H; simpl in H.
  - destruct (lo =? 0)%nat; [|discriminate]. eexists; split; [|exact H]. simpl; lia.
  - assert (Stop : (if (lo =? 0)%nat then k (MState pv (String c s) cs) else None)
                   = Some x ->
                   exists st, (String.length (rest st) <= S (String.length s))%nat
                              /\ k st = Some x).
    { destruct (lo =? 0)%nat; [|discriminate]. intros E.
      eexists; split; [|exact E]. simpl; lia. }
    destruct (p c && hi_allows hi); [|now apply Stop].
    destruct (rep p (Nat.pred lo) (hi_pred hi) (Some c) s cs k) as [y|] eqn:E;
      simpl in H; [|now apply Stop].
    injection H as ->. apply IH in E. destruct E as (st & L & E).
    exists st. split; [simpl; lia | exact E].
Qed.

Lemma run_consumes {A} (r : regex) :
  forall st (k : mstate -> option A) x,
    run r st k = Some x ->
    exists st', (String.length (rest st') <= String.length (rest st))%nat
                /\ k st' = Some x.
Proof.
  induction r as [|p|r1 IH1 r2 IH2|r1 IH1 r2 IH2|r1 IH1|p lo hi|i r1 IH1|];
    intros st k x H; simpl in H.
  - exists st. split; [lia | exact H].
  - destruct (rest st) as [|c s'] eqn:E; [discriminate|].
    destruct (p c); [|discriminate].
    eexists; split; [|exact H]. simpl; lia.
  - apply IH1 in H. destruct H as (st1 & L1 & H).
    apply IH2 in H. destruct H as (st2 & L2 & H).
    exists st2. split; [lia | exact H].
  - destruct (run r1 st k) as [y|] eqn:E; simpl in H.
    + injection H as ->. now apply IH1.
    + now apply IH2.
  - destruct (run r1 st k) as [y|] eqn:E; simpl in H.
    + injection H as ->. now apply IH1.
    + exists st. split; [lia | exact H].
  - now apply rep_consumes in H.
  - apply IH1 in H. destruct H as (st1 & L1 & H).
    eexists; split; [|exact H]. simpl; lia.
  - destruct (xorb _ _); [|discriminate]. exists st. split; [lia | exact H].
Qed.

Lemma match_at_consumes (r : regex) (pv : option ascii) (s : string) (m : rmatch) :
  match_at r pv s = Some m ->
  (String.length (rest (m_end m)) <= String.length s)%nat
  /\ String.length (m_text m)
     = (String.length s - String.length (rest (m_end m)))%nat.
Proof.
  unfold match_at. intros H. apply run_consumes in H.
  destruct H as (st & L & H). simpl in L. injection H as <-. simpl.
  split; [exact L|]. rewrite substring_length. lia.
Qed.

Lemma search_from_consumes (r : regex) (s : string) :
  forall pv m,
    search_from r pv s = Some m ->
    (String.length (rest (m_end m)) <= String.length s)%nat
    /\ (m_text m <> "" ->
        (String.length (rest (m_end m)) < String.length s)%nat).
Proof.
  induction s as [|c s IH]; intros pv m H; simpl in H.
  - destruct (match_at r pv "") as [m'|] eqn:E; [|discriminate].
    injection H as ->. apply match_at_consumes in E. destruct E as [L T].
    split; [exact L|]. intros N. destruct (m_text m); [congruence|].
    simpl in *. lia.
  - destruct (match_at r pv (String c s)) as [m'|] eqn:E.
    + injection H as ->. apply match_at_consumes in E. destruct E as [L T].
      split; [exact L|]. intros N. destruct (m_text m); [congruence|].
      simpl in *. lia.
    + apply IH in H. destruct H as [L N]. simpl. split; [lia|].
      intros X. specialize (N X). lia.
Qed.

(** Any fuel above the length of the text gives the same list. *)
Lemma findall_from_fuel (r : regex) (fuel1 : nat) :
  forall fuel2 pv s,
    (String.length s < fuel1)%nat -> (String.length s < fuel2)%nat ->
    findall_from fuel1 r pv s = findall_from fuel2 r pv s.
Proof.
  induction fuel1 as [|fuel1 IH]; intros [|fuel2] pv s H1 H2; try lia.
  simpl. destruct (search_from r pv s) as [m|] eqn:E; [|reflexivity].
  apply search_from_consumes in E. destruct E as [L N].
  f_equal. destruct (m_text m) as [|c t] eqn:T.
  - destruct (rest (m_end m)) as [|c' s'] eqn:R; [reflexivity|].
    simpl in L. apply IH; lia.
  - assert (String.length (rest (m_end m)) < String.length s)%nat
      by (apply N; discriminate).
    apply IH; lia.
Qed.

Lemma findall_fuel (r : regex) (s : string) (fuel : nat) :
  (String.length s < fuel)%nat -> findall_from fuel r None s = findall r s.
Proof. intros H. apply findall_from_fuel; [exact H | lia]. Qed.

(** A pattern without group yields strings, the texts of the matches. *)
Lemma findall_from_strings (r : regex) (fuel : nat) :
  ngroups r = 0%nat ->
  forall pv s, Forall (fun f => exists t, f = FStr t) (findall_from fuel r pv s).
Proof.
  intros G. induction fuel as [|fuel IH]; intros pv s; simpl; [constructor|].
  destruct (search_from r pv s) as [m|]; [|constructor].
  constructor.
  - unfold found_of. rewrite G. eauto.
  - destruct (m_text m); [destruct (rest (m_end m)); [constructor|]|]; apply IH.
Qed.

End ReFacts.

(** ** Segmenter *)

Module DictFacts.
Import PyDict.

Lemma get_set {V} (k k' : string) (v : V) (d : t V) :
  get k (set k' v d) = if String.eqb k k' then Some v else get k d.
Proof.
  induction d as [|[k0 v0] d IH]; simpl.
  - reflexivity.
  - destruct (String.eqb k' k0) eqn:E0; simpl.
    + apply String.eqb_eq in E0. subst k0.
      destruct (String.eqb k k'); reflexivity.
    + rewrite IH. destruct (String.eqb k k0) eqn:E1; [|reflexivity].
      apply String.eqb_eq in E1. subst k0.
      rewrite String.eqb_sym, E0. reflexivity.
Qed.

Lemma set_fresh {V} (k : string) (v : V) (d : t V) :
  ~ In k (keys d) -> set k v d = d ++ [(k, v)].
Proof.
  induction d as [|[k0 v0] d IH]; simpl; intros H; [reflexivity|].
  destruct (String.eqb k k0) eqn:E.
  - apply String.eqb_eq in E. subst. tauto.
  - rewrite IH; tauto.
Qed.

Lemma keys_app {V} (d1 d2 : t V) : keys (d1 ++ d2) = keys d1 ++ keys d2.
Proof. apply map_app. Qed.
End DictFacts.

Lemma save_section_emit (st : SegState) :
  save_section st =
  fold_left store_run (emit (current_section st) (section_content st)) (sections st).
Proof. unfold save_section, emit. destruct (section_content st); reflexivity. Qed.

Lemma segment_loop_runs (lines : list string) (st : SegState) :
  save_section (fold_left segment_step lines st) =
  fold_left store_run (runs (current_section st) (section_content st) lines)
            (sections st).
Proof.
  revert st. induction lines as [|line lines IH]; intros st; simpl.
  - apply save_section_emit.
  - unfold segment_step at 2. destruct (section_found line) as [name|].
    + rewrite IH. simpl. rewrite fold_left_app, <- save_section_emit. reflexivity.
    + rewrite IH. reflexivity.
Qed.

Lemma runs_cover (lines : list string) (label : string) (content : list string) :
  concat (map snd (runs label content lines)) =
  content ++ List.filter (fun l => negb (is_header l)) lines.
Proof.
  revert label content. induction lines as [|line lines IH]; intros label content; simpl.
  - unfold emit. destruct content; simpl; now rewrite ?app_nil_r.
  - unfold is_header at 1. destruct (section_found line) as [name|]; simpl.
    + rewrite map_app, concat_app, IH. simpl.
      unfold emit. destruct content; simpl; now rewrite ?app_nil_r.
    + rewrite IH, <- app_assoc. reflexivity.
Qed.

Lemma runs_nonempty (lines : list string) (label : string) (content : list string) :
  Forall (fun r : Run => snd r <> []) (runs label content lines).
Proof.
  revert label content. induction lines as [|line lines IH]; intros label content; simpl.
  - unfold emit. destruct content; repeat constructor. discriminate.
  - destruct (section_found line).
    + apply Forall_app. split; [|apply IH].
      unfold emit. destruct content; repeat constructor. discriminate.
    + apply IH.
Qed.

Lemma get_fold_store (label : string) (rs : list Run) (d : PyDict.t string) :
  PyDict.get label (fold_left store_run rs d) =
  match last_run label rs with
  | Some content => Some (block_of content)
  | None => PyDict.get label d
  end.
Proof.
  revert d. induction rs as [|[l content] rs IH]; intros d; simpl; [reflexivity|].
  rewrite IH. destruct (last_run label rs); [reflexivity|].
  unfold store_run. simpl. rewrite DictFacts.get_set.
  destruct (String.eqb label l); reflexivity.
Qed.

Lemma fold_store_fresh (rs : list Run) (d : PyDict.t string) :
  NoDup (PyDict.keys d ++ map fst rs) ->
  fold_left store_run rs d = d ++ map (fun r : Run => (fst r, block_of (snd r))) rs.
Proof.
  revert d. induction rs as [|[l content] rs IH]; intros d H; simpl.
  - now rewrite app_nil_r.
  - unfold store_run at 2. simpl.
    assert (Hl : ~ In l (PyDict.keys d)).
    { intros Hin. apply NoDup_app in H. destruct H as (_ & H & _).
      apply (H l); apply list_elem_of_In; [exact Hin | now left]. }
    rewrite DictFacts.set_fresh by exact Hl.
    rewrite IH.
    + rewrite <- app_assoc. reflexivity.
    + rewrite DictFacts.keys_app. simpl. rewrite <- app_assoc. exact H.
Qed.

(** ** Keyword matcher *)

Lemma lower_char_idem (c : ascii) : lower_char (lower_char c) = lower_char c.
Proof. destruct c as [[] [] [] [] [] [] [] []]; reflexivity. Qed.

Lemma lower_idem (s : string) : lower (lower s) = lower s.
Proof. induction s as [|c s IH]; simpl; [reflexivity|]. now rewrite lower_char_idem, IH. Qed.

Lemma lower_empty (s : string) : lower s = "" -> s = "".
Proof. destruct s; [reflexivity | discriminate]. Qed.

Lemma keyword_fold (t : string) (kws matched missing : list string) :
  fold_left (keyword_step t) kws (matched, missing) =
  (matched ++ List.filter (hit t) kws,
   missing ++ List.filter (fun k => negb (hit t k)) kws).
Proof.
  revert matched missing.
  induction kws as [|k kws IH]; intros matched missing; simpl.
  - now rewrite !app_nil_r.
  - unfold hit. destruct (contains t (lower k)); simpl;
      rewrite IH; unfold hit; rewrite <- ?app_assoc; reflexivity.
Qed.

Lemma calculate_keyword_match_eq (self : KeywordMatcher) (text jf : string) :
  let kws := get_job_keywords self jf in
  let matched := List.filter (hit (lower text)) kws in
  calculate_keyword_match self text jf =
  {| match_percentage :=
       round2 (match kws with
               | [] => 0%Q
               | _ => (Qnat (length matched) / Qnat (length kws) * 100)%Q
               end);
     matched_keywords := matched;
     missing_keywords :=
       firstn 10 (List.filter (fun k => negb (hit (lower text) k)) kws);
     total_required := length kws;
     total_matched := length matched |}.
Proof.
  intros kws matched. unfold calculate_keyword_match.
  fold kws. rewrite keyword_fold. reflexivity.
Qed.

Lemma bucket_eqb_eq (a b : Bucket) : bucket_eqb a b = true <-> a = b.
Proof. destruct a, b; simpl; split; congruence. Qed.

Lemma categorize_fold (job_data : JobData) (skills : list string) (c : Categorized) :
  fold_left (categorize_step (map lower (core_skills job_data))
                             (map lower (tools job_data))
                             (map lower (frameworks job_data))) skills c =
  {| cat_core_skills := cat_core_skills c ++ List.filter (in_bucket job_data Core) skills;
     cat_tools := cat_tools c ++ List.filter (in_bucket job_data Tools) skills;
     cat_frameworks :=
       cat_frameworks c ++ List.filter (in_bucket job_data Frameworks) skills;
     cat_other := cat_other c ++ List.filter (in_bucket job_data Other) skills |}.
Proof.
  revert c. induction skills as [|s skills IH]; intros c; simpl.
  - rewrite !app_nil_r. now destruct c.
  - rewrite IH. unfold categorize_step, in_bucket, bucket_of, member_ci.
    destruct (str_in (lower s) (map lower (core_skills job_data)));
      [|destruct (str_in (lower s) (map lower (tools job_data)));
        [|destruct (str_in (lower s) (map lower (frameworks job_data)))]];
      simpl; rewrite <- ?app_assoc; reflexivity.
Qed.

Lemma categorize_skills_eq (self : KeywordMatcher) (skills : list string) (jf : string) :
  let job_data := job_data_of self jf in
  categorize_skills self skills jf =
  {| cat_core_skills := List.filter (in_bucket job_data Core) skills;
     cat_tools := List.filter (in_bucket job_data Tools) skills;
     cat_frameworks := List.filter (in_bucket job_data Frameworks) skills;
     cat_other := List.filter (in_bucket job_data Other) skills |}.
Proof. intros job_data. unfold categorize_skills. fold job_data. now rewrite categorize_fold. Qed.

Lemma filter_buckets_perm (job_data : JobData) (skills : list string) :
  Permutation
    (List.filter (in_bucket job_data Core) skills
       ++ List.filter (in_bucket job_data Tools) skills
       ++ List.filter (in_bucket job_data Frameworks) skills
       ++ List.filter (in_bucket job_data Other) skills)
    skills.
Proof.
  induction skills as [|s skills IH]; simpl; [constructor|].
  replace (in_bucket job_data Core s)
    with (bucket_eqb (bucket_of job_data s) Core) by reflexivity.
  replace (in_bucket job_data Tools s)
    with (bucket_eqb (bucket_of job_data s) Tools) by reflexivity.
  replace (in_bucket job_data Frameworks s)
    with (bucket_eqb (bucket_of job_data s) Frameworks) by reflexivity.
  replace (in_bucket job_data Other s)
    with (bucket_eqb (bucket_of job_data s) Other) by reflexivity.
  destruct (bucket_of job_data s); simpl.
  - apply perm_skip, IH.
  - rewrite <- Permutation_middle. apply perm_skip, IH.
  - rewrite app_assoc, <- Permutation_middle, <- app_assoc. apply perm_skip, IH.
  - rewrite !app_assoc, <- Permutation_middle, <- !app_assoc. apply perm_skip, IH.
Qed.

(** ** Formatting audit *)

Lemma short_long_exclusive (text : string) (metadata : Metadata) :
  i_short (issues_of text metadata) && i_long (issues_of text metadata) = false.
Proof.
  simpl. destruct (Nat.ltb_spec (length (split_ws text)) 300);
    destruct (Nat.ltb_spec 1200 (length (split_ws text))); simpl; auto; lia.
Qed.

Lemma missing_at_most_three (sections : PyDict.t string) :
  (length (missing_sections sections) <= 3)%nat.
Proof. unfold missing_sections. apply (filter_length_le _ required_sections). Qed.

Lemma analyze_formatting_eq (text : string) (metadata : Metadata) :
  let i := issues_of text metadata in
  analyze_formatting text metadata =
  {| score := Z.max 0 (100 - penalty i);
     issues := issue_list i;
     sections_found := PyDict.keys (parse_sections text);
     word_count := length (split_ws text) |}.
Proof.
  intros i. subst i.
  pose proof (short_long_exclusive text metadata) as X. revert X.
  unfold analyze_formatting, issues_of, penalty, issue_list.
  cbn [i_images i_short i_long i_missing i_no_email i_no_phone].
  generalize (truthy_opt (has_images metadata)) as img.
  generalize (missing_sections (parse_sections text)) as missing.
  generalize (has_field (email (extract_contact_info text))) as em.
  generalize (has_field (phone (extract_contact_info text))) as ph.
  generalize (PyDict.keys (parse_sections text)) as ks.
  generalize (length (split_ws text) <? 300)%nat as short.
  generalize (1200 <? length (split_ws text))%nat as long.
  generalize (length (split_ws text)) as wc.
  intros wc long short ks ph em missing img X.
  destruct img, short, long, em, ph, missing as [|m0 missing];
    try discriminate X;
    cbn -[Z.of_nat Z.mul Z.sub Z.add Z.max join String.append];
    f_equal; lia.
Qed.

Lemma points_mono (a b : bool) (p : Z) :
  (0 <= p)%Z -> (a = true -> b = true) -> (points a p <= points b p)%Z.
Proof.
  intros Hp H. destruct a, b; simpl; first [lia | discriminate (H eq_refl)].
Qed.

Lemma penalty_mono (a b : Issues) : issues_le a b -> (penalty a <= penalty b)%Z.
Proof.
  intros (Hi & Hs & Hl & Hm & He & Hp). unfold penalty.
  pose proof (points_mono _ _ 10 ltac:(lia) Hi).
  pose proof (points_mono _ _ 15 ltac:(lia) Hs).
  pose proof (points_mono _ _ 5 ltac:(lia) Hl).
  pose proof (points_mono _ _ 10 ltac:(lia) He).
  pose proof (points_mono _ _ 5 ltac:(lia) Hp).
  lia.
Qed.

Lemma penalty_nonneg (i : Issues) : (0 <= penalty i)%Z.
Proof.
  unfold penalty, points.
  destruct (i_images i), (i_short i), (i_long i), (i_no_email i), (i_no_phone i);
    lia.
Qed.

Lemma penalty_at_most_70 (text : string) (metadata : Metadata) :
  (penalty (issues_of text metadata) <= 70)%Z.
Proof.
  pose proof (short_long_exclusive text metadata) as X.
  pose proof (missing_at_most_three (parse_sections text)) as M.
  unfold penalty, points. revert X.
  change (i_missing (issues_of text metadata))
    with (missing_sections (parse_sections text)).
  destruct (i_images _), (i_short _), (i_long _), (i_no_email _), (i_no_phone _);
    simpl; intros X; try discriminate X; lia.
Qed.

(** ** Scoring *)

Section ScoreBounds.
Local Open Scope Q_scope.

Lemma round2_percent (x : Q) : 0 <= x <= 100 -> 0 <= round2 x <= 100.
Proof. intros [L U]. apply (round2_bounds 0 100); assumption. Qed.

Lemma ats_total_bounds (pd : ParsedData) (ka : KeywordAnalysis) :
  (0 <= score (pd_formatting pd) <= 100)%Z ->
  0 <= match_percentage (keyword_match ka) ->
  let total :=
    ats_weighted_total (ats_breakdown (calculate_ats_score pd ka)) ats_weights in
  0 <= total <= 100.
Proof.
  intros [F0 F1] M. unfold calculate_ats_score. cbn [ats_breakdown].
  unfold ats_weighted_total, ats_weights.
  cbn [formatting sections_sc readability contact_info length_sc keywords_sc].
  set (f := inject_Z (score (pd_formatting pd))).
  assert (Hf : 0 <= f <= 100).
  { subst f. change 0 with (inject_Z 0). change 100 with (inject_Z 100).
    rewrite <- !Zle_Qle. lia. }
  set (found := List.filter _ ats_required_sections).
  assert (Hs : 0 <= Qnat (length found) / Qnat (length ats_required_sections) * 100 <= 100).
  { apply percentage_bounds; [apply filter_length_le | simpl; lia]. }
  set (s := Qnat (length found) / _ * 100) in *.
  set (wc := word_count (pd_formatting pd)).
  set (r := if _ : bool then 100 else _).
  assert (Hr : 50 <= r <= 100).
  { subst r. repeat match goal with |- context [if ?b then _ else _] => destruct b end. all: lra. }
  set (cs := (0 + bonus _ 40 + bonus _ 30 + bonus _ 15 + bonus _ 15)%Z).
  assert (Hc : 0 <= inject_Z cs <= 100).
  { change 0 with (inject_Z 0). change 100 with (inject_Z 100).
    rewrite <- !Zle_Qle. subst cs. unfold bonus.
    repeat match goal with |- context [if ?b then _ else _] => destruct b end; lia. }
  set (l := if _ : bool then 100 else Qmax _ _).
  assert (Hl : 50 <= l <= 100).
  { subst l. destruct ((300 <=? wc)%nat && (wc <=? 1000)%nat)%bool; [lra|].
    assert (0 <= inject_Z (Z.abs (Z.of_nat wc - 650)) / 10).
    { apply Qle_shift_div_l; [reflexivity|].
      rewrite Qmult_0_l. change 0 with (inject_Z 0).
      rewrite <- Zle_Qle. lia. }
    destruct (Qmax_spec 50 (100 - inject_Z (Z.abs (Z.of_nat wc - 650)) / 10))
      as [[H1 ->] | [H1 ->]]; lra. }
  set (k := Qmin 100 _).
  assert (Hk : 0 <= k <= 100).
  { subst k.
    destruct (Qmin_spec 100 (match_percentage (keyword_match ka) * 1.5))
      as [[H1 ->] | [H1 ->]]; lra. }
  lra.
Qed.
End ScoreBounds.

Section ScoreBounds2.
Local Open Scope Q_scope.

Lemma capped_bounds (n : nat) : 0 <= Qmin 100 (Qnat n) <= 100.
Proof.
  pose proof (Qnat_nonneg n).
  destruct (Qmin_spec 100 (Qnat n)) as [[H1 ->] | [H1 ->]]; lra.
Qed.

Lemma job_fit_total_bounds (pd : ParsedData) (ka : KeywordAnalysis) :
  0 <= match_percentage (keyword_match ka) <= 100 ->
  0 <= semantic_similarity ka <= 100 ->
  let total :=
    job_fit_weighted_total (jf_breakdown (calculate_job_fit_score pd ka))
                           job_fit_weights in
  0 <= total <= 100.
Proof.
  intros M S. unfold calculate_job_fit_score. cbn [jf_breakdown].
  unfold job_fit_weighted_total, job_fit_weights.
  cbn [keyword_match_sc semantic_similarity_sc experience_relevance
       education_fit skills_coverage].
  set (e := if _ : bool then 100 else _).
  assert (He : 30 <= e <= 100).
  { subst e.
    repeat match goal with |- context [if ?b then _ else _] => destruct b end;
      lra. }
  pose proof (capped_bounds (length (pd_education pd) * 50)).
  pose proof (capped_bounds (length (cat_core_skills (categorized_skills ka)) * 10)).
  lra.
Qed.

Lemma get_grade_spec (t : Q) :
  (85 <= t -> _get_grade t = GradeA)
  /\ (70 <= t < 85 -> _get_grade t = GradeB)
  /\ (50 <= t < 70 -> _get_grade t = GradeC)
  /\ (30 <= t < 50 -> _get_grade t = GradeD)
  /\ (t < 30 -> _get_grade t = GradeF).
Proof.
  unfold _get_grade.
  destruct (Qle_bool_spec 85 t), (Qle_bool_spec 70 t),
    (Qle_bool_spec 50 t), (Qle_bool_spec 30 t);
    repeat split; intros; first [reflexivity | lra].
Qed.

Lemma get_grade_mono (t1 t2 : Q) :
  t1 <= t2 -> grade_le (_get_grade t1) (_get_grade t2).
Proof.
  intros H. unfold _get_grade, grade_le.
  destruct (Qle_bool_spec 85 t1), (Qle_bool_spec 70 t1),
    (Qle_bool_spec 50 t1), (Qle_bool_spec 30 t1),
    (Qle_bool_spec 85 t2), (Qle_bool_spec 70 t2),
    (Qle_bool_spec 50 t2), (Qle_bool_spec 30 t2);
    simpl; first [lia | lra].
Qed.
End ScoreBounds2.

(** ** Pipeline facts *)

Section Pipeline.
Local Open Scope Q_scope.

Lemma match_percentage_bounds (self : KeywordMatcher) (text jf : string) :
  0 <= match_percentage (calculate_keyword_match self text jf) <= 100.
Proof.
  rewrite calculate_keyword_match_eq. cbn [match_percentage].
  apply round2_percent.
  destruct (get_job_keywords self jf) as [|k kws] eqn:E; [lra|].
  apply percentage_bounds; [apply filter_length_le | simpl; lia].
Qed.

Lemma semantic_similarity_bounds (self : KeywordMatcher) (text jf : string) :
  cosine_in_unit self ->
  0 <= calculate_semantic_similarity self text jf <= 100.
Proof.
  intros C. unfold calculate_semantic_similarity.
  destruct (tfidf_cosine self text _) as [q|] eqn:E; [|lra].
  apply C in E. apply round2_percent. lra.
Qed.

Lemma formatting_score_bounds (text : string) (metadata : Metadata) :
  (0 <= score (analyze_formatting text metadata) <= 100)%Z.
Proof.
  rewrite analyze_formatting_eq. cbn [score].
  pose proof (penalty_nonneg (issues_of text metadata)). lia.
Qed.
End Pipeline.

(** ** Comparisons of doubles *)

Module FloatFacts.

Lemma SFcompare_swap (x y : spec_float) :
  SFcompare y x = option_map CompOpp (SFcompare x y).
Proof.
  destruct x as [sx | sx | | sx mx ex], y as [sy | sy | | sy my ey];
    try destruct sx; try destruct sy; try reflexivity; cbn.
  - rewrite (Z.compare_antisym ex ey).
    destruct (ex ?= ey)%Z; cbn; try reflexivity.
    change (Pos.compare_cont Eq my mx) with (Pos.compare my mx).
    change (Pos.compare_cont Eq mx my) with (Pos.compare mx my).
    now rewrite (Pos.compare_antisym mx my).
  - rewrite (Z.compare_antisym ex ey).
    destruct (ex ?= ey)%Z; cbn; try reflexivity.
    change (Pos.compare_cont Eq my mx) with (Pos.compare my mx).
    change (Pos.compare_cont Eq mx my) with (Pos.compare mx my).
    now rewrite (Pos.compare_antisym mx my).
Qed.

(** [x < y] excludes [y <= x]. *)
Lemma ltb_not_leb (x y : float) :
  (x <? y)%float = true -> (y <=? x)%float = false.
Proof.
  rewrite ltb_spec, leb_spec. unfold SFltb, SFleb.
  rewrite (SFcompare_swap (Prim2SF x) (Prim2SF y)).
  destruct (SFcompare (Prim2SF x) (Prim2SF y)) as [[| |]|];
    cbn; congruence.
Qed.

Lemma SFleb_trans (x y z : spec_float) :
  SFleb x y = true -> SFleb y z = true -> SFleb x z = true.
Proof.
  unfold SFleb.
  destruct x as [sx | sx | | sx mx ex], y as [sy | sy | | sy my ey],
           z as [sz | sz | | sz mz ez];
    try destruct sx; try destruct sy; try destruct sz; cbn;
    try congruence;
    change (Pos.compare_cont Eq) with Pos.compare;
    repeat match goal with
           | |- context [(?a ?= ?b)%Z] => destruct (Z.compare_spec a b)
           | |- context [(?a ?= ?b)%positive] =>
               destruct (Pos.compare_spec a b)
           end; cbn; try congruence; subst; try lia.
Qed.

(** Below [a], hence below every [b] from [a] on. *)
Lemma not_leb_below (a b c : float) :
  (a <=? c)%float = false -> (a <=? b)%float = true ->
  (b <=? c)%float = false.
Proof.
  intros N L. destruct (b <=? c)%float eqn:E; [|reflexivity].
  rewrite leb_spec in *.
  rewrite (SFleb_trans _ _ _ L E) in N. discriminate N.
Qed.

End FloatFacts.

(** * Main results *)

(** C2, as amended. The lines that are not headers split, in their
    order, into the runs gathered between header lines, none of them
    empty; the section map holds under each label the stripped,
    newline-joined block of the last run recorded under that label; when
    no label has two runs, the map is exactly the list of the blocks of
    the runs, in the order of the text. *)
Theorem segmenter_blocks (text : string) :
  let rs := segments text in
  concat (map snd rs) = body_lines text
  /\ Forall (fun r : Run => snd r <> []) rs
  /\ (forall label,
        PyDict.get label (parse_sections text) =
        option_map block_of (last_run label rs))
  /\ (NoDup (map fst rs) ->
        parse_sections text = map (fun r : Run => (fst r, block_of (snd r))) rs).
Proof.
  intros rs. subst rs. unfold segments, parse_sections.
  rewrite segment_loop_runs. simpl.
  split; [apply (runs_cover _ "header" [])|].
  split; [apply runs_nonempty|].
  split.
  - intros label. rewrite get_fold_store.
    destruct (last_run label _); reflexivity.
  - intros H. now rewrite fold_store_fresh.
Qed.

Lemma segmenter_blocks_witness :
  NoDup (map fst (segments resume_once))
  /\ parse_sections resume_once =
       [("header", "Jane Doe"); ("experience", "2020-2022 Engineer");
        ("skills", "python sql")].
Proof.
  assert (N : NoDup (map fst (segments resume_once))).
  { apply (bool_decide_unpack _). vm_compute. exact I. }
  split; [exact N|].
  destruct (segmenter_blocks resume_once) as (_ & _ & _ & H).
  rewrite (H N). reflexivity.
Defined.

(** C2, as stated, fails: a label that recurs keeps its last block only.
    In "Skills / Python / Skills / Java" the line "Python" is no header
    and lies in no block, and the blocks do not rebuild the text. *)
Lemma repeated_label_drops_block :
  parse_sections resume_twice = [("skills", "Java")]
  /\ body_lines resume_twice = ["Python"; "Java"]
  /\ concat (map (fun kv => split_char newline (snd kv))
                 (parse_sections resume_twice))
     <> body_lines resume_twice
  /\ ~ (exists kv, In kv (parse_sections resume_twice)
                   /\ In "Python" (split_char newline (snd kv))).
Proof.
  vm_compute. repeat split; try discriminate.
  intros (kv & [<- | []] & [E | []]). discriminate E.
Qed.

(** C4, as stated, fails: the table stores "Python", the result holds
    "python", which is not an entry of the table. *)
Lemma matched_keywords_not_taxonomy_casing :
  let job_data := job_data_of casing_matcher "backend" in
  let km := calculate_keyword_match casing_matcher "Python developer" "backend" in
  stored_keywords job_data = ["Python"]
  /\ matched_keywords km = ["python"]
  /\ ~ Forall (fun k => In k (stored_keywords job_data)) (matched_keywords km).
Proof.
  vm_compute. repeat split.
  intros H. inversion H as [|k l Hin _]; subst.
  destruct Hin as [E | []]. discriminate E.
Qed.

(** C4, as amended. The matched keywords are the lower-cased keywords of
    the profile, in the order of the table, that occur in the lower-cased
    text: each is its own lower-case form and the lower-case form of a
    stored keyword. *)
Theorem matched_keywords_lowercased (self : KeywordMatcher) (text jf : string) :
  let matched := matched_keywords (calculate_keyword_match self text jf) in
  matched =
    List.filter (fun k => contains (lower text) k)
                (map lower (stored_keywords (job_data_of self jf)))
  /\ Forall (fun k => lower k = k
                      /\ exists k0, In k0 (stored_keywords (job_data_of self jf))
                                    /\ k = lower k0
                                    /\ contains (lower text) (lower k0) = true)
            matched.
Proof.
  intros matched. subst matched. rewrite calculate_keyword_match_eq. simpl.
  unfold get_job_keywords.
  assert (E : List.filter (hit (lower text))
                (map lower (stored_keywords (job_data_of self jf)))
              = List.filter (fun k => contains (lower text) k)
                  (map lower (stored_keywords (job_data_of self jf)))).
  { apply filter_ext_in. intros k Hk. apply in_map_iff in Hk.
    destruct Hk as (k0 & <- & _). unfold hit. now rewrite lower_idem. }
  rewrite E. split; [reflexivity|].
  apply List.Forall_forall. intros k Hk. apply filter_In in Hk.
  destruct Hk as [Hk Hc]. apply in_map_iff in Hk. destruct Hk as (k0 & <- & Hk0).
  split; [apply lower_idem|]. exists k0. auto.
Qed.

(** C5. When the job field is not in the table, or its profile has no
    keyword, the keyword match requires 0 keywords and has percentage 0,
    and every extracted skill goes to the bucket "other". *)
Theorem unknown_or_empty_profile
    (self : KeywordMatcher) (text : string) (skills : list string) (jf : string) :
  job_roles self !! jf = None \/ get_job_keywords self jf = [] ->
  let km := calculate_keyword_match self text jf in
  total_required km = 0%nat
  /\ (match_percentage km == 0)%Q
  /\ matched_keywords km = []
  /\ categorize_skills self skills jf =
       {| cat_core_skills := []; cat_tools := []; cat_frameworks := [];
          cat_other := skills |}.
Proof.
  intros H.
  assert (E : stored_keywords (job_data_of self jf) = []).
  { destruct H as [H | H].
    - unfold job_data_of. rewrite H. reflexivity.
    - unfold get_job_keywords in H. now apply map_eq_nil in H. }
  assert (K : get_job_keywords self jf = [])
    by (unfold get_job_keywords; now rewrite E).
  intros km. subst km. rewrite calculate_keyword_match_eq, K. simpl.
  repeat split.
  rewrite categorize_skills_eq.
  unfold stored_keywords in E.
  apply app_eq_nil in E. destruct E as [Ec E].
  apply app_eq_nil in E. destruct E as [Et E].
  apply app_eq_nil in E. destruct E as [Ef _].
  assert (B : forall s, bucket_of (job_data_of self jf) s = Other).
  { intros s. unfold bucket_of, member_ci. now rewrite Ec, Et, Ef. }
  f_equal; (apply filter_all_false || apply filter_all_true);
    intros s _; unfold in_bucket; now rewrite B.
Qed.

Lemma unknown_or_empty_profile_witness :
  (job_roles empty_matcher !! "astronaut" = None
   \/ get_job_keywords empty_matcher "astronaut" = [])
  /\ categorize_skills empty_matcher ["Python"; "welding"] "astronaut" =
       {| cat_core_skills := []; cat_tools := []; cat_frameworks := [];
          cat_other := ["Python"; "welding"] |}.
Proof.
  split; [left; reflexivity|].
  apply (unknown_or_empty_profile empty_matcher "Python and welding"
           ["Python"; "welding"] "astronaut").
  left; reflexivity.
Defined.

(** C6. The four buckets partition the extracted skills: together they
    are a permutation of the input, each bucket is the sub-list, in input
    order and casing, of the skills whose bucket it is by the precedence
    core, tools, frameworks, other under case-insensitive membership, and
    no skill lies in two buckets. *)
Theorem categorize_skills_partition
    (self : KeywordMatcher) (skills : list string) (jf : string) :
  let c := categorize_skills self skills jf in
  let job_data := job_data_of self jf in
  Permutation
    (cat_core_skills c ++ cat_tools c ++ cat_frameworks c ++ cat_other c)
    skills
  /\ (forall b, bucket_list c b =
                List.filter (fun s => bucket_eqb (bucket_of job_data s) b) skills)
  /\ (forall s b, In s (bucket_list c b) <->
                  In s skills /\ bucket_of job_data s = b)
  /\ (forall s b1 b2, In s (bucket_list c b1) -> In s (bucket_list c b2) ->
                      b1 = b2).
Proof.
  intros c job_data. subst c. rewrite categorize_skills_eq. fold job_data. simpl.
  assert (E : forall b,
    bucket_list
      {| cat_core_skills := List.filter (in_bucket job_data Core) skills;
         cat_tools := List.filter (in_bucket job_data Tools) skills;
         cat_frameworks := List.filter (in_bucket job_data Frameworks) skills;
         cat_other := List.filter (in_bucket job_data Other) skills |} b
    = List.filter (fun s => bucket_eqb (bucket_of job_data s) b) skills)
    by (intros []; reflexivity).
  assert (I : forall s b,
    In s (List.filter (fun s => bucket_eqb (bucket_of job_data s) b) skills)
    <-> In s skills /\ bucket_of job_data s = b).
  { intros s b. rewrite filter_In, bucket_eqb_eq. reflexivity. }
  split; [apply filter_buckets_perm|].
  split; [exact E|].
  split.
  - intros s b. rewrite E. apply I.
  - intros s b1 b2. rewrite !E, !I. intros [_ H1] [_ H2]. congruence.
Qed.

Lemma categorize_skills_partition_witness :
  let skills := ["python"; "aws"; "Pytorch"; "excel"; "SQL"] in
  let c := categorize_skills sample_matcher skills "data_scientist" in
  (In "SQL" skills
   /\ bucket_of (job_data_of sample_matcher "data_scientist") "SQL" = Core)
  /\ In "SQL" (bucket_list c Core)
  /\ c = {| cat_core_skills := ["python"; "SQL"]; cat_tools := ["aws"];
            cat_frameworks := ["Pytorch"]; cat_other := ["excel"] |}.
Proof.
  intros skills c.
  assert (H : In "SQL" skills
              /\ bucket_of (job_data_of sample_matcher "data_scientist") "SQL"
                 = Core).
  { split; [simpl; tauto | reflexivity]. }
  split; [exact H|]. split; [|reflexivity].
  destruct (categorize_skills_partition sample_matcher skills "data_scientist")
    as (_ & _ & I & _).
  apply (I "SQL" Core), H.
Defined.

(** C8. The audit score is 100 minus the fixed deductions (10 images,
    15 short, 5 long, 10 per missing section, 10 no email, 5 no phone),
    clamped below at 0; the issues come in the order of evaluation; the
    score lies between 0 and 100 and does not increase when issues are
    added. *)
Theorem formatting_score_deductions (text : string) (metadata : Metadata) :
  let f := analyze_formatting text metadata in
  let i := issues_of text metadata in
  score f = Z.max 0 (100 - penalty i)
  /\ issues f = issue_list i
  /\ (0 <= score f <= 100)%Z
  /\ (forall text' metadata',
        issues_le i (issues_of text' metadata') ->
        (score (analyze_formatting text' metadata') <= score f)%Z).
Proof.
  intros f i. subst f i. rewrite analyze_formatting_eq. cbn [score issues].
  pose proof (penalty_nonneg (issues_of text metadata)) as P.
  repeat split; try lia.
  intros text' metadata' L. rewrite analyze_formatting_eq. cbn [score].
  apply penalty_mono in L. lia.
Qed.

Lemma formatting_score_deductions_witness :
  issues_le (issues_of "" (with_images false)) (issues_of "" (with_images true))
  /\ (score (analyze_formatting "" (with_images true))
      <= score (analyze_formatting "" (with_images false)))%Z.
Proof.
  assert (L : issues_le (issues_of "" (with_images false))
                        (issues_of "" (with_images true))).
  { vm_compute. repeat split; auto. }
  split; [exact L|].
  destruct (formatting_score_deductions "" (with_images false)) as (_ & _ & _ & M).
  apply M, L.
Defined.

(** C10. The short and the long deduction exclude each other, the
    deductions add up to 70 at most, so the score is at least 30 and the
    clamp at 0 leaves it unchanged. *)
Theorem formatting_score_at_least_30 (text : string) (metadata : Metadata) :
  let f := analyze_formatting text metadata in
  let i := issues_of text metadata in
  i_short i && i_long i = false
  /\ (penalty i <= 70)%Z
  /\ (30 <= score f)%Z
  /\ score f = (100 - penalty i)%Z.
Proof.
  intros f i. subst f i. rewrite analyze_formatting_eq. cbn [score].
  pose proof (penalty_at_most_70 text metadata) as P.
  split; [apply short_long_exclusive|]. lia.
Qed.

(** C7. With a cosine similarity between 0 and 1, both composite totals
    of an analysis lie between 0 and 100, before and after rounding, and
    the grade mapping (85 and more A, 70 and more B, 50 and more C, 30 and
    more D, F below) never decreases when the total grows. *)
Theorem composite_totals_bounded
    (parser : ATSParser) (matcher : KeywordMatcher)
    (text : string) (metadata : Metadata) (jf : string) :
  cosine_in_unit matcher ->
  let r := analyze_resume parser matcher text metadata jf in
  (0 <= ats_total (ats_score r) <= 100)%Q
  /\ (0 <= jf_total (job_fit_score r) <= 100)%Q
  /\ (0 <= ats_raw_total (parsed_data r) (keyword_analysis r) <= 100)%Q
  /\ (0 <= job_fit_raw_total (parsed_data r) (keyword_analysis r) <= 100)%Q
  /\ ats_grade (ats_score r) =
       _get_grade (ats_raw_total (parsed_data r) (keyword_analysis r))
  /\ jf_grade (job_fit_score r) =
       _get_grade (job_fit_raw_total (parsed_data r) (keyword_analysis r))
  /\ (forall t1 t2 : Q,
        (t1 <= t2)%Q -> grade_le (_get_grade t1) (_get_grade t2))
  /\ (forall t : Q,
        ((85 <= t)%Q -> _get_grade t = GradeA)
        /\ ((70 <= t < 85)%Q -> _get_grade t = GradeB)
        /\ ((50 <= t < 70)%Q -> _get_grade t = GradeC)
        /\ ((30 <= t < 50)%Q -> _get_grade t = GradeD)
        /\ ((t < 30)%Q -> _get_grade t = GradeF)).
Proof.
  intros C r.
  set (pd := parsed_data r). set (ka := keyword_analysis r).
  assert (A : (0 <= ats_raw_total pd ka <= 100)%Q).
  { apply ats_total_bounds.
    - apply formatting_score_bounds.
    - apply match_percentage_bounds. }
  assert (J : (0 <= job_fit_raw_total pd ka <= 100)%Q).
  { apply job_fit_total_bounds.
    - apply match_percentage_bounds.
    - apply semantic_similarity_bounds, C. }
  split; [apply round2_percent, A|].
  split; [apply round2_percent, J|].
  split; [exact A|]. split; [exact J|].
  split; [reflexivity|]. split; [reflexivity|].
  split; [apply get_grade_mono | apply get_grade_spec].
Qed.

Lemma sample_cosine_in_unit : cosine_in_unit sample_matcher.
Proof. intros a b q [= <-]. split; discriminate. Qed.

Lemma composite_totals_bounded_witness :
  cosine_in_unit sample_matcher
  /\ (0 <= ats_total (ats_score
        (analyze_resume silent_parser sample_matcher contact_line
           (with_images false) "data_scientist")) <= 100)%Q.
Proof.
  split; [exact sample_cosine_in_unit|].
  apply (composite_totals_bounded silent_parser sample_matcher contact_line
           (with_images false) "data_scientist" sample_cosine_in_unit).
Defined.

(** C9. The shortlist estimate buckets
    [ats_score * 0.45 + job_fit_score * 0.55], computed in binary64, at
    80, 65, 50 and 35 into its five labels and colours, and returns that
    sum rounded to two decimals; a combined score of exactly 80 is
    "Very High", one of 79.99 is "High". *)
Theorem shortlist_buckets (ats jf : float) :
  let c := combined_of ats jf in
  let s := calculate_shortlist_probability ats jf in
  combined_score s = py_round2 c
  /\ ((80 <=? c)%float = true ->
        probability s = "Very High (85-95%)" /\ color s = "#10b981")
  /\ ((65 <=? c)%float = true -> (c <? 80)%float = true ->
        probability s = "High (70-85%)" /\ color s = "#3b82f6")
  /\ ((50 <=? c)%float = true -> (c <? 65)%float = true ->
        probability s = "Moderate (50-70%)" /\ color s = "#f59e0b")
  /\ ((35 <=? c)%float = true -> (c <? 50)%float = true ->
        probability s = "Low (30-50%)" /\ color s = "#ef4444")
  /\ ((c <? 35)%float = true ->
        probability s = "Very Low (< 30%)" /\ color s = "#991b1b")
  /\ (c = 80%float -> probability s = "Very High (85-95%)")
  /\ (c = 79.99%float -> probability s = "High (70-85%)").
Proof.
  intros c s. subst s. unfold calculate_shortlist_probability.
  fold (combined_of ats jf). fold c.
  split; [destruct (80 <=? c)%float, (65 <=? c)%float, (50 <=? c)%float,
            (35 <=? c)%float; reflexivity|].
  split; [intros H; rewrite H; split; reflexivity|].
  split; [intros H L; rewrite (FloatFacts.ltb_not_leb _ _ L), H;
          split; reflexivity|].
  split; [intros H L; pose proof (FloatFacts.ltb_not_leb _ _ L) as N;
          rewrite (FloatFacts.not_leb_below 65 80 c N eq_refl), N, H;
          split; reflexivity|].
  split; [intros H L; pose proof (FloatFacts.ltb_not_leb _ _ L) as N;
          rewrite (FloatFacts.not_leb_below 50 80 c N eq_refl),
            (FloatFacts.not_leb_below 50 65 c N eq_refl), N, H;
          split; reflexivity|].
  split; [intros L; pose proof (FloatFacts.ltb_not_leb _ _ L) as N;
          rewrite (FloatFacts.not_leb_below 35 80 c N eq_refl),
            (FloatFacts.not_leb_below 35 65 c N eq_refl),
            (FloatFacts.not_leb_below 35 50 c N eq_refl), N;
          split; reflexivity|].
  split; intros ->; reflexivity.
Qed.

Lemma shortlist_buckets_witness :
  combined_of 98.48 64.88 = 80%float
  /\ combined_of 58.87 97.27 = 79.99%float
  /\ probability (calculate_shortlist_probability 98.48 64.88)
     = "Very High (85-95%)"
  /\ probability (calculate_shortlist_probability 58.87 97.27)
     = "High (70-85%)".
Proof.
  assert (E1 : combined_of 98.48 64.88 = 80%float) by reflexivity.
  assert (E2 : combined_of 58.87 97.27 = 79.99%float) by reflexivity.
  split; [exact E1|]. split; [exact E2|]. split.
  - destruct (shortlist_buckets 98.48 64.88) as (_ & _ & _ & _ & _ & _ & H & _).
    exact (H E1).
  - destruct (shortlist_buckets 58.87 97.27) as (_ & _ & _ & _ & _ & _ & _ & H).
    exact (H E2).
Defined.

Lemma contact_line_contact :
  extract_contact_info contact_line =
  {| email := Some "john@x.com"; phone := Some "";
     linkedin := Some "linkedin.com/in/john";
     github := Some "github.com/john" |}.
Proof. vm_compute. reflexivity. Qed.

(** C3. On the contact line of the scenario the phone pattern does match
    the number, but [findall] hands back the optional country-code group
    alone, which is empty: the phone field holds the empty string, the
    contact sub-score is 70 and the audit reports that no phone number was
    found. *)
Theorem contact_line_phone_empty
    (parser : ATSParser) (metadata : Metadata) (ka : KeywordAnalysis) :
  option_map Re.m_text (Re.search phone_pattern contact_line)
    = Some "555-123-4567"
  /\ Re.findall phone_pattern contact_line = [Re.FStr ""]
  /\ extract_contact_info contact_line =
       {| email := Some "john@x.com"; phone := Some "";
          linkedin := Some "linkedin.com/in/john";
          github := Some "github.com/john" |}
  /\ has_field (phone (extract_contact_info contact_line)) = false
  /\ (contact_info (ats_breakdown
        (calculate_ats_score (parse parser contact_line metadata) ka)) == 70)%Q
  /\ In "No phone number found"
        (issues (analyze_formatting contact_line metadata)).
Proof.
  split; [vm_compute; reflexivity|].
  split; [vm_compute; reflexivity|].
  split; [exact contact_line_contact|].
  split; [rewrite contact_line_contact; reflexivity|].
  split.
  - unfold calculate_ats_score, parse.
    cbn [ats_breakdown contact_info pd_contact].
    rewrite contact_line_contact. reflexivity.
  - rewrite analyze_formatting_eq. cbn [issues]. unfold issue_list.
    do 5 (apply in_or_app; right).
    unfold issues_of. cbn [i_no_phone].
    rewrite contact_line_contact. left. reflexivity.
Qed.

(** ** The empty resume *)

Lemma hit_empty_text (k : string) : k <> "" -> hit "" k = false.
Proof. destruct k; [congruence | reflexivity]. Qed.

Lemma extract_skills_empty (parser : ATSParser) :
  nlp parser "" = empty_doc -> extract_skills parser "" = [].
Proof. intros H. unfold extract_skills. simpl lower. rewrite H. reflexivity. Qed.

Lemma analyze_formatting_empty (metadata : Metadata) :
  truthy_opt (has_images metadata) = false ->
  analyze_formatting "" metadata =
  {| score := 40;
     issues := [ "Resume too short (< 300 words)";
                 "Missing sections: experience, education, skills";
                 "No email address found"; "No phone number found" ];
     sections_found := ["header"];
     word_count := 0 |}.
Proof. intros H. unfold analyze_formatting. rewrite H. reflexivity. Qed.

Lemma keyword_match_empty_text (self : KeywordMatcher) (jf : string) (n : nat) :
  length (get_job_keywords self jf) = S n ->
  Forall (fun k => k <> "") (get_job_keywords self jf) ->
  calculate_keyword_match self "" jf =
  {| match_percentage := round2 (Qnat 0 / Qnat (S n) * 100);
     matched_keywords := [];
     missing_keywords := firstn 10 (get_job_keywords self jf);
     total_required := S n;
     total_matched := 0 |}.
Proof.
  intros Hn Hne. rewrite calculate_keyword_match_eq. simpl lower.
  rewrite List.Forall_forall in Hne.
  rewrite (filter_all_false (hit "")) by (intros k Hk; apply hit_empty_text; auto).
  rewrite (filter_all_true (fun k => negb (hit "" k)))
    by (intros k Hk; rewrite hit_empty_text; auto).
  rewrite Hn. destruct (get_job_keywords self jf); [discriminate Hn | reflexivity].
Qed.

(** C1. For the empty text, no image, a profile of five keywords none of
    which is empty (so none matches) and a cosine similarity between 0
    and 1: the word count is 0, the formatting score is 40, above the
    clamp, the match percentage is 0 and both composites are graded F. *)
Theorem empty_resume_scenario
    (parser : ATSParser) (matcher : KeywordMatcher)
    (metadata : Metadata) (jf : string) :
  nlp parser "" = empty_doc ->
  truthy_opt (has_images metadata) = false ->
  length (get_job_keywords matcher jf) = 5%nat ->
  Forall (fun k => k <> "") (get_job_keywords matcher jf) ->
  cosine_in_unit matcher ->
  let r := analyze_resume parser matcher "" metadata jf in
  let f := pd_formatting (parsed_data r) in
  let km := keyword_match (keyword_analysis r) in
  word_count f = 0%nat
  /\ score f = 40%Z /\ (0 <= score f)%Z
  /\ issues f = [ "Resume too short (< 300 words)";
                  "Missing sections: experience, education, skills";
                  "No email address found"; "No phone number found" ]
  /\ total_required km = 5%nat /\ total_matched km = 0%nat
  /\ (match_percentage km == 0)%Q
  /\ (ats_total (ats_score r) == 25.5)%Q
  /\ ats_grade (ats_score r) = GradeF
  /\ jf_grade (job_fit_score r) = GradeF
  /\ grade_letter (ats_grade (ats_score r)) = "F"
  /\ grade_letter (jf_grade (job_fit_score r)) = "F".
Proof.
  intros Hnlp Himg H5 Hne C r f km.
  assert (Ef : f = analyze_formatting "" metadata) by reflexivity.
  rewrite (analyze_formatting_empty metadata Himg) in Ef.
  assert (Ekm : km = calculate_keyword_match matcher "" jf) by reflexivity.
  rewrite (keyword_match_empty_text matcher jf 4 H5 Hne) in Ekm.
  assert (Ea : ats_score r =
    {| ats_total := round2 25.5;
       ats_breakdown := ats_breakdown (ats_score r);
       ats_grade := GradeF |}).
  { unfold r, analyze_resume. cbn [ats_score].
    unfold calculate_ats_score, parse, analyze.
    cbn [pd_formatting pd_sections pd_contact keyword_match ats_breakdown].
    rewrite (analyze_formatting_empty metadata Himg).
    rewrite (keyword_match_empty_text matcher jf 4 H5 Hne).
    vm_compute. reflexivity. }
  assert (Ej : jf_grade (job_fit_score r) = GradeF).
  { unfold r, analyze_resume. cbn [job_fit_score].
    unfold calculate_job_fit_score. cbn [jf_grade].
    apply get_grade_spec.
    unfold parse, analyze.
    cbn [pd_experience pd_education pd_skills keyword_match semantic_similarity
         categorized_skills].
    rewrite (extract_skills_empty parser Hnlp).
    rewrite (keyword_match_empty_text matcher jf 4 H5 Hne).
    pose proof (semantic_similarity_bounds matcher "" jf C) as S.
    unfold job_fit_weighted_total, job_fit_weights.
    cbn [keyword_match_sc semantic_similarity_sc experience_relevance
         education_fit skills_coverage match_percentage].
    change (categorize_skills matcher [] jf) with no_skills.
    change (extract_experience "") with (@nil (PyDict.t string)).
    change (extract_education "") with (@nil Education).
    cbn [length cat_core_skills no_skills Nat.leb Nat.eqb Nat.mul].
    set (s := calculate_semantic_similarity matcher "" jf) in *.
    assert (E1 : (round2 (Qnat 0 / Qnat 5 * 100) == 0)%Q) by reflexivity.
    assert (E2 : (Qmin 100 (Qnat 0) == 0)%Q) by reflexivity.
    set (p := round2 (Qnat 0 / Qnat 5 * 100)) in *.
    set (z := Qmin 100 (Qnat 0)) in *.
    clearbody p z s. lra. }
  rewrite Ef, Ekm, Ej, Ea. cbn.
  repeat split; try reflexivity; try lia.
Qed.

Lemma empty_resume_scenario_witness :
  nlp silent_parser "" = empty_doc
  /\ truthy_opt (has_images (with_images false)) = false
  /\ length (get_job_keywords sample_matcher "data_scientist") = 5%nat
  /\ Forall (fun k => k <> "") (get_job_keywords sample_matcher "data_scientist")
  /\ cosine_in_unit sample_matcher
  /\ jf_grade (job_fit_score
        (analyze_resume silent_parser sample_matcher "" (with_images false)
           "data_scientist")) = GradeF.
Proof.
  assert (N : Forall (fun k => k <> "")
                (get_job_keywords sample_matcher "data_scientist")).
  { vm_compute. repeat constructor; discriminate. }
  repeat (split; [first [reflexivity | exact N | exact sample_cosine_in_unit]|]).
  apply (empty_resume_scenario silent_parser sample_matcher (with_images false)
           "data_scientist" eq_refl eq_refl eq_refl N sample_cosine_in_unit).
Defined.

(** The label of the shortlist estimate reads the combined score before
    rounding: the totals 79.99 and 80 combine to 79.9955, labelled
    "High", and shown in the result as 80. *)
Remark shortlist_label_before_rounding :
  let s := calculate_shortlist_probability 79.99 80 in
  probability s = "High (70-85%)" /\ combined_score s = 80%float
  /\ combined_of 79.99 80 = 79.99549999999999%float.
Proof. vm_compute. repeat split. Qed.

(** The thresholds are met in binary64: the totals 71.85 and 4.85 combine
    to 35 as decimals and to a double just below 35, labelled "Very Low"
    and shown as 35; the totals 98.48 and 64.88 combine to the double 80,
    labelled "Very High". *)
Remark shortlist_thresholds_in_binary64 :
  let s := calculate_shortlist_probability 71.85 4.85 in
  (71.85 * 0.45 + 4.85 * 0.55 == 35)%Q
  /\ combined_of 71.85 4.85 = 34.99999999999999%float
  /\ probability s = "Very Low (< 30%)" /\ combined_score s = 35%float
  /\ probability (calculate_shortlist_probability 98.48 64.88)
     = "Very High (85-95%)"
  /\ combined_score (calculate_shortlist_probability 38.0 6.3) = 20.57%float.
Proof. vm_compute. repeat split. Qed.

(** * Further results *)

(** ** Patterns made of words *)

Module WordFacts.
Import Re.

Lemma is_some_or_else {A} (x y : option A) :
  is_some (or_else x y) = is_some x || is_some y.
Proof. destruct x, y; reflexivity. Qed.

Lemma prefix_cons (c d : ascii) (w s : string) :
  String.prefix (String c w) (String d s)
  = Ascii.eqb c d && String.prefix w s.
Proof.
  simpl. destruct (ascii_dec c d) as [E | N].
  - subst. now rewrite Ascii.eqb_refl.
  - apply Ascii.eqb_neq in N. now rewrite N.
Qed.

Lemma prefix_nil_r (w : string) :
  String.prefix w "" = match w with "" => true | _ => false end.
Proof. destruct w; reflexivity. Qed.

(** Under a continuation that accepts every state, a literal word
    matches exactly where it is a prefix of the text. *)
Lemma run_lit_some {A} (w : string) :
  forall (st : mstate) (k : mstate -> option A),
    (forall st', is_some (k st') = true) ->
    is_some (run (lit w) st k) = String.prefix w (rest st).
Proof.
  induction w as [|c w IH]; intros st k K.
  - simpl. rewrite K. now destruct (rest st).
  - destruct w as [|c' w'].
    + simpl run. destruct (rest st) as [|d s']; [reflexivity|].
      rewrite prefix_cons. destruct (Ascii.eqb c d); simpl; [|reflexivity].
      rewrite K. now destruct s'.
    + change (lit (String c (String c' w')))
        with (Cat (chr c) (lit (String c' w'))).
      simpl run. destruct (rest st) as [|d s']; [reflexivity|].
      rewrite prefix_cons. destruct (Ascii.eqb c d); simpl; [|reflexivity].
      rewrite IH by exact K. reflexivity.
Qed.

Lemma run_alt_some {A} (l : list regex) :
  l <> [] ->
  forall (st : mstate) (k : mstate -> option A),
    is_some (run (alt l) st k) = existsb (fun r => is_some (run r st k)) l.
Proof.
  induction l as [|r l IH]; intros N st k; [congruence|].
  destruct l as [|r' l'].
  - simpl. now rewrite orb_false_r.
  - change (alt (r :: r' :: l')) with (Alt r (alt (r' :: l'))).
    simpl run. rewrite is_some_or_else, IH by discriminate. reflexivity.
Qed.

Lemma existsb_of_map {A B} (f : B -> bool) (g : A -> B) (l : list A) :
  existsb f (map g l) = existsb (fun x => f (g x)) l.
Proof. induction l as [|a l IH]; simpl; [reflexivity|]. now rewrite IH. Qed.

Lemma existsb_same {A} (f g : A -> bool) (l : list A) :
  (forall x, f x = g x) -> existsb f l = existsb g l.
Proof.
  intros E. induction l as [|a l IH]; simpl; [reflexivity|]. now rewrite E, IH.
Qed.

Lemma match_at_words (i : nat) (ws : list string) (pv : option ascii) (s : string) :
  ws <> [] ->
  is_some (match_at (Group i (words ws)) pv s)
  = existsb (fun w => String.prefix w s) ws.
Proof.
  intros N. unfold match_at, words. simpl run.
  rewrite run_alt_some by (destruct ws; [congruence | discriminate]).
  rewrite existsb_of_map. apply existsb_same. intros w.
  now rewrite run_lit_some.
Qed.

Lemma existsb_orb {A} (f g : A -> bool) (l : list A) :
  existsb (fun x => f x || g x) l = existsb f l || existsb g l.
Proof.
  induction l as [|a l IH]; simpl; [reflexivity|]. rewrite IH.
  destruct (f a), (g a), (existsb f l), (existsb g l); reflexivity.
Qed.

Lemma search_from_some (r : regex) (pv : option ascii) (s : string) :
  is_some (search_from r pv s)
  = is_some (match_at r pv s)
    || match s with
       | String c s' => is_some (search_from r (Some c) s')
       | EmptyString => false
       end.
Proof. destruct s; simpl; destruct (match_at r pv _); reflexivity. Qed.

(** [re.search] of an alternation of words is a substring test. *)
Lemma search_words (i : nat) (ws : list string) (s : string) :
  ws <> [] ->
  forall pv,
    is_some (search_from (Group i (words ws)) pv s) = existsb (contains s) ws.
Proof.
  intros N. induction s as [|c s IH]; intros pv;
    rewrite search_from_some, match_at_words by exact N.
  - rewrite orb_false_r. apply existsb_same. intros w. simpl.
    now rewrite orb_false_r.
  - rewrite IH, <- existsb_orb. apply existsb_same. intros w. reflexivity.
Qed.

End WordFacts.

(** X1. Header detection is a substring test: a line gets the first
    label, in the order of the pattern table, one of whose words occurs in
    the lowered and stripped line, provided the line has at most five
    words; a line of more than five words is never a header, and a line of
    at most five words that holds a contact word is a contact header. *)
Theorem section_found_by_words (line : string) :
  section_found line = label_by_words section_words (strip (lower line)) line
  /\ ((5 < length (split_ws line))%nat -> section_found line = None)
  /\ ((length (split_ws line) <= 5)%nat ->
      existsb (contains (strip (lower line)))
        ["email"; "phone"; "mobile"; "address"; "linkedin"; "github"] = true ->
      section_found line = Some "contact").
Proof.
  assert (E : section_found line
              = label_by_words section_words (strip (lower line)) line).
  { unfold section_found, section_patterns, section_words.
    cbn [first_section label_by_words]. unfold Re.search.
    rewrite !WordFacts.search_words by discriminate. reflexivity. }
  split; [exact E|]. rewrite E. split.
  - intros H. apply Nat.leb_gt in H.
    unfold section_words. cbn [label_by_words]. rewrite H.
    rewrite !andb_false_r. reflexivity.
  - intros H C. apply Nat.leb_le in H.
    unfold section_words. cbn [label_by_words]. rewrite C, H. reflexivity.
Qed.

Lemma section_found_by_words_witness :
  (length (split_ws "Email: jane@x.org") <= 5)%nat
  /\ existsb (contains (strip (lower "Email: jane@x.org")))
       ["email"; "phone"; "mobile"; "address"; "linkedin"; "github"] = true
  /\ section_found "Email: jane@x.org" = Some "contact".
Proof.
  assert (H : (length (split_ws "Email: jane@x.org") <= 5)%nat)
    by (vm_compute; lia).
  assert (C : existsb (contains (strip (lower "Email: jane@x.org")))
       ["email"; "phone"; "mobile"; "address"; "linkedin"; "github"] = true)
    by reflexivity.
  split; [exact H|]. split; [exact C|].
  destruct (section_found_by_words "Email: jane@x.org") as (_ & _ & K).
  exact (K H C).
Defined.

(** ** What a match covers and captures *)

Module MatchFacts.
Import Re.

Lemma rep_covers {A} (p : ascii -> bool) (s : string) :
  forall lo hi pv cs (k : mstate -> option A) x,
    rep p lo hi pv s cs k = Some x ->
    exists st, (String.length (rest st) + lo <= String.length s)%nat
               /\ caps st = cs
               /\ (forall h, hi = Some h ->
                     (String.length s <= String.length (rest st) + h)%nat)
               /\ k st = Some x.
Proof.
  induction s as [|c s IH]; intros lo hi pv cs k x H; simpl in H.
  - destruct (Nat.eqb_spec lo 0); [|discriminate].
    exists (MState pv "" cs). simpl.
    split; [lia|]. split; [reflexivity|]. split; [intros; lia | exact H].
  - assert (Stop : (if (lo =? 0)%nat then k (MState pv (String c s) cs) else None)
                   = Some x ->
                   exists st,
                     (String.length (rest st) + lo <= S (String.length s))%nat
                     /\ caps st = cs
                     /\ (forall h, hi = Some h ->
                           (S (String.length s) <= String.length (rest st) + h)%nat)
                     /\ k st = Some x).
    { destruct (Nat.eqb_spec lo 0); [|discriminate]. intros E.
      exists (MState pv (String c s) cs). simpl.
      split; [lia|]. split; [reflexivity|]. split; [intros; lia | exact E]. }
    destruct (p c && hi_allows hi) eqn:T; [|now apply Stop].
    destruct (rep p (Nat.pred lo) (hi_pred hi) (Some c) s cs k) as [y|] eqn:E;
      simpl in H; [|now apply Stop].
    injection H as ->. apply IH in E. destruct E as (st & L & C & U & E).
    exists st. split; [simpl; lia|]. split; [exact C|]. split; [|exact E].
    intros h ->. apply andb_prop in T. destruct T as [_ T].
    destruct h as [|h]; [discriminate T|].
    specialize (U h eq_refl). simpl. lia.
Qed.

(** A successful run hands its continuation a state at least [min_len]
    characters further; a pattern without group leaves the captures as
    they were. *)
Lemma run_covers {A} (r : regex) :
  forall st (k : mstate -> option A) x,
    run r st k = Some x ->
    exists st', (String.length (rest st') + min_len r
                 <= String.length (rest st))%nat
                /\ (ngroups r = 0%nat -> caps st' = caps st)
                /\ k st' = Some x.
Proof.
  induction r as [|p|r1 IH1 r2 IH2|r1 IH1 r2 IH2|r1 IH1|p lo hi|i r1 IH1|];
    intros st k x H; simpl in H.
  - exists st. split; [simpl; lia|]. split; [reflexivity | exact H].
  - destruct (rest st) as [|c s'] eqn:E; [discriminate|].
    destruct (p c); [|discriminate].
    eexists. split; [|split; [|exact H]]; simpl; [lia | reflexivity].
  - apply IH1 in H. destruct H as (st1 & L1 & C1 & H).
    apply IH2 in H. destruct H as (st2 & L2 & C2 & H).
    exists st2. split; [simpl; lia|]. split; [|exact H].
    simpl. intros G. rewrite C2, C1 by lia. reflexivity.
  - destruct (run r1 st k) as [y|] eqn:E; simpl in H.
    + injection H as ->. apply IH1 in E. destruct E as (st1 & L & C & E).
      exists st1. split; [simpl; lia|]. split; [|exact E].
      simpl. intros G. apply C. lia.
    + apply IH2 in H. destruct H as (st2 & L & C & H).
      exists st2. split; [simpl; lia|]. split; [|exact H].
      simpl. intros G. apply C. lia.
  - destruct (run r1 st k) as [y|] eqn:E; simpl in H.
    + injection H as ->. apply IH1 in E. destruct E as (st1 & L & C & E).
      exists st1. split; [simpl; lia|]. split; [exact C | exact E].
    + exists st. split; [simpl; lia|]. split; [reflexivity | exact H].
  - apply rep_covers in H. destruct H as (st1 & L & C & _ & H).
    exists st1. split; [simpl; lia|]. split; [intros _; exact C | exact H].
  - apply IH1 in H. destruct H as (st1 & L1 & _ & H).
    eexists. split; [|split; [|exact H]]; simpl; [lia | discriminate].
  - destruct (xorb _ _); [|discriminate].
    exists st. split; [simpl; lia|]. split; [reflexivity | exact H].
Qed.

Lemma match_at_covers (r : regex) (pv : option ascii) (s : string) (m : rmatch) :
  match_at r pv s = Some m ->
  (min_len r <= String.length (m_text m))%nat
  /\ (ngroups r = 0%nat -> caps (m_end m) = []).
Proof.
  intros H. pose proof (ReFacts.match_at_consumes r pv s m H) as [L T].
  unfold match_at in H. apply run_covers in H.
  destruct H as (st & M & C & H). injection H as <-. simpl in *.
  split; [lia | exact C].
Qed.

(** What [search] finds is a match at some position of the text. *)
Lemma search_from_match (r : regex) (s : string) :
  forall pv m,
    search_from r pv s = Some m ->
    exists pv' s', match_at r pv' s' = Some m.
Proof.
  induction s as [|c s IH]; intros pv m H; simpl in H.
  - destruct (match_at r pv "") eqn:E; [|discriminate].
    injection H as ->. eauto.
  - destruct (match_at r pv (String c s)) eqn:E.
    + injection H as ->. eauto.
    + eapply IH, H.
Qed.

(** The head of [findall] is what [search] finds. *)
Lemma findall_head (r : regex) (s : string) :
  hd_error (findall r s) = option_map (found_of r) (search r s).
Proof.
  unfold findall, search. simpl.
  destruct (search_from r None s); reflexivity.
Qed.

End MatchFacts.

(** ** Contact fields *)

Lemma first_str_head (l : list Re.found) :
  first_str l =
  match hd_error l with
  | Some (Re.FStr s) => Some s
  | Some (Re.FTuple ss) => Some (join "" ss)
  | None => None
  end.
Proof. destruct l as [|[s|ss] l]; reflexivity. Qed.

Lemma phone_of_head (l : list Re.found) :
  phone_of l =
  match hd_error l with
  | Some (Re.FStr s) => Some s
  | Some (Re.FTuple ss) => Some (join "" ss)
  | None => None
  end.
Proof. destruct l as [|[s|ss] l]; reflexivity. Qed.

Lemma email_is_first_match (text : string) :
  email (extract_contact_info text)
  = option_map Re.m_text (Re.search email_pattern text).
Proof.
  unfold extract_contact_info. cbn [email].
  rewrite first_str_head, MatchFacts.findall_head.
  destruct (Re.search email_pattern text); reflexivity.
Qed.

Lemma search_covers (r : Re.regex) (s : string) (m : Re.rmatch) :
  Re.search r s = Some m ->
  (Re.min_len r <= String.length (Re.m_text m))%nat
  /\ (Re.ngroups r = 0%nat -> Re.caps (Re.m_end m) = []).
Proof.
  unfold Re.search. intros H. apply MatchFacts.search_from_match in H.
  destruct H as (pv & s' & H). eapply MatchFacts.match_at_covers, H.
Qed.

Lemma in_said (x : string) (cond : bool) (issue : string) :
  In x (said cond issue) <-> cond = true /\ x = issue.
Proof.
  unfold said. destruct cond; simpl; split; try tauto.
  - intros [E | []]. auto.
  - intros [_ E]. auto.
  - intros [E _]. discriminate E.
Qed.

(** X2. The e-mail field is the text of the first match of the e-mail
    pattern, at least six characters long: it is present and true exactly
    when the pattern matches somewhere, and the audit reports a missing
    address exactly when it matches nowhere. *)
Theorem email_found_iff_matched (text : string) (metadata : Metadata) :
  let c := extract_contact_info text in
  email c = option_map Re.m_text (Re.search email_pattern text)
  /\ has_field (email c) = is_some (Re.search email_pattern text)
  /\ (forall e, email c = Some e -> (6 <= String.length e)%nat)
  /\ (In "No email address found" (issues (analyze_formatting text metadata))
      <-> Re.search email_pattern text = None).
Proof.
  intros c. subst c.
  assert (L : forall e, email (extract_contact_info text) = Some e ->
                        (6 <= String.length e)%nat).
  { intros e. rewrite email_is_first_match.
    destruct (Re.search email_pattern text) as [m|] eqn:E; [|discriminate].
    intros [= <-]. apply search_covers in E. destruct E as [E _]. exact E. }
  assert (F : has_field (email (extract_contact_info text))
              = is_some (Re.search email_pattern text)).
  { destruct (email (extract_contact_info text)) as [e|] eqn:E.
    - specialize (L e eq_refl). rewrite email_is_first_match in E.
      destruct (Re.search email_pattern text); [|discriminate].
      destruct e; [simpl in L; lia | reflexivity].
    - rewrite email_is_first_match in E.
      destruct (Re.search email_pattern text); [discriminate | reflexivity]. }
  split; [apply email_is_first_match|]. split; [exact F|]. split; [exact L|].
  rewrite analyze_formatting_eq. cbn [issues]. unfold issue_list.
  rewrite !in_app_iff, !in_said.
  unfold issues_of. cbn [i_no_email]. rewrite F.
  destruct (Re.search email_pattern text); simpl; split; intros H;
    try reflexivity; try discriminate.
  - destruct H as [[_ H] | [[_ H] | [[_ H] | [[_ H] | [[H _] | [_ H]]]]]];
      discriminate H.
  - tauto.
Qed.

Lemma email_found_iff_matched_witness :
  email (extract_contact_info contact_line) = Some "john@x.com"
  /\ (6 <= String.length "john@x.com")%nat.
Proof.
  assert (E : email (extract_contact_info contact_line) = Some "john@x.com")
    by (vm_compute; reflexivity).
  split; [exact E|].
  destruct (email_found_iff_matched contact_line (with_images false))
    as (_ & _ & L & _).
  exact (L _ E).
Defined.

Lemma substring_le (n : nat) (s : string) :
  (String.length (String.substring 0 n s) <= n)%nat.
Proof. rewrite ReFacts.substring_length. lia. Qed.

(** The captures of a match of the phone pattern: none, or the
    country-code group alone, at most five characters long. *)
Lemma phone_captures (pv : option ascii) (s : string) (m : Re.rmatch) :
  Re.match_at phone_pattern pv s = Some m ->
  Re.caps (Re.m_end m) = []
  \/ exists g, Re.caps (Re.m_end m) = [(1%nat, g)]
               /\ (String.length g <= 5)%nat.
Proof.
  set (tail := Re.cat [ Re.opt_cls (Ascii.eqb "("); Re.exactly 3 is_digit;
                        Re.opt_cls (Ascii.eqb ")"); Re.opt_cls phone_sep;
                        Re.exactly 3 is_digit; Re.opt_cls phone_sep;
                        Re.exactly 4 is_digit ]).
  assert (T0 : Re.ngroups tail = 0%nat) by reflexivity.
  change phone_pattern with
    (Re.Cat (Re.Opt (Re.Group 1
       (Re.Cat (Re.opt_cls (Ascii.eqb "+"))
          (Re.Cat (Re.Rep is_digit 1 (Some 3%nat)) (Re.opt_cls phone_sep)))))
       tail).
  unfold Re.match_at. cbn [Re.run Re.prev Re.rest Re.caps].
  unfold Re.opt_cls at 1 2.
  set (k := fun st => Some (Re.RMatch _ st)).
  match goal with
  | |- Re.or_else ?a _ = Some _ -> _ => destruct a as [y|] eqn:E
  end; cbn [Re.or_else].
  - intros [= ->].
    apply MatchFacts.rep_covers in E. destruct E as (st1 & L1 & C1 & U1 & E).
    apply MatchFacts.rep_covers in E. destruct E as (st2 & L2 & C2 & U2 & E).
    apply MatchFacts.rep_covers in E. destruct E as (st3 & L3 & C3 & U3 & E).
    apply MatchFacts.run_covers in E. destruct E as (st4 & _ & C4 & E).
    subst k. injection E as <-. cbn [Re.m_end].
    right. rewrite (C4 T0). cbn [Re.caps]. rewrite C3, C2, C1.
    eexists. split; [reflexivity|].
    specialize (U1 _ eq_refl). specialize (U2 _ eq_refl).
    specialize (U3 _ eq_refl).
    etransitivity; [apply substring_le|]. cbn [Re.rest] in *. lia.
  - intros E'. apply MatchFacts.run_covers in E'.
    destruct E' as (st4 & _ & C4 & E'). subst k. injection E' as <-.
    left. cbn [Re.m_end]. rewrite (C4 T0). reflexivity.
Qed.

(** X3. The phone field is not the number the pattern matched but
    the optional country-code group of the first match, the empty string
    when that match has no such prefix: it never has more than five
    characters, while a match of the pattern has at least ten. *)
Theorem phone_is_country_code_group (text : string) :
  let c := extract_contact_info text in
  phone c = option_map (fun m => Re.group_or_empty m 1)
                       (Re.search phone_pattern text)
  /\ (forall p, phone c = Some p -> (String.length p <= 5)%nat)
  /\ (forall m, Re.search phone_pattern text = Some m ->
                (10 <= String.length (Re.m_text m))%nat).
Proof.
  intros c. subst c.
  assert (P : phone (extract_contact_info text)
              = option_map (fun m => Re.group_or_empty m 1)
                           (Re.search phone_pattern text)).
  { unfold extract_contact_info. cbn [phone].
    rewrite phone_of_head, MatchFacts.findall_head.
    destruct (Re.search phone_pattern text); reflexivity. }
  split; [exact P|]. split.
  - intros p. rewrite P.
    destruct (Re.search phone_pattern text) as [m|] eqn:E; [|discriminate].
    intros [= <-]. unfold Re.search in E.
    apply MatchFacts.search_from_match in E. destruct E as (pv & s & E).
    apply phone_captures in E. unfold Re.group_or_empty, Re.group.
    destruct E as [-> | (g & -> & L)]; simpl; lia.
  - intros m E. apply search_covers in E. destruct E as [E _]. exact E.
Qed.

Lemma phone_is_country_code_group_witness :
  phone (extract_contact_info "call +44 207-555-0199 now") = Some "+44 "
  /\ (String.length "+44 " <= 5)%nat.
Proof.
  assert (E : phone (extract_contact_info "call +44 207-555-0199 now")
              = Some "+44 ") by (vm_compute; reflexivity).
  split; [exact E|].
  destruct (phone_is_country_code_group "call +44 207-555-0199 now")
    as (_ & L & _).
  exact (L _ E).
Defined.

(** ** Education lines *)

Lemma rep_optional_some {A} (p : ascii -> bool) (hi : option nat)
    (pv : option ascii) (s : string) (cs : list (nat * string))
    (k : Re.mstate -> option A) :
  (forall st, is_some (k st) = true) ->
  is_some (Re.rep p 0 hi pv s cs k) = true.
Proof.
  intros K. destruct s as [|c s]; simpl; [apply K|].
  destruct (p c && Re.hi_allows hi); [|apply K].
  rewrite WordFacts.is_some_or_else, K. apply orb_true_r.
Qed.

Lemma abbrev_some {A} (a b : ascii) (st : Re.mstate) (s : string)
    (k : Re.mstate -> option A) :
  Ascii.eqb "." b = false ->
  Re.rest st = String a (String b s) ->
  (forall st', is_some (k st') = true) ->
  is_some (Re.run (abbrev a b) st k) = true.
Proof.
  intros Hb Hs K. unfold abbrev, dot_opt, Re.opt_cls. cbn [Re.cat Re.run Re.chr].
  rewrite Hs, Ascii.eqb_refl. cbn [Re.prev Re.rest Re.caps Re.rep].
  rewrite Hb. cbn [andb Nat.eqb Re.run Re.rest]. rewrite Ascii.eqb_refl.
  cbn [Re.prev Re.rest Re.caps]. now apply rep_optional_some.
Qed.

Lemma prefix_two (a b : ascii) (s : string) :
  String.prefix (String a (String b "")) s = true ->
  exists s', s = String a (String b s').
Proof.
  destruct s as [|c [|d s']]; simpl; try discriminate.
  - destruct (ascii_dec a c); discriminate.
  - destruct (ascii_dec a c) as [<-|]; [|discriminate].
    destruct (ascii_dec b d) as [<-|]; [|discriminate]. eauto.
Qed.

Lemma search_of_contains (r : Re.regex) (w : string) :
  (forall pv s, String.prefix w s = true ->
                is_some (Re.match_at r pv s) = true) ->
  forall s pv, contains s w = true -> is_some (Re.search_from r pv s) = true.
Proof.
  intros M. induction s as [|c s IH]; intros pv H;
    rewrite WordFacts.search_from_some; simpl in H;
    apply orb_prop in H; destruct H as [H | H].
  - now rewrite M.
  - discriminate.
  - now rewrite M.
  - rewrite IH by exact H. apply orb_true_r.
Qed.

Lemma degree_abbreviation_found (a b : ascii) (line_lower : string) :
  In (a, b) [("b", "s"); ("m", "s"); ("b", "a"); ("m", "a")]%char ->
  contains line_lower (String a (String b "")) = true ->
  existsb (fun pattern => is_some (Re.search pattern line_lower))
          degree_patterns = true.
Proof.
  intros Hab C. unfold degree_patterns. cbn [existsb].
  apply orb_true_iff. left. unfold Re.search.
  apply search_of_contains with (w := String a (String b "")); [|exact C].
  intros pv s P. apply prefix_two in P. destruct P as (s' & ->).
  unfold Re.match_at. cbn [Re.run].
  rewrite WordFacts.run_alt_some by discriminate.
  apply existsb_exists. exists (abbrev a b). split.
  - simpl in Hab.
    destruct Hab as [E | [E | [E | [E | []]]]]; injection E as <- <-;
      simpl; tauto.
  - apply abbrev_some with (s := s'); [|reflexivity|reflexivity].
    simpl in Hab.
    destruct Hab as [E | [E | [E | [E | []]]]]; injection E as <- <-;
      reflexivity.
Qed.

(** X4. Education entries follow the lines of the text: each
    entry is the stripped text of a line, marked "detected", and there are
    no more entries than lines. The abbreviations of the degree pattern
    are searched anywhere in the line, so every line whose lowered text
    contains "ba", "bs", "ma" or "ms" is an entry, whatever it says. *)
Theorem education_entries (text : string) :
  (forall e, In e (extract_education text) ->
             level e = "detected"
             /\ exists line, In line (split_char newline text)
                             /\ degree e = strip line)
  /\ (length (extract_education text)
      <= length (split_char newline text))%nat
  /\ (forall line,
        In line (split_char newline text) ->
        existsb (contains (lower line)) ["ba"; "bs"; "ma"; "ms"] = true ->
        In {| degree := strip line; level := "detected" |}
           (extract_education text)).
Proof.
  unfold extract_education.
  split; [|split].
  - intros e H. apply in_flat_map in H. destruct H as (line & Hl & H).
    destruct (existsb _ degree_patterns); [|contradiction].
    destruct H as [<- | []]. split; [reflexivity|]. eauto.
  - induction (split_char newline text) as [|line ls IH]; simpl; [lia|].
    rewrite length_app.
    match goal with |- context [if ?b then _ else _] => destruct b end;
      [exact (le_n_S _ _ IH) | exact (le_S _ _ IH)].
  - intros line Hl C. apply in_flat_map. exists line. split; [exact Hl|].
    replace (existsb (fun pattern => is_some (Re.search pattern (lower line)))
               degree_patterns) with true; [now left|].
    symmetry. simpl in C. rewrite !orb_false_r in C.
    apply orb_prop in C. destruct C as [C | C];
      [|apply orb_prop in C; destruct C as [C | C];
        [|apply orb_prop in C; destruct C as [C | C]]].
    + apply (degree_abbreviation_found "b" "a"); [simpl; tauto | exact C].
    + apply (degree_abbreviation_found "b" "s"); [simpl; tauto | exact C].
    + apply (degree_abbreviation_found "m" "a"); [simpl; tauto | exact C].
    + apply (degree_abbreviation_found "m" "s"); [simpl; tauto | exact C].
Qed.

Lemma education_entries_witness :
  In "Email: jane@x.org" (split_char newline "Email: jane@x.org")
  /\ existsb (contains (lower "Email: jane@x.org")) ["ba"; "bs"; "ma"; "ms"]
     = true
  /\ In {| degree := "Email: jane@x.org"; level := "detected" |}
        (extract_education "Email: jane@x.org").
Proof.
  assert (H : In "Email: jane@x.org" (split_char newline "Email: jane@x.org"))
    by (left; reflexivity).
  assert (C : existsb (contains (lower "Email: jane@x.org"))
                ["ba"; "bs"; "ma"; "ms"] = true) by reflexivity.
  split; [exact H|]. split; [exact C|].
  destruct (education_entries "Email: jane@x.org") as (_ & _ & K).
  exact (K _ H C).
Defined.

(** ** Section maps *)

Module DictMore.
Import PyDict.

Lemma keys_set {V} (k : string) (v : V) (d : t V) :
  keys (set k v d) = if mem k d then keys d else keys d ++ [k].
Proof.
  unfold mem. induction d as [|[k0 v0] d IH]; simpl; [reflexivity|].
  destruct (String.eqb k k0) eqn:E; simpl.
  - apply String.eqb_eq in E. now subst.
  - rewrite IH. unfold keys. destruct (get k d); reflexivity.
Qed.

Lemma mem_keys {V} (k : string) (d : t V) : mem k d = true <-> In k (keys d).
Proof.
  unfold mem. induction d as [|[k0 v0] d IH]; simpl.
  - split; [discriminate | tauto].
  - destruct (String.eqb k k0) eqn:E.
    + apply String.eqb_eq in E. subst. tauto.
    + apply String.eqb_neq in E. rewrite IH. split; [tauto|].
      intros [H | H]; [congruence | exact H].
Qed.

Lemma keys_set_nodup {V} (k : string) (v : V) (d : t V) :
  NoDup (keys d) -> NoDup (keys (set k v d)).
Proof.
  intros N. rewrite keys_set. destruct (mem k d) eqn:M; [exact N|].
  apply NoDup_app. split; [exact N|]. split.
  - intros x Hx [-> | []]%list_elem_of_In. apply list_elem_of_In in Hx.
    apply mem_keys in Hx. congruence.
  - repeat constructor. intros H. inversion H.
Qed.

Lemma in_keys_set {V} (x k : string) (v : V) (d : t V) :
  In x (keys (set k v d)) -> x = k \/ In x (keys d).
Proof.
  rewrite keys_set. destruct (mem k d); [tauto|].
  rewrite in_app_iff. simpl. intuition.
Qed.

Lemma set_truthy {V} (k : string) (v : V) (d : t V) :
  truthy (set k v d) = true.
Proof.
  destruct d as [|[k0 v0] d]; simpl; [reflexivity|].
  destruct (String.eqb k k0); reflexivity.
Qed.

End DictMore.

Lemma first_section_label (pats : list (string * Re.regex))
    (line_lower line name : string) :
  first_section pats line_lower line = Some name -> In name (map fst pats).
Proof.
  induction pats as [|[n p] pats IH]; simpl; [discriminate|].
  destruct (_ && _); [intros [= <-]; now left | intros H; right; auto].
Qed.

Lemma runs_labels (lines content : list string) (label : string) :
  In label section_labels ->
  Forall (fun r : Run => In (fst r) section_labels) (runs label content lines).
Proof.
  revert label content.
  induction lines as [|line lines IH]; intros label content L; simpl.
  - unfold emit.
    destruct content; [constructor | constructor; [exact L | constructor]].
  - destruct (section_found line) as [name|] eqn:E.
    + apply Forall_app. split.
      * unfold emit.
        destruct content; [constructor | constructor; [exact L | constructor]].
      * apply IH. right. eapply first_section_label, E.
    + apply IH, L.
Qed.

Lemma fold_store_keys (rs : list Run) (d : PyDict.t string) :
  NoDup (PyDict.keys d) ->
  Forall (fun k => In k section_labels) (PyDict.keys d) ->
  Forall (fun r : Run => In (fst r) section_labels) rs ->
  NoDup (PyDict.keys (fold_left store_run rs d))
  /\ Forall (fun k => In k section_labels)
            (PyDict.keys (fold_left store_run rs d)).
Proof.
  revert d. induction rs as [|r rs IH]; intros d N L R; simpl; [auto|].
  inversion R as [|r' rs' Hr Hrs]; subst.
  apply IH; [now apply DictMore.keys_set_nodup | | exact Hrs].
  apply List.Forall_forall. intros x Hx. unfold store_run in Hx.
  apply DictMore.in_keys_set in Hx. destruct Hx as [-> | Hx]; [exact Hr|].
  rewrite List.Forall_forall in L. auto.
Qed.

(** X5. The section map of any text holds no label twice and only
    labels among "header" and the eight section names; the audit reports
    exactly these keys as the sections found. *)
Theorem section_map_labels (text : string) (metadata : Metadata) :
  NoDup (PyDict.keys (parse_sections text))
  /\ Forall (fun k => In k section_labels) (PyDict.keys (parse_sections text))
  /\ sections_found (analyze_formatting text metadata)
     = PyDict.keys (parse_sections text)
  /\ (length (PyDict.keys (parse_sections text)) <= 9)%nat.
Proof.
  assert (K : NoDup (PyDict.keys (parse_sections text))
              /\ Forall (fun k => In k section_labels)
                        (PyDict.keys (parse_sections text))).
  { unfold parse_sections. rewrite segment_loop_runs. simpl.
    apply fold_store_keys; [constructor | constructor|].
    apply runs_labels. now left. }
  destruct K as [N L]. split; [exact N|]. split; [exact L|].
  split; [reflexivity|].
  change 9%nat with (length section_labels).
  apply submseteq_length, NoDup_submseteq; [exact N|].
  intros k Hk. apply list_elem_of_In. apply list_elem_of_In in Hk.
  rewrite List.Forall_forall in L. auto.
Qed.

(** ** Text on one line *)

Lemma split_char_absent (sep : ascii) (s : string) :
  ~ In sep (chars s) -> split_char sep s = [s].
Proof.
  induction s as [|c s IH]; simpl; intros H; [reflexivity|].
  destruct (Ascii.eqb_spec c sep) as [-> | N]; [tauto|].
  rewrite IH by tauto. reflexivity.
Qed.

Lemma section_found_long (line : string) :
  (5 < length (split_ws line))%nat -> section_found line = None.
Proof.
  intros H. apply Nat.leb_gt in H.
  unfold section_found, section_patterns. cbn [first_section].
  rewrite H, !andb_false_r. reflexivity.
Qed.

(** X6. A text without line break that has more than five words
    is one block under "header": the three required sections are all
    missing, the audit says so and the section sub-score is 0; such a text
    yields at most one experience entry and one education entry. *)
Theorem one_line_text
    (parser : ATSParser) (text : string) (metadata : Metadata)
    (ka : KeywordAnalysis) :
  ~ In newline (chars text) ->
  (5 < length (split_ws text))%nat ->
  parse_sections text = [("header", strip text)]
  /\ missing_sections (parse_sections text)
     = ["experience"; "education"; "skills"]
  /\ In "Missing sections: experience, education, skills"
        (issues (analyze_formatting text metadata))
  /\ (sections_sc (ats_breakdown
        (calculate_ats_score (parse parser text metadata) ka)) == 0)%Q
  /\ (length (extract_experience text) <= 1)%nat
  /\ (length (extract_education text) <= 1)%nat.
Proof.
  intros Hnl Hw.
  pose proof (split_char_absent newline text Hnl) as S.
  assert (P : parse_sections text = [("header", strip text)]).
  { unfold parse_sections. rewrite S. cbn [fold_left].
    unfold segment_step. rewrite (section_found_long text Hw). reflexivity. }
  split; [exact P|]. split; [rewrite P; reflexivity|]. split; [|split; [|split]].
  - rewrite analyze_formatting_eq. cbn [issues]. unfold issue_list, issues_of.
    cbn [i_missing]. rewrite P.
    do 3 (apply in_or_app; right). apply in_or_app; left. left. reflexivity.
  - unfold calculate_ats_score, parse. cbn [ats_breakdown sections_sc pd_sections].
    rewrite P. reflexivity.
  - unfold extract_experience. rewrite S. cbn [fold_left]. unfold experience_step.
    destruct (negb (truthy (strip text))); [simpl; lia|].
    destruct (Re.search date_pattern (lower (strip text))); simpl; lia.
  - unfold extract_education. rewrite S. cbn [flat_map]. rewrite app_nil_r.
    match goal with |- context [if ?b then _ else _] => destruct b end;
      simpl; lia.
Qed.

Lemma one_line_text_witness :
  ~ In newline (chars one_line_resume)
  /\ (5 < length (split_ws one_line_resume))%nat
  /\ parse_sections one_line_resume = [("header", one_line_resume)].
Proof.
  assert (N : ~ In newline (chars one_line_resume)).
  { vm_compute. intuition discriminate. }
  assert (W : (5 < length (split_ws one_line_resume))%nat)
    by (vm_compute; lia).
  split; [exact N|]. split; [exact W|].
  destruct (one_line_text silent_parser one_line_resume (with_images false)
              (analyze sample_matcher one_line_resume [] "data_scientist") N W)
    as (P & _).
  exact P.
Defined.

(** ** Experience entries *)

Lemma dated_entry_keys (d line : string) (cur : PyDict.t string) :
  cur = [] \/ entry_ok cur ->
  entry_ok (PyDict.set "description" line (PyDict.set "duration" d cur)).
Proof.
  unfold entry_ok, entry_keys. intros [-> | H]; [reflexivity|].
  destruct cur as [|[k1 v1] [|[k2 v2] [|? ?]]]; try discriminate H.
  simpl in H. injection H as -> ->. reflexivity.
Qed.

Lemma described_entry_keys (line : string) (cur : PyDict.t string) :
  entry_ok cur -> entry_ok (PyDict.set "description" line cur).
Proof.
  unfold entry_ok, entry_keys. intros H.
  destruct cur as [|[k1 v1] [|[k2 v2] [|? ?]]]; try discriminate H.
  simpl in H. injection H as -> ->. reflexivity.
Qed.

Lemma entry_ok_truthy (cur : PyDict.t string) :
  cur = [] \/ entry_ok cur -> PyDict.truthy cur = true -> entry_ok cur.
Proof. intros [-> | H] T; [discriminate T | exact H]. Qed.

Lemma experience_loop (lines : list string) :
  forall exps cur,
    Forall entry_ok exps ->
    cur = [] \/ entry_ok cur ->
    let '(exps', cur') := fold_left experience_step lines (exps, cur) in
    Forall entry_ok exps'
    /\ (cur' = [] \/ entry_ok cur')
    /\ (length exps' + open_count cur'
        <= length exps + open_count cur
           + length (List.filter is_dated lines))%nat.
Proof.
  induction lines as [|raw lines IH]; intros exps cur He Hc.
  - simpl. repeat split; auto. lia.
  - cbn [fold_left List.filter].
    unfold experience_step at 2. unfold is_dated at 1.
    destruct (truthy (strip raw)) eqn:T; cbn [negb andb].
    + destruct (Re.search date_pattern (lower (strip raw))) as [m|] eqn:D;
        cbn [is_some].
      * specialize (IH exps
          (PyDict.set "description" (strip raw)
             (PyDict.set "duration" (Re.m_text m) cur))
          He (or_intror (dated_entry_keys _ _ _ Hc))).
        destruct (fold_left experience_step lines _) as [exps' cur'].
        destruct IH as (A & B & C). repeat split; auto.
        cbn [length]. unfold open_count in *.
        rewrite DictMore.set_truthy in C. destruct (PyDict.truthy cur); lia.
      * destruct (PyDict.truthy cur) eqn:Tc.
        -- specialize (IH exps
             (PyDict.set "description"
                (match PyDict.get "description" cur with
                 | Some d => d | None => "" end +:+ " " +:+ strip raw) cur)
             He (or_intror (described_entry_keys _ _ (entry_ok_truthy _ Hc Tc)))).
           destruct (fold_left experience_step lines _) as [exps' cur'].
           destruct IH as (A & B & C). repeat split; auto.
           unfold open_count in *. rewrite Tc.
           rewrite DictMore.set_truthy in C. lia.
        -- specialize (IH exps cur He Hc).
           destruct (fold_left experience_step lines _) as [exps' cur'].
           destruct IH as (A & B & C). repeat split; auto.
    + destruct (PyDict.truthy cur) eqn:Tc.
      * assert (He' : Forall entry_ok (exps ++ [cur])).
        { apply Forall_app. split; [exact He|].
          constructor; [exact (entry_ok_truthy _ Hc Tc) | constructor]. }
        specialize (IH (exps ++ [cur]) [] He' (or_introl eq_refl)).
        destruct (fold_left experience_step lines _) as [exps' cur'].
        destruct IH as (A & B & C). repeat split; auto.
        rewrite length_app in C. unfold open_count in *. rewrite Tc.
        simpl in C. lia.
      * specialize (IH exps cur He Hc).
        destruct (fold_left experience_step lines _) as [exps' cur'].
        destruct IH as (A & B & C). repeat split; auto.
Qed.

(** X7. Every experience entry has the two keys "duration"
    and "description", set together by a dated line, so the default for a
    missing description is never used; there are no more entries than
    lines with a year range, and a text without such a line has no
    entry. *)
Theorem experience_entries (text : string) :
  Forall (fun e => PyDict.keys e = ["duration"; "description"])
         (extract_experience text)
  /\ (length (extract_experience text)
      <= length (List.filter is_dated (split_char newline text)))%nat
  /\ (List.filter is_dated (split_char newline text) = [] ->
      extract_experience text = []).
Proof.
  assert (K : Forall entry_ok (extract_experience text)
              /\ (length (extract_experience text)
                  <= length (List.filter is_dated (split_char newline text)))%nat).
  { unfold extract_experience.
    pose proof (experience_loop (split_char newline text) [] []
                  (List.Forall_nil _) (or_introl eq_refl)) as L.
    destruct (fold_left experience_step (split_char newline text) ([], []))
      as [exps cur].
    destruct L as (A & B & C). unfold open_count in C. simpl in C.
    destruct (PyDict.truthy cur) eqn:T.
    - split.
      + apply Forall_app. split; [exact A|].
        constructor; [exact (entry_ok_truthy _ B T) | constructor].
      + rewrite length_app. simpl. lia.
    - split; [exact A | lia]. }
  destruct K as [A B]. split; [exact A|]. split; [exact B|].
  intros E. rewrite E in B. simpl in B.
  destruct (extract_experience text); [reflexivity | simpl in B; lia].
Qed.

Lemma experience_entries_witness :
  List.filter is_dated (split_char newline "Built APIs for a bank") = []
  /\ extract_experience "Built APIs for a bank" = [].
Proof.
  assert (E : List.filter is_dated (split_char newline "Built APIs for a bank")
              = []) by reflexivity.
  split; [exact E|].
  destruct (experience_entries "Built APIs for a bank") as (_ & _ & K).
  exact (K E).
Defined.

(** ** Substrings *)

Module StrFacts.

Lemma prefix_iff (a b : string) :
  String.prefix a b = true <-> exists v, b = a +:+ v.
Proof.
  revert b. induction a as [|c a IH]; intros b.
  - destruct b; simpl; split; eauto.
  - destruct b as [|d b].
    + simpl. split; [discriminate | intros (v & E); discriminate E].
    + rewrite WordFacts.prefix_cons. split.
      * intros H. apply andb_prop in H. destruct H as [E H].
        apply Ascii.eqb_eq in E. subst d.
        apply IH in H. destruct H as (v & ->). exists v. reflexivity.
      * intros (v & E). simpl in E. injection E as -> ->.
        rewrite Ascii.eqb_refl. simpl. apply IH. eauto.
Qed.

Lemma app_assoc (a b c : string) : (a +:+ b) +:+ c = a +:+ (b +:+ c).
Proof.
  induction a as [|x a IH]; [reflexivity|].
  change (String x ((a +:+ b) +:+ c) = String x (a +:+ (b +:+ c))).
  f_equal. exact IH.
Qed.

Lemma contains_cons (c : ascii) (b a : string) :
  contains (String c b) a = String.prefix a (String c b) || contains b a.
Proof. reflexivity. Qed.

Lemma contains_nil (a : string) : contains "" a = String.prefix a "".
Proof. unfold contains. apply orb_false_r. Qed.

Lemma contains_iff (b a : string) :
  contains b a = true <-> exists u v, b = u +:+ a +:+ v.
Proof.
  induction b as [|c b IH].
  - rewrite contains_nil, prefix_iff. split.
    + intros (v & E). exists "", v. exact E.
    + intros (u & v & E). destruct u; [eauto | discriminate E].
  - rewrite contains_cons, orb_true_iff, prefix_iff, IH. split.
    + intros [(v & E) | (u & v & E)].
      * exists "", v. exact E.
      * exists (String c u), v. rewrite E. reflexivity.
    + intros (u & v & E). destruct u as [|d u].
      * left. exists v. exact E.
      * right. injection E as -> ->. eauto.
Qed.

Lemma contains_trans (t k' k : string) :
  contains t k' = true -> contains k' k = true -> contains t k = true.
Proof.
  rewrite !contains_iff. intros (u & v & ->) (u' & v' & ->).
  exists (u +:+ u'), (v' +:+ v). now rewrite !app_assoc.
Qed.


Lemma contains_empty (t : string) : contains t "" = true.
Proof. apply contains_iff. exists "", t. reflexivity. Qed.


End StrFacts.


Lemma in_firstn {A} (n : nat) (x : A) (l : list A) :
  In x (firstn n l) -> In x l.
Proof.
  revert l. induction n as [|n IH]; intros [|a l]; simpl; try tauto.
  intros [H | H]; auto.
Qed.



(** X9. A keyword counts as matched when its lowered form
    occurs anywhere in the lowered text, inside a longer word too: a
    keyword of the profile that occurs inside a matched keyword is
    matched itself, and an empty keyword is matched by every text. *)
Theorem keyword_match_by_substring (self : KeywordMatcher) (text jf : string) :
  let km := calculate_keyword_match self text jf in
  let stored := stored_keywords (job_data_of self jf) in
  (forall k, In k stored ->
     (In (lower k) (matched_keywords km)
      <-> contains (lower text) (lower k) = true))
  /\ (forall k k', In k stored -> In k' stored ->
        contains (lower k') (lower k) = true ->
        In (lower k') (matched_keywords km) ->
        In (lower k) (matched_keywords km))
  /\ (In "" stored -> In "" (matched_keywords km)).
Proof.
  intros km stored. subst km. rewrite calculate_keyword_match_eq.
  cbn [matched_keywords].
  assert (M : forall k, In k stored ->
     (In (lower k) (List.filter (hit (lower text)) (get_job_keywords self jf))
      <-> contains (lower text) (lower k) = true)).
  { intros k Hk. rewrite filter_In. unfold hit. rewrite lower_idem.
    split; [tauto|]. intros H. split; [|exact H].
    unfold get_job_keywords. apply in_map. exact Hk. }
  split; [exact M|]. split.
  - intros k k' Hk Hk' C H. apply (M k Hk). apply (M k' Hk') in H.
    eapply StrFacts.contains_trans; eassumption.
  - intros H. apply (M "" H). apply StrFacts.contains_empty.
Qed.

Lemma keyword_match_by_substring_witness :
  contains (lower "JavaScript") (lower "Java") = true
  /\ In "java" (matched_keywords
        (calculate_keyword_match java_matcher "I write JavaScript" "web")).
Proof.
  assert (C : contains (lower "JavaScript") (lower "Java") = true)
    by reflexivity.
  split; [exact C|].
  destruct (keyword_match_by_substring java_matcher "I write JavaScript" "web")
    as (_ & K & _).
  apply (K "Java" "JavaScript").
  - vm_compute. tauto.
  - vm_compute. tauto.
  - exact C.
  - vm_compute. tauto.
Defined.

(** ** Rounding keeps the order *)



Lemma round2_exact (k : Z) (x : Q) : (x == inject_Z k)%Q -> (round2 x == inject_Z k)%Q.
Proof.
  intros E. apply Qle_antisym;
    apply (round2_bounds k k x); rewrite E; apply Qle_refl.
Qed.

(** ** Match percentage *)


(** X10. The match percentage lies between 0 and 100; it is 0
    when no keyword is matched and 100 when a profile with keywords is
    matched in full. *)
Theorem match_percentage_range (self : KeywordMatcher) (text jf : string) :
  let km := calculate_keyword_match self text jf in
  (0 <= match_percentage km <= 100)%Q
  /\ (total_matched km = 0%nat -> (match_percentage km == 0)%Q)
  /\ ((0 < total_required km)%nat ->
      total_matched km = total_required km ->
      (match_percentage km == 100)%Q).
Proof.
  intros km. split; [apply match_percentage_bounds|].
  subst km. rewrite calculate_keyword_match_eq.
  cbn [match_percentage total_matched total_required].
  set (kws := get_job_keywords self jf).
  set (m := length (List.filter (hit (lower text)) kws)).
  split.
  - intros ->. apply (round2_exact 0).
    destruct kws; [reflexivity|]. unfold Qnat at 1, Qdiv. simpl inject_Z.
    rewrite Qmult_0_l, Qmult_0_l. reflexivity.
  - intros Hn ->. apply (round2_exact 100).
    destruct kws as [|k kws]; [simpl in Hn; lia|].
    set (n := length (k :: kws)) in *.
    assert (P : ~ (Qnat n == 0)%Q).
    { pose proof (Qnat_pos n Hn) as L. intros E. rewrite E in L.
      discriminate L. }
    unfold Qdiv. rewrite Qmult_inv_r by exact P. reflexivity.
Qed.

Lemma match_percentage_range_witness :
  total_matched (calculate_keyword_match sample_matcher "" "data_scientist")
    = 0%nat
  /\ (match_percentage
        (calculate_keyword_match sample_matcher "" "data_scientist") == 0)%Q.
Proof.
  assert (E : total_matched
                (calculate_keyword_match sample_matcher "" "data_scientist")
              = 0%nat) by reflexivity.
  split; [exact E|].
  destruct (match_percentage_range sample_matcher "" "data_scientist")
    as (_ & K & _).
  exact (K E).
Defined.


(** ** Scores *)

(** X12. The radar data of a keyword analysis has its five fixed
    categories in order, and every score of it lies between 0 and 100. *)
Theorem radar_data_shape
    (self : KeywordMatcher) (text : string) (skills : list string)
    (jf : string) :
  let radar := generate_skill_radar_data (analyze self text skills jf) in
  map category radar
    = ["Core Skills"; "Tools"; "Frameworks"; "Other Skills"; "Keywords"]
  /\ Forall (fun e => percent (radar_score e)) radar.
Proof.
  intros radar. subst radar. unfold generate_skill_radar_data, analyze.
  cbn [categorized_skills keyword_match]. split; [reflexivity|].
  repeat constructor; cbn [radar_score];
    first [ apply match_percentage_bounds
          | apply (proj1 (capped_bounds _))
          | apply (proj2 (capped_bounds _)) ].
Qed.

Section SubScores.
Local Open Scope Q_scope.




End SubScores.



(** ** Substitution *)

Module SubFacts.
Import Re.

Lemma rep_suffix {A} (p : ascii -> bool) (s : string) :
  forall lo hi pv cs (k : mstate -> option A) x,
    rep p lo hi pv s cs k = Some x ->
    exists st u, s = u +:+ rest st /\ k st = Some x.
Proof.
  induction s as [|c s IH]; intros lo hi pv cs k x H; simpl in H.
  - destruct (lo =? 0)%nat; [|discriminate].
    exists (MState pv "" cs), "". split; [reflexivity | exact H].
  - assert (Stop : (if (lo =? 0)%nat then k (MState pv (String c s) cs) else None)
                   = Some x ->
                   exists st u, String c s = u +:+ rest st /\ k st = Some x).
    { destruct (lo =? 0)%nat; [|discriminate]. intros E.
      exists (MState pv (String c s) cs), "". split; [reflexivity | exact E]. }
    destruct (p c && hi_allows hi); [|now apply Stop].
    destruct (rep p (Nat.pred lo) (hi_pred hi) (Some c) s cs k) as [y|] eqn:E;
      simpl in H; [|now apply Stop].
    injection H as ->. apply IH in E. destruct E as (st & u & -> & E).
    exists st, (String c u). split; [reflexivity | exact E].
Qed.

(** The state a run hands on holds a suffix of the text it started on. *)
Lemma run_suffix {A} (r : regex) :
  forall st (k : mstate -> option A) x,
    run r st k = Some x ->
    exists st' u, rest st = u +:+ rest st' /\ k st' = Some x.
Proof.
  induction r as [|p|r1 IH1 r2 IH2|r1 IH1 r2 IH2|r1 IH1|p lo hi|i r1 IH1|];
    intros st k x H; simpl in H.
  - exists st, "". split; [reflexivity | exact H].
  - destruct (rest st) as [|c s'] eqn:E; [discriminate|].
    destruct (p c); [|discriminate].
    exists (MState (Some c) s' (caps st)), (String c "").
    split; [reflexivity | exact H].
  - apply IH1 in H. destruct H as (st1 & u1 & E1 & H).
    apply IH2 in H. destruct H as (st2 & u2 & E2 & H).
    exists st2, (u1 +:+ u2). split; [|exact H].
    rewrite E1, E2. symmetry. apply StrFacts.app_assoc.
  - destruct (run r1 st k) as [y|] eqn:E; simpl in H.
    + injection H as ->. now apply IH1.
    + now apply IH2.
  - destruct (run r1 st k) as [y|] eqn:E; simpl in H.
    + injection H as ->. now apply IH1.
    + exists st, "". split; [reflexivity | exact H].
  - now apply rep_suffix in H.
  - apply IH1 in H. destruct H as (st1 & u1 & E1 & H).
    eexists _, u1. split; [|exact H]. exact E1.
  - destruct (xorb _ _); [|discriminate].
    exists st, "". split; [reflexivity | exact H].
Qed.

Lemma match_at_suffix (r : regex) (pv : option ascii) (s : string) (m : rmatch) :
  match_at r pv s = Some m -> exists u, s = u +:+ rest (m_end m).
Proof.
  unfold match_at. intros H. apply run_suffix in H.
  destruct H as (st & u & E & H). injection H as <-. simpl in *. eauto.
Qed.

Lemma chars_app (a b : string) : chars (a +:+ b) = chars a ++ chars b.
Proof.
  induction a as [|c a IH]; [reflexivity|].
  change (c :: chars (a +:+ b) = c :: (chars a ++ chars b)).
  f_equal. exact IH.
Qed.

(** What [sub] leaves: the characters of the replacement, and copied
    characters at which the pattern does not match. *)
Lemma sub_from_forall (P Q : ascii -> Prop) (r : regex) (repl : string) :
  Forall P (chars repl) ->
  (1 <= min_len r)%nat ->
  (forall pv c s, Q c -> match_at r pv (String c s) = None -> P c) ->
  forall fuel pv s,
    (String.length s < fuel)%nat ->
    Forall Q (chars s) ->
    Forall P (chars (sub_from fuel r repl pv s)).
Proof.
  intros HR HM HC. induction fuel as [|fuel IH]; intros pv s HL HQ; [lia|].
  cbn [sub_from].
  destruct (match_at r pv s) as [m|] eqn:E.
  - pose proof (MatchFacts.match_at_covers r pv s m E) as [L _].
    pose proof (ReFacts.match_at_consumes r pv s m E) as [L1 L2].
    pose proof (match_at_suffix r pv s m E) as (u & Eu).
    destruct (m_text m) as [|c t] eqn:T; [simpl in L; lia|].
    rewrite chars_app. apply Forall_app. split; [exact HR|].
    apply IH.
    + simpl in L2. lia.
    + rewrite Eu, chars_app in HQ. apply Forall_app in HQ. tauto.
  - destruct s as [|c s]; [constructor|].
    change (chars (String c (sub_from fuel r repl (Some c) s)))
      with (c :: chars (sub_from fuel r repl (Some c) s)).
    change (chars (String c s)) with (c :: chars s) in HQ.
    inversion HQ as [|c' l' Hc Hs]; subst.
    constructor; [eapply HC; eassumption|].
    apply IH; [simpl in HL; lia | exact Hs].
Qed.

Lemma match_at_cls (p : ascii -> bool) (pv : option ascii) (c : ascii)
    (s : string) :
  p c = true -> match_at (Cls p) pv (String c s) <> None.
Proof. intros H. unfold match_at. simpl. rewrite H. discriminate. Qed.

Lemma match_at_plus (p : ascii -> bool) (pv : option ascii) (c : ascii)
    (s : string) :
  p c = true -> match_at (plus p) pv (String c s) <> None.
Proof.
  intros H E.
  assert (S : is_some (match_at (plus p) pv (String c s)) = true).
  { unfold match_at, plus. cbn [run rest prev caps rep]. rewrite H.
    cbn [andb hi_allows Nat.pred hi_pred Nat.eqb].
    rewrite WordFacts.is_some_or_else, rep_optional_some; reflexivity. }
  rewrite E in S. discriminate S.
Qed.

End SubFacts.

(** ** Stripping *)

Module StripFacts.

Lemma lstrip_forall (P : ascii -> Prop) (s : string) :
  Forall P (chars s) -> Forall P (chars (lstrip s)).
Proof.
  induction s as [|c s IH]; intros H; [exact H|].
  simpl. destruct (is_space c); [|exact H].
  apply IH. inversion H; assumption.
Qed.

Lemma rstrip_forall (P : ascii -> Prop) (s : string) :
  Forall P (chars s) -> Forall P (chars (rstrip s)).
Proof.
  induction s as [|c s IH]; intros H; [exact H|].
  change (chars (String c s)) with (c :: chars s) in H.
  inversion H as [|c' l' Hc Hs]; subst. specialize (IH Hs).
  simpl. destruct (rstrip s) as [|d r].
  - destruct (is_space c); [constructor|]. constructor; [exact Hc | constructor].
  - constructor; [exact Hc | exact IH].
Qed.

Lemma rstrip_idem (s : string) : rstrip (rstrip s) = rstrip s.
Proof.
  induction s as [|c s IH]; [reflexivity|].
  simpl. destruct (rstrip s) as [|d r] eqn:E.
  - destruct (is_space c) eqn:S; [reflexivity|]. simpl. now rewrite S.
  - simpl. simpl in IH. rewrite IH. reflexivity.
Qed.

Lemma lstrip_rstrip (t : string) :
  lstrip t = t -> lstrip (rstrip t) = rstrip t.
Proof.
  destruct t as [|c t]; [reflexivity|]. simpl.
  destruct (is_space c) eqn:S.
  - intros H. exfalso.
    assert (L : forall s, (String.length (lstrip s) <= String.length s)%nat).
    { induction s as [|x s IH]; simpl; [lia|].
      destruct (is_space x); simpl; lia. }
    specialize (L t). rewrite H in L. simpl in L. lia.
  - intros _. destruct (rstrip t); simpl; now rewrite S.
Qed.

Lemma lstrip_idem (s : string) : lstrip (lstrip s) = lstrip s.
Proof.
  induction s as [|c s IH]; [reflexivity|].
  simpl. destruct (is_space c) eqn:S; [exact IH|]. simpl. now rewrite S.
Qed.

Lemma strip_idem (s : string) : strip (strip s) = strip s.
Proof.
  unfold strip. rewrite (lstrip_rstrip (lstrip s)) by apply lstrip_idem.
  apply rstrip_idem.
Qed.

Lemma strip_forall (P : ascii -> Prop) (s : string) :
  Forall P (chars s) -> Forall P (chars (strip s)).
Proof. intros H. unfold strip. now apply rstrip_forall, lstrip_forall. Qed.

End StripFacts.

(** ** Cleaned text *)

Lemma kept_is_clean (c : ascii) :
  kept_char c = true -> (is_space c = true -> c = " "%char) -> clean_char c.
Proof.
  unfold kept_char, clean_char. intros K S.
  destruct (is_word c); [now left|].
  destruct (is_space c); [right; left; now apply S|].
  right; right. simpl in K. unfold Re.one_of in K.
  apply existsb_exists in K. destruct K as (d & Hd & E).
  apply Ascii.eqb_eq in E. subst d. exact Hd.
Qed.

Lemma clean_text_chars (raw : string) :
  Forall clean_char (chars (clean_text raw)).
Proof.
  unfold clean_text. apply StripFacts.strip_forall.
  assert (S1 : Forall (fun c => is_space c = true -> c = " "%char)
                 (chars (Re.sub space_run " " raw))).
  { unfold Re.sub.
    apply SubFacts.sub_from_forall with (Q := fun _ => True).
    - repeat constructor.
    - simpl. lia.
    - intros pv c s _ N S. exfalso.
      exact (SubFacts.match_at_plus is_space pv c s S N).
    - lia.
    - apply List.Forall_forall. auto. }
  assert (S2 : Forall (fun c => kept_char c = true
                                /\ (is_space c = true -> c = " "%char))
                 (chars (Re.sub special_char "" (Re.sub space_run " " raw)))).
  { unfold Re.sub.
    apply SubFacts.sub_from_forall
      with (Q := fun c => is_space c = true -> c = " "%char).
    - constructor.
    - simpl. lia.
    - intros pv c s Hc N. split; [|exact Hc].
      destruct (kept_char c) eqn:K; [reflexivity|]. exfalso.
      refine (SubFacts.match_at_cls _ pv c s _ N). now rewrite K.
    - lia.
    - exact S1. }
  eapply List.Forall_impl; [|exact S2].
  intros c [K S]. now apply kept_is_clean.
Qed.


(** X15. Cleaned text is one line for the segmenter: when it
    has more than five words it is a single "header" block, whatever
    headings the document had, and all three required sections are
    reported missing. *)
Theorem cleaned_text_is_one_block (raw : string) (metadata : Metadata) :
  (5 < length (split_ws (clean_text raw)))%nat ->
  parse_sections (clean_text raw) = [("header", clean_text raw)]
  /\ missing_sections (parse_sections (clean_text raw))
     = ["experience"; "education"; "skills"]
  /\ sections_found (analyze_formatting (clean_text raw) metadata) = ["header"]
  /\ (score (analyze_formatting (clean_text raw) metadata) <= 70)%Z.
Proof.
  intros W. set (text := clean_text raw) in *.
  assert (S : split_char newline text = [text]).
  { apply split_char_absent. intros H.
    pose proof (clean_text_chars raw) as C. fold text in C.
    rewrite List.Forall_forall in C. specialize (C _ H).
    destruct C as [C | [C | C]]; [discriminate C | discriminate C |].
    simpl in C. intuition discriminate. }
  assert (P : parse_sections text = [("header", text)]).
  { unfold parse_sections. rewrite S. cbn [fold_left].
    unfold segment_step. rewrite (section_found_long text W).
    unfold save_section. cbn [section_content sections current_section
                              segment_init app join].
    unfold text, clean_text at 1. rewrite StripFacts.strip_idem. reflexivity. }
  split; [exact P|]. split; [rewrite P; reflexivity|].
  rewrite analyze_formatting_eq. cbn [sections_found score]. rewrite P.
  split; [reflexivity|].
  unfold penalty, issues_of. cbn [i_missing i_images i_short i_long i_no_email
                                  i_no_phone]. rewrite P.
  change (length (missing_sections [("header", text)])) with 3%nat.
  unfold points.
  repeat match goal with |- context [if ?b then _ else _] => destruct b end;
    lia.
Qed.

Lemma cleaned_text_is_one_block_witness :
  (5 < length (split_ws (clean_text resume_once)))%nat
  /\ parse_sections (clean_text resume_once)
     = [("header", "Jane Doe Experience 2020-2022 Engineer Skills python sql")].
Proof.
  assert (W : (5 < length (split_ws (clean_text resume_once)))%nat)
    by (vm_compute; lia).
  split; [exact W|].
  destruct (cleaned_text_is_one_block resume_once (with_images false) W)
    as (P & _).
  exact P.
Defined.

(** ** Suggestions *)

Lemma issue_step_app (suggestions : list string) (issue : string) :
  issue_step suggestions issue = suggestions ++ issue_step [] issue.
Proof.
  unfold issue_step.
  repeat match goal with
         | |- context [if ?b then _ else _] => destruct b
         end; try reflexivity.
  now rewrite app_nil_r.
Qed.

Lemma fold_issue_step (l : list string) (suggestions : list string) :
  fold_left issue_step l suggestions
  = suggestions ++ flat_map (issue_step []) l.
Proof.
  revert suggestions. induction l as [|x l IH]; intros s; simpl.
  - now rewrite app_nil_r.
  - rewrite IH, issue_step_app, <- app_assoc. reflexivity.
Qed.

Lemma flat_map_said {B} (f : string -> list B) (b : bool) (x : string) :
  flat_map f (said b x) = if b then f x else [].
Proof. destruct b; simpl; [apply app_nil_r | reflexivity]. Qed.

Lemma missing_cases (sections : PyDict.t string) :
  In (missing_sections sections)
     [ []; ["skills"]; ["education"]; ["education"; "skills"];
       ["experience"]; ["experience"; "skills"];
       ["experience"; "education"];
       ["experience"; "education"; "skills"] ].
Proof.
  unfold missing_sections, required_sections. cbn [List.filter].
  destruct (PyDict.mem "experience" sections),
           (PyDict.mem "education" sections),
           (PyDict.mem "skills" sections); cbn; tauto.
Qed.

Lemma audit_hints_of_issues (i : Issues) :
  In (i_missing i)
     [ []; ["skills"]; ["education"]; ["education"; "skills"];
       ["experience"]; ["experience"; "skills"];
       ["experience"; "education"];
       ["experience"; "education"; "skills"] ] ->
  flat_map (issue_step []) (issue_list i) = audit_hints i.
Proof.
  intros M. unfold issue_list, audit_hints.
  rewrite !flat_map_app, !flat_map_said.
  destruct i as [img sh lg missing ne np]. cbn [i_images i_short i_long
    i_missing i_no_email i_no_phone] in *.
  assert (E : (if negb (length missing =? 0)%nat
               then issue_step [] ("Missing sections: " +:+ join ", " missing)
               else [])
              = said (negb (length missing =? 0)%nat)
                  (sections_hint ("Missing sections: " +:+ join ", " missing))).
  { cbn [In] in M.
    repeat (destruct M as [M | M]; [subst missing; vm_compute; reflexivity|]).
    contradiction. }
  rewrite E. clear E M.
  set (X := said _ (sections_hint _)). clearbody X.
  replace (issue_step [] "No email address found") with (@nil string)
    by (vm_compute; reflexivity).
  replace (issue_step [] "No phone number found") with (@nil string)
    by (vm_compute; reflexivity).
  replace (if ne then [] else []) with (@nil string) by now destruct ne.
  replace (if np then [] else []) with (@nil string) by now destruct np.
  rewrite !app_nil_r.
  destruct img, sh, lg; vm_compute; reflexivity.
Qed.

Lemma audit_fold (text : string) (metadata : Metadata)
    (suggestions : list string) :
  fold_left issue_step (issues (analyze_formatting text metadata)) suggestions
  = suggestions ++ audit_hints (issues_of text metadata).
Proof.
  rewrite fold_issue_step, analyze_formatting_eq. cbn [issues].
  rewrite audit_hints_of_issues; [reflexivity|]. apply missing_cases.
Qed.

Lemma audit_hints_length (text : string) (metadata : Metadata) :
  (length (audit_hints (issues_of text metadata)) <= 3)%nat.
Proof.
  pose proof (short_long_exclusive text metadata) as X.
  set (i := issues_of text metadata) in *.
  unfold audit_hints. rewrite !length_app.
  destruct (i_images i), (i_short i), (i_long i),
           (negb (length (i_missing i) =? 0)%nat);
    try discriminate X; cbn; lia.
Qed.

(** X16. Each issue of the formatting audit raises the suggestion meant
    for it, once and in the order of the audit: images, too short or too
    long, missing sections, the last one quoting the issue itself; a
    missing e-mail address or phone number raises no suggestion. At most
    three suggestions come from the audit. *)
Theorem audit_issue_suggestions
    (text : string) (metadata : Metadata) (suggestions : list string) :
  let i := issues_of text metadata in
  fold_left issue_step (issues (analyze_formatting text metadata)) suggestions
  = suggestions ++ audit_hints i
  /\ (length (audit_hints i) <= 3)%nat.
Proof.
  intros i. split; [apply audit_fold | apply audit_hints_length].
Qed.

Lemma append_if_said (cond : bool) (s : string) (l : list string) :
  append_if cond s l = l ++ said cond s.
Proof. destruct cond; simpl; [reflexivity | now rewrite app_nil_r]. Qed.

Lemma said_length (cond : bool) (s : string) : (length (said cond s) <= 1)%nat.
Proof. destruct cond; simpl; lia. Qed.

(** The rule-based suggestions of an analysis, condition by condition. *)
Lemma rule_suggestions_eq
    (parser : ATSParser) (matcher : KeywordMatcher)
    (text : string) (metadata : Metadata) (jf : string) :
  let a := analyze_resume parser matcher text metadata jf in
  let missing := missing_keywords (keyword_match (keyword_analysis a)) in
  rule_suggestions (analysis_data_of a)
  = said (Qlt_bool (ats_total (ats_score a)) 70) ats_hint
    ++ audit_hints (issues_of text metadata)
    ++ said (Qlt_bool (jf_total (job_fit_score a)) 60)
            (job_fit_hint (jf_total (job_fit_score a)))
    ++ said (0 <? length missing)%nat (keywords_hint (firstn 5 missing))
    ++ said (Qlt_bool (experience_relevance (jf_breakdown (job_fit_score a))) 70)
            experience_hint
    ++ said (Qlt_bool (skills_coverage (jf_breakdown (job_fit_score a))) 60)
            skills_hint.
Proof.
  intros a missing. unfold rule_suggestions.
  cbn [analysis_data_of ad_ats ad_job_fit ad_keyword_analysis ad_parsed_data].
  rewrite !append_if_said.
  change (parsed_data a) with (parse parser text metadata).
  cbn [parse pd_formatting].
  rewrite audit_fold.
  rewrite <- !app_assoc, app_nil_l. subst missing. reflexivity.
Qed.

Lemma rule_suggestions_length
    (parser : ATSParser) (matcher : KeywordMatcher)
    (text : string) (metadata : Metadata) (jf : string) :
  (length (rule_suggestions
             (analysis_data_of
                (analyze_resume parser matcher text metadata jf))) <= 8)%nat.
Proof.
  rewrite rule_suggestions_eq. rewrite !length_app.
  pose proof (audit_hints_length text metadata).
  repeat match goal with
         | |- context [length (said ?c ?s)] =>
             let L := fresh "L" in
             pose proof (said_length c s) as L;
             generalize dependent (length (said c s)); intros
         end.
  lia.
Qed.

(** X17. The cap of eight never cuts a rule-based suggestion: an analysis
    raises at most eight of them, all returned in order, and the cap only
    limits the AI suggestions appended after them; without a client the
    result is the rule-based list. *)
Theorem suggestion_cap_spares_rules
    (self : AIFeedbackGenerator) (rt : PyRuntime)
    (parser : ATSParser) (matcher : KeywordMatcher)
    (text : string) (metadata : Metadata) (jf : string) :
  let ad := analysis_data_of (analyze_resume parser matcher text metadata jf) in
  let rules := rule_suggestions ad in
  (length rules <= 8)%nat
  /\ generate_suggestions self rt ad
     = rules ++ firstn (8 - length rules) (_generate_ai_suggestions self rt ad)
  /\ (client self = None -> generate_suggestions self rt ad = rules).
Proof.
  intros ad rules.
  pose proof (rule_suggestions_length parser matcher text metadata jf) as L.
  fold ad in L. fold rules in L.
  assert (E : generate_suggestions self rt ad
              = firstn 8 (rules ++ _generate_ai_suggestions self rt ad)).
  { unfold generate_suggestions, _generate_ai_suggestions. fold rules.
    destruct (client self); [reflexivity | now rewrite app_nil_r]. }
  split; [exact L|]. split.
  - rewrite E, List.firstn_app, (List.firstn_all2 rules) by exact L.
    reflexivity.
  - intros N. rewrite E. unfold _generate_ai_suggestions. rewrite N.
    rewrite app_nil_r. apply List.firstn_all2. exact L.
Qed.

Lemma suggestion_cap_spares_rules_witness :
  client {| client := None |} = None
  /\ generate_suggestions {| client := None |} sample_rt
       (analysis_data_of
          (analyze_resume silent_parser sample_matcher contact_line
             (with_images true) "data_scientist"))
     = rule_suggestions
         (analysis_data_of
            (analyze_resume silent_parser sample_matcher contact_line
               (with_images true) "data_scientist")).
Proof.
  split; [reflexivity|].
  apply (suggestion_cap_spares_rules {| client := None |} sample_rt
           silent_parser sample_matcher contact_line (with_images true)
           "data_scientist").
  reflexivity.
Defined.

Lemma Qlt_bool_iff (x y : Q) : Qlt_bool x y = true <-> (x < y)%Q.
Proof.
  unfold Qlt_bool. destruct (Qle_bool_spec y x) as [H | H]; cbn; split.
  - discriminate.
  - intros L. exfalso. apply (Qlt_not_le _ _ L H).
  - intros _. now apply Qnot_le_lt.
  - reflexivity.
Qed.

(** The first four bytes of a suggestion: its pictogram. *)
Lemma in_audit_hints (x : string) (i : Issues) :
  In x (audit_hints i) ->
  In (substring 0 4 x)
     [substring 0 4 images_hint; substring 0 4 short_hint;
      substring 0 4 long_hint; substring 0 4 (sections_hint "")].
Proof.
  unfold audit_hints. rewrite !in_app_iff, !in_said.
  intros [[_ ->] | [[_ ->] | [[_ ->] | [_ ->]]]]; cbn; tauto.
Qed.

Lemma in_rule_suggestions
    (parser : ATSParser) (matcher : KeywordMatcher)
    (text : string) (metadata : Metadata) (jf : string) (x : string) :
  let a := analyze_resume parser matcher text metadata jf in
  In x (rule_suggestions (analysis_data_of a)) <->
  (Qlt_bool (ats_total (ats_score a)) 70 = true /\ x = ats_hint)
  \/ In x (audit_hints (issues_of text metadata))
  \/ (Qlt_bool (jf_total (job_fit_score a)) 60 = true
      /\ x = job_fit_hint (jf_total (job_fit_score a)))
  \/ ((0 <? length (missing_keywords (keyword_match (keyword_analysis a))))%nat
      = true
      /\ x = keywords_hint
               (firstn 5 (missing_keywords
                            (keyword_match (keyword_analysis a)))))
  \/ (Qlt_bool (experience_relevance (jf_breakdown (job_fit_score a))) 70
      = true /\ x = experience_hint)
  \/ (Qlt_bool (skills_coverage (jf_breakdown (job_fit_score a))) 60 = true
      /\ x = skills_hint).
Proof.
  intros a. subst a. rewrite rule_suggestions_eq.
  rewrite !in_app_iff, !in_said. reflexivity.
Qed.

Ltac other_pictogram :=
  match goal with
  | H : _ = _ |- _ =>
      apply (f_equal (substring 0 4)) in H; cbn in H; discriminate H
  end.

Lemma experience_relevance_low (parsed : ParsedData) (ka : KeywordAnalysis) :
  Qlt_bool (experience_relevance
              (jf_breakdown (calculate_job_fit_score parsed ka))) 70 = true
  <-> (length (pd_experience parsed) <= 1)%nat.
Proof.
  unfold calculate_job_fit_score. cbn [jf_breakdown experience_relevance].
  destruct (Nat.leb_spec 3 (length (pd_experience parsed))) as [A | A];
    [split; [intros H; discriminate H | lia]|].
  destruct (Nat.eqb_spec (length (pd_experience parsed)) 2) as [B | B];
    [split; [intros H; discriminate H | lia]|].
  destruct (Nat.eqb_spec (length (pd_experience parsed)) 1) as [C | C];
    (split; [intros _; lia | reflexivity]).
Qed.

Lemma skills_coverage_low (parsed : ParsedData) (ka : KeywordAnalysis) :
  Qlt_bool (skills_coverage
              (jf_breakdown (calculate_job_fit_score parsed ka))) 60 = true
  <-> (length (cat_core_skills (categorized_skills ka)) < 6)%nat.
Proof.
  unfold calculate_job_fit_score. cbn [jf_breakdown skills_coverage].
  rewrite Qlt_bool_iff.
  set (n := length (cat_core_skills (categorized_skills ka))).
  assert (E : (Qnat (n * 10) < 60)%Q <-> (n < 6)%nat).
  { unfold Qnat. change 60%Q with (inject_Z 60). rewrite <- Zlt_Qlt. lia. }
  destruct (Qmin_spec 100 (Qnat (n * 10))) as [[L ->] | [L ->]].
  - split; [intros H; discriminate H|].
    intros H. apply E in H. exfalso.
    apply (Qlt_not_le _ _ H). eapply Qle_trans; [|exact L]. discriminate.
  - exact E.
Qed.

(** X18. What raises four of the suggestions of an analysis: "Quantify
    Achievements" is given exactly when at most one experience entry was
    found, "Expand Skills Section" exactly when fewer than six of the
    extracted skills are core skills of the profile, "ATS Compatibility"
    exactly when the ATS total is below 70, and "Remove Images" exactly
    when the metadata report images. *)
Theorem suggestion_triggers
    (parser : ATSParser) (matcher : KeywordMatcher)
    (text : string) (metadata : Metadata) (jf : string) :
  let a := analyze_resume parser matcher text metadata jf in
  let rules := rule_suggestions (analysis_data_of a) in
  (In experience_hint rules <-> (length (extract_experience text) <= 1)%nat)
  /\ (In skills_hint rules <->
      (length (cat_core_skills (categorized_skills (keyword_analysis a))) < 6)%nat)
  /\ (In ats_hint rules <-> (ats_total (ats_score a) < 70)%Q)
  /\ (In images_hint rules <-> truthy_opt (has_images metadata) = true).
Proof.
  intros a rules. subst rules.
  pose proof (fun x => in_rule_suggestions parser matcher text metadata jf x)
    as R. cbv zeta in R. fold a in R.
  pose proof (experience_relevance_low (parse parser text metadata)
                (keyword_analysis a)) as EX.
  pose proof (skills_coverage_low (parse parser text metadata)
                (keyword_analysis a)) as SK.
  change (calculate_job_fit_score (parse parser text metadata)
            (keyword_analysis a)) with (job_fit_score a) in EX, SK.
  cbn [parse pd_experience] in EX.
  split; [|split; [|split]].
  - rewrite R, <- EX. split; [|tauto].
    intros [[_ H] | [H | [[_ H] | [[_ H] | [[H _] | [_ H]]]]]];
      try other_pictogram; try exact H.
    apply in_audit_hints in H. cbn in H.
    repeat (destruct H as [H | H]; [discriminate H|]). contradiction.
  - rewrite R, <- SK. split; [|tauto].
    intros [[_ H] | [H | [[_ H] | [[_ H] | [[_ H] | [H _]]]]]];
      try other_pictogram; try exact H.
    apply in_audit_hints in H. cbn in H.
    repeat (destruct H as [H | H]; [discriminate H|]). contradiction.
  - rewrite R, <- Qlt_bool_iff. split; [|tauto].
    intros [[H _] | [H | [[_ H] | [[_ H] | [[_ H] | [_ H]]]]]];
      try other_pictogram; try exact H.
    apply in_audit_hints in H. cbn in H.
    repeat (destruct H as [H | H]; [discriminate H|]). contradiction.
  - rewrite R. split.
    + intros [[_ H] | [H | [[_ H] | [[_ H] | [[_ H] | [_ H]]]]]];
        try other_pictogram.
      unfold audit_hints in H. rewrite !in_app_iff, !in_said in H.
      destruct H as [[H _] | [[_ H] | [[_ H] | [_ H]]]];
        try other_pictogram. exact H.
    + intros H. right. left. unfold audit_hints.
      rewrite !in_app_iff, !in_said. left. split; [exact H | reflexivity].
Qed.

Lemma suggestion_triggers_witness :
  (length (extract_experience contact_line) <= 1)%nat
  /\ In experience_hint
        (rule_suggestions
           (analysis_data_of
              (analyze_resume silent_parser sample_matcher contact_line
                 (with_images false) "data_scientist"))).
Proof.
  assert (L : (length (extract_experience contact_line) <= 1)%nat)
    by (vm_compute; lia).
  split; [exact L|].
  apply (proj1 (suggestion_triggers silent_parser sample_matcher contact_line
                  (with_images false) "data_scientist")).
  exact L.
Defined.

(** ** Suggestions of the AI client *)

Lemma split_char_parts (sep : ascii) (s : string) :
  Forall (fun u => ~ In sep (chars u)) (split_char sep s).
Proof.
  induction s as [|c s IH]; simpl.
  - constructor; [intros []|constructor].
  - destruct (Ascii.eqb_spec c sep) as [-> | N].
    + constructor; [intros []|exact IH].
    + destruct (split_char sep s) as [|w ws].
      * constructor; [|constructor]. simpl. intros [E | []]. now apply N.
      * inversion IH as [|w' ws' Hw Hws]; subst.
        constructor; [|exact Hws]. simpl. intros [E | E]; [now apply N|].
        now apply Hw.
Qed.

Lemma reply_lines_shape (ai_text : string) :
  Forall suggestion_line (reply_lines ai_text).
Proof.
  unfold reply_lines. apply List.Forall_forall. intros s H.
  apply in_map_iff in H. destruct H as (u & <- & H).
  apply filter_In in H. destruct H as [H T].
  unfold suggestion_line. split; [|split].
  - intros E. rewrite E in T. discriminate T.
  - apply StripFacts.strip_idem.
  - pose proof (split_char_parts newline ai_text) as P.
    rewrite List.Forall_forall in P. specialize (P u H).
    assert (F : Forall (fun c => c <> newline) (chars u)).
    { apply List.Forall_forall. intros c Hc E. apply P. now rewrite <- E. }
    apply (StripFacts.strip_forall _ u) in F.
    rewrite List.Forall_forall in F. intros Hn. now apply (F _ Hn).
Qed.

(** X19. The AI suggestions are at most three, each a non-empty line of
    the reply without white space at its ends; a generator without
    client, or whose call fails, contributes none. *)
Theorem ai_suggestions_shape
    (self : AIFeedbackGenerator) (rt : PyRuntime) (ad : AnalysisData) :
  let l := _generate_ai_suggestions self rt ad in
  (length l <= 3)%nat
  /\ Forall suggestion_line l
  /\ (client self = None -> l = [])
  /\ (forall create, client self = Some create ->
        create (ai_prompt rt ad) = None -> l = [])
  /\ (forall create ai_text, client self = Some create ->
        create (ai_prompt rt ad) = Some ai_text ->
        l = firstn 3 (reply_lines ai_text)).
Proof.
  intros l. subst l. unfold _generate_ai_suggestions.
  destruct (client self) as [create|].
  - destruct (create (ai_prompt rt ad)) as [ai_text|] eqn:E.
    + split; [apply List.firstn_le_length|]. split.
      * apply List.Forall_forall. intros s H. apply in_firstn in H.
        pose proof (reply_lines_shape ai_text) as P.
        rewrite List.Forall_forall in P. now apply P.
      * split; [discriminate|]. split.
        -- intros c [= <-] N. rewrite N in E. discriminate E.
        -- intros c t [= <-] N. rewrite N in E. now injection E as ->.
    + split; [simpl; lia|]. split; [constructor|].
      split; [discriminate|]. split; [reflexivity|].
      intros c t [= <-] N. rewrite N in E. discriminate E.
  - split; [simpl; lia|]. split; [constructor|].
    split; [reflexivity|]. split; discriminate.
Qed.

Lemma ai_suggestions_shape_witness :
  client {| client := None |} = None
  /\ _generate_ai_suggestions {| client := None |} sample_rt
       (analysis_data_of
          (analyze_resume silent_parser sample_matcher contact_line
             (with_images false) "data_scientist")) = [].
Proof.
  split; [reflexivity|].
  apply (ai_suggestions_shape {| client := None |} sample_rt).
  reflexivity.
Defined.

(** ** The routes *)

(** X20. The analysis route never answers: the report reads the key
    'suggestions', which the route leaves out of the dict it builds, so
    that every request ends in the error 500 with the detail
    "Analysis failed: 'suggestions'", whatever the resume and the
    profile; the report is built exactly for a dict that has the key. *)
Theorem analysis_route_always_fails
    (parser : ATSParser) (matcher : KeywordMatcher)
    (generator : AIFeedbackGenerator) (rt : PyRuntime)
    (request : AnalyzeRequest) :
  analyze_resume_route parser matcher generator rt request
  = inr {| status_code := 500;
           detail := "Analysis failed: 'suggestions'" |}
  /\ (forall ad, generate_detailed_report rt ad = Raise (KeyError "suggestions")
                 <-> ad_suggestions ad = None)
  /\ ad_suggestions
       (analysis_data_of
          (analyze_resume parser matcher (extracted_text request)
             (rq_metadata request) (rq_job_field request))) = None.
Proof.
  split; [|split].
  - unfold analyze_resume_route, generate_detailed_report.
    cbn [analysis_data_of ad_suggestions]. reflexivity.
  - intros ad. unfold generate_detailed_report.
    destruct (ad_suggestions ad); split; try discriminate; reflexivity.
  - reflexivity.
Qed.

Lemma analysis_route_always_fails_witness :
  analyze_resume_route silent_parser sample_matcher {| client := None |}
    sample_rt sample_request
  = inr {| status_code := 500;
           detail := "Analysis failed: 'suggestions'" |}.
Proof.
  apply (proj1 (analysis_route_always_fails silent_parser sample_matcher
                  {| client := None |} sample_rt sample_request)).
Defined.

(** ** Extraction and upload *)



Lemma extract_from_pdf_method (self : TextExtractor) (rt : PyRuntime)
    (file_path : string) (r : RawExtraction) :
  extract_from_pdf self rt file_path = Return r ->
  raw_method r = "pdfminer" -> has_images (raw_metadata r) = None.
Proof.
  unfold extract_from_pdf, pdfminer_fallback.
  destruct (fitz_open self file_path) as [doc | e].
  - destruct (negb _).
    + destruct (pdf_extract_text self file_path) as [t | e'].
      * intros [= <-]. cbn. discriminate.
      * destruct (pdf_extract_text self file_path); discriminate.
    + intros [= <-]. cbn. discriminate.
  - destruct (pdf_extract_text self file_path) as [t | e'];
      [|discriminate]. intros [= <-]. reflexivity.
Qed.

Lemma extract_from_docx_method (self : TextExtractor) (rt : PyRuntime)
    (file_path : string) (r : RawExtraction) :
  extract_from_docx self rt file_path = Return r ->
  raw_method r = "python-docx".
Proof.
  unfold extract_from_docx. destruct (Document self file_path);
    [|discriminate]. now intros [= <-].
Qed.

Lemma extract_return (self : TextExtractor) (rt : PyRuntime)
    (file_path file_type : string) (r : Extraction) :
  extract self rt file_path file_type = Return r ->
  In file_type known_types
  /\ exists raw,
       ex_text r = clean_text (raw_text raw)
       /\ ex_metadata r = raw_metadata raw
       /\ extraction_method r = raw_method raw
       /\ ex_word_count r = length (split_ws (ex_text r))
       /\ (raw_method raw = "pdfminer" -> has_images (raw_metadata raw) = None).
Proof.
  unfold extract, known_types.
  destruct (String.eqb_spec file_type "pdf") as [-> | Np].
  - destruct (extract_from_pdf self rt file_path) as [raw | e] eqn:E;
      [|discriminate].
    intros [= <-]. split; [simpl; tauto|]. exists raw. cbn.
    repeat split. now apply (extract_from_pdf_method self rt file_path).
  - destruct (existsb (String.eqb file_type) ["doc"; "docx"]) eqn:D;
      [|discriminate].
    destruct (extract_from_docx self rt file_path) as [raw | e] eqn:E;
      [|discriminate].
    intros [= <-]. split.
    + cbn in D. rewrite orb_false_r in D. apply orb_true_iff in D.
      destruct D as [D | D]; apply String.eqb_eq in D; subst; simpl; tauto.
    + exists raw. cbn. repeat split. intros M.
      rewrite (extract_from_docx_method self rt file_path raw E) in M.
      discriminate M.
Qed.

Lemma extract_unknown (self : TextExtractor) (rt : PyRuntime)
    (file_path file_type : string) :
  ~ In file_type known_types ->
  extract self rt file_path file_type
  = Raise (ValueError ("Unsupported file type: " +:+ file_type)).
Proof.
  intros N. unfold extract, known_types in *.
  destruct (String.eqb_spec file_type "pdf") as [-> | Np];
    [exfalso; apply N; simpl; tauto|].
  destruct (existsb (String.eqb file_type) ["doc"; "docx"]) eqn:D;
    [|reflexivity].
  exfalso. apply N. cbn in D. rewrite orb_false_r in D.
  apply orb_true_iff in D.
  destruct D as [D | D]; apply String.eqb_eq in D; subst; simpl; tauto.
Qed.



(** The path under which an upload is stored. *)
Lemma upload_body_rejected (settings : Settings) (env : UploadEnv)
    (text_extractor : TextExtractor) (rt : PyRuntime)
    (file : UploadFile) (job_field user_id : string) (disk : Disk) :
  type_allowed (content_type file) = false
  \/ (MAX_FILE_SIZE settings
      <? Z.of_nat (String.length (file_bytes file)))%Z = true ->
  fst (upload_body settings env text_extractor rt file job_field user_id disk)
  = disk.
Proof.
  unfold upload_body. intros [H | H].
  - rewrite H. reflexivity.
  - destruct (type_allowed (content_type file)); [|reflexivity].
    cbn [negb]. rewrite H. reflexivity.
Qed.

(** X22. The upload route never answers 400: the two errors 400 it raises
    for a content type outside its list and for a file above the size
    limit are caught by its own handler and leave as errors 500, like
    every other failure. An upload is accepted only when the content
    type is listed, the size is within the limit and the text after the
    last dot of the file name is "pdf", "doc" or "docx". *)
Theorem upload_never_answers_400 (settings : Settings) (env : UploadEnv)
    (text_extractor : TextExtractor) (rt : PyRuntime)
    (file : UploadFile) (job_field user_id : string) (disk : Disk) :
  let r := snd (upload_resume settings env text_extractor rt file
                              job_field user_id disk) in
  (forall e, r = inr e -> status_code e = 500%Z)
  /\ (type_allowed (content_type file) = false ->
      r = inr {| status_code := 500;
                 detail := "Upload failed: "
                   +:+ http_exception_str rt
                         {| status_code := 400;
                            detail := "Invalid file type. Only PDF and DOC/DOCX allowed." |} |})
  /\ (type_allowed (content_type file) = true ->
      (MAX_FILE_SIZE settings
       < Z.of_nat (String.length (file_bytes file)))%Z ->
      r = inr {| status_code := 500;
                 detail := "Upload failed: "
                   +:+ http_exception_str rt
                         {| status_code := 400;
                            detail := "File size exceeds 5MB limit." |} |})
  /\ (forall response, r = inl response ->
        type_allowed (content_type file) = true
        /\ (Z.of_nat (String.length (file_bytes file))
            <= MAX_FILE_SIZE settings)%Z
        /\ exists name,
             filename file = Some name
             /\ In (List.last (split_char "." name) "") known_types
             /\ up_file_name response = name
             /\ up_status response = "success").
Proof.
  intros r. subst r. unfold upload_resume.
  split; [|split; [|split]].
  - intros e.
    destruct (upload_body settings env text_extractor rt file job_field
                user_id disk) as [d [resp | exc]]; cbn [snd].
    + discriminate.
    + intros [= <-]. reflexivity.
  - intros H. unfold upload_body. rewrite H. reflexivity.
  - intros H L. unfold upload_body. rewrite H. cbn [negb].
    apply Z.ltb_lt in L. rewrite L. reflexivity.
  - intros response. unfold upload_body.
    destruct (type_allowed (content_type file)); cbn [negb];
      [|discriminate].
    destruct (Z.ltb_spec (MAX_FILE_SIZE settings)
                (Z.of_nat (String.length (file_bytes file)))) as [L | L];
      [discriminate|].
    destruct (filename file) as [name|]; [|discriminate].
    destruct (open_error env _); [discriminate|].
    destruct (write_error env _ _); [discriminate|].
    destruct (extract text_extractor rt _ _) as [x | e] eqn:E;
      [|discriminate].
    cbn [snd]. intros [= <-].
    split; [reflexivity|]. split; [exact L|]. exists name.
    split; [reflexivity|]. split; [|split; reflexivity].
    apply extract_return in E. apply E.
Qed.

Lemma upload_never_answers_400_witness :
  type_allowed (content_type {| content_type := Some "image/png";
                                filename := Some "cv.png";
                                file_bytes := "PNG" |}) = false
  /\ snd (upload_resume default_settings sample_env sample_extractor sample_rt
            {| content_type := Some "image/png"; filename := Some "cv.png";
               file_bytes := "PNG" |} "web" "u1" ∅)
     = inr {| status_code := 500;
              detail := "Upload failed: Invalid file type. Only PDF and DOC/DOCX allowed." |}.
Proof.
  split; [reflexivity|].
  apply (upload_never_answers_400 default_settings sample_env sample_extractor
           sample_rt {| content_type := Some "image/png";
                        filename := Some "cv.png"; file_bytes := "PNG" |}
           "web" "u1" ∅).
  reflexivity.
Defined.

(** X23. What an upload leaves on the disk: nothing when the content type
    or the size is refused; otherwise, once the file is opened and
    written, the uploaded bytes under the upload directory, named by the
    first identifier drawn and the extension of the file name, whatever
    the route answers then. In particular a file whose extension the
    extractor does not know is stored and answered with the error 500. *)
Theorem upload_disk_effects (settings : Settings) (env : UploadEnv)
    (text_extractor : TextExtractor) (rt : PyRuntime)
    (file : UploadFile) (job_field user_id : string) (disk : Disk) :
  let r := upload_resume settings env text_extractor rt file
                         job_field user_id disk in
  (type_allowed (content_type file) = false
   \/ (MAX_FILE_SIZE settings
       < Z.of_nat (String.length (file_bytes file)))%Z ->
   fst r = disk)
  /\ (forall name,
        let extension := List.last (split_char "." name) "" in
        let file_path :=
          path_join (UPLOAD_DIR settings)
                    (uuid4_first env +:+ "." +:+ extension) in
        type_allowed (content_type file) = true ->
        (Z.of_nat (String.length (file_bytes file))
         <= MAX_FILE_SIZE settings)%Z ->
        filename file = Some name ->
        open_error env file_path = None ->
        write_error env file_path (file_bytes file) = None ->
        fst r = <[file_path := file_bytes file]> disk
        /\ (~ In extension known_types ->
            snd r = inr {| status_code := 500;
                           detail := "Upload failed: Unsupported file type: "
                                     +:+ extension |})).
Proof.
  intros r. subst r. unfold upload_resume. split.
  - intros H.
    pose proof (upload_body_rejected settings env text_extractor rt file
                  job_field user_id disk) as R.
    destruct (upload_body settings env text_extractor rt file job_field
                user_id disk) as [d [resp | exc]]; cbn [fst] in *;
      apply R; (destruct H as [H | H]; [left; exact H | right]);
      now apply Z.ltb_lt.
  - intros name. cbv zeta.
    set (extension := List.last (split_char "." name) "").
    set (file_path := path_join (UPLOAD_DIR settings)
                                (uuid4_first env +:+ "." +:+ extension)).
    intros T L N O W.
    unfold upload_body. rewrite T. cbn [negb].
    apply Z.ltb_ge in L. rewrite L, N.
    fold extension. fold file_path. rewrite O, W. cbv zeta.
    destruct (extract text_extractor rt file_path extension) as [x | e] eqn:E;
      cbn [fst snd]; (split; [apply insert_insert_eq|]).
    + intros K. exfalso. apply K.
      apply extract_return in E. apply E.
    + intros K.
      rewrite (extract_unknown text_extractor rt file_path extension K) in E.
      injection E as <-. reflexivity.
Qed.

Lemma upload_disk_effects_witness :
  type_allowed (content_type (sample_upload "cv.final.PDF")) = true
  /\ ~ In "PDF" known_types
  /\ fst (upload_resume default_settings sample_env sample_extractor sample_rt
            (sample_upload "cv.final.PDF") "web" "u1" ∅)
     = <["uploads/1b4e28ba.PDF" := "%PDF-1.4"]> ∅
  /\ snd (upload_resume default_settings sample_env sample_extractor sample_rt
            (sample_upload "cv.final.PDF") "web" "u1" ∅)
     = inr {| status_code := 500;
              detail := "Upload failed: Unsupported file type: PDF" |}.
Proof.
  assert (K : ~ In "PDF" known_types).
  { unfold known_types. simpl. intuition discriminate. }
  split; [reflexivity|]. split; [exact K|].
  destruct (upload_disk_effects default_settings sample_env sample_extractor
              sample_rt (sample_upload "cv.final.PDF") "web" "u1" ∅)
    as [_ H].
  destruct (H "cv.final.PDF" eq_refl ltac:(vm_compute; discriminate) eq_refl
              eq_refl eq_refl) as [D R].
  split; [exact D | exact (R K)].
Defined.

(** ** Doubles and their exact values *)

Module FloatExact.

Local Open Scope Z_scope.

Lemma digits_size (m : positive) : digits2_pos m = Pos.size m.
Proof. induction m as [m IH | m IH |]; simpl; now rewrite ?IH. Qed.

Lemma size_bounds (m : positive) :
  Zpos m < 2 ^ Zpos (Pos.size m) /\ 2 ^ Zpos (Pos.size m) <= 2 * Zpos m.
Proof.
  split.
  - pose proof (Pos.size_gt m) as H.
    apply Pos2Z.pos_lt_pos in H. now rewrite Pos2Z.inj_pow in H.
  - pose proof (Pos.size_le m) as H.
    apply Pos2Z.pos_le_pos in H. now rewrite Pos2Z.inj_pow in H.
Qed.

(** A valid mantissa has at most 53 bits, and exactly 53 above the least
    exponent. *)
Lemma mantissa_bounds (m : positive) (e : Z) :
  bounded prec emax m e = true ->
  -1074 <= e /\ Zpos m < 2 ^ 53 /\ (-1074 < e -> 2 ^ 52 <= Zpos m).
Proof.
  unfold bounded, canonical_mantissa, fexp, SpecFloat.emin, prec, emax.
  intros H. apply andb_true_iff in H. destruct H as [H _].
  apply Z.eqb_eq in H. rewrite digits_size in H.
  destruct (size_bounds m) as [U L].
  set (d := Zpos (Pos.size m)) in *.
  assert (D0 : 0 < d) by (unfold d; lia).
  change (IntDef.Z.max (d + e - 53) (3 - 1024 - 53) = e)
    with (Z.max (d + e - 53) (-1074) = e) in H.
  assert (D : d <= 53 /\ -1074 <= e /\ (-1074 < e -> d = 53)) by lia.
  destruct D as (D1 & D2 & D3).
  split; [exact D2|]. split.
  - eapply Z.lt_le_trans; [exact U|]. apply Z.pow_le_mono_r; lia.
  - intros G. rewrite (D3 G) in L.
    change (2 ^ 53) with (2 * 2 ^ 52) in L. lia.
Qed.

Lemma scaled_exp_lt (m1 m2 : positive) (e1 e2 : Z) :
  bounded prec emax m1 e1 = true -> bounded prec emax m2 e2 = true ->
  e1 < e2 ->
  Zpos m1 * 2 ^ (e1 + 1074) < Zpos m2 * 2 ^ (e2 + 1074).
Proof.
  intros V1 V2 L.
  destruct (mantissa_bounds m1 e1 V1) as (A1 & B1 & _).
  destruct (mantissa_bounds m2 e2 V2) as (A2 & _ & C2).
  specialize (C2 ltac:(lia)).
  set (a := e1 + 1074). set (b := e2 + 1074).
  assert (Pa : 0 < 2 ^ a) by (apply Z.pow_pos_nonneg; unfold a; lia).
  assert (Pb : 0 < 2 ^ b) by (apply Z.pow_pos_nonneg; unfold b; lia).
  apply Z.lt_le_trans with (2 ^ 53 * 2 ^ a).
  - apply Z.mul_lt_mono_pos_r; assumption.
  - apply Z.le_trans with (2 ^ 52 * 2 ^ b).
    + rewrite <- !Z.pow_add_r by (unfold a, b; lia).
      apply Z.pow_le_mono_r; unfold a, b; lia.
    + apply Z.mul_le_mono_pos_r; assumption.
Qed.

Lemma mul_compare_r (n m p : Z) : 0 < p -> (n * p ?= m * p) = (n ?= m).
Proof.
  intros H. destruct (Z.compare_spec n m) as [E | L | G].
  - subst. apply Z.compare_refl.
  - apply Z.compare_lt_iff. now apply Z.mul_lt_mono_pos_r.
  - apply Z.compare_gt_iff. now apply Z.mul_lt_mono_pos_r.
Qed.

Lemma scaled_pos (m : positive) (e : Z) :
  -1074 <= e -> 0 < Zpos m * 2 ^ (e + 1074).
Proof.
  intros H. apply Z.mul_pos_pos; [lia|]. apply Z.pow_pos_nonneg; lia.
Qed.

(** Doubles compare as their exact values. *)
Lemma SFcompare_scaled (x y : spec_float) :
  valid_binary x = true -> valid_binary y = true ->
  match x with S754_zero _ | S754_finite _ _ _ => True | _ => False end ->
  match y with S754_zero _ | S754_finite _ _ _ => True | _ => False end ->
  SFcompare x y = Some (scaled x ?= scaled y).
Proof.
  destruct x as [sx | sx | | sx mx ex], y as [sy | sy | | sy my ey];
    try contradiction; intros Vx Vy _ _; cbn [valid_binary SpecFloat.valid_binary] in *.
  - reflexivity.
  - destruct (mantissa_bounds my ey Vy) as (A & _ & _).
    pose proof (scaled_pos my ey A) as P.
    cbn [SFcompare scaled]. destruct sy; f_equal; symmetry.
    + apply Z.compare_gt_iff. lia.
    + apply Z.compare_lt_iff. lia.
  - destruct (mantissa_bounds mx ex Vx) as (A & _ & _).
    pose proof (scaled_pos mx ex A) as P.
    cbn [SFcompare scaled]. destruct sx; f_equal; symmetry.
    + apply Z.compare_lt_iff. lia.
    + apply Z.compare_gt_iff. lia.
  - destruct (mantissa_bounds mx ex Vx) as (Ax & _ & _).
    destruct (mantissa_bounds my ey Vy) as (Ay & _ & _).
    pose proof (scaled_pos mx ex Ax) as Px.
    pose proof (scaled_pos my ey Ay) as Py.
    cbn [SFcompare scaled].
    change (Pos.compare_cont Eq mx my) with (Pos.compare mx my).
    destruct sx, sy; f_equal; symmetry.
    + destruct (Z.compare_spec ex ey) as [E | L | G].
      * subst ey. rewrite Z.compare_opp.
        rewrite mul_compare_r by (apply Z.pow_pos_nonneg; lia).
        change (Zpos my ?= Zpos mx) with (my ?= mx)%positive.
        apply Pos.compare_antisym.
      * pose proof (scaled_exp_lt mx my ex ey Vx Vy L).
        apply Z.compare_gt_iff. lia.
      * pose proof (scaled_exp_lt my mx ey ex Vy Vx G).
        apply Z.compare_lt_iff. lia.
    + apply Z.compare_lt_iff. lia.
    + apply Z.compare_gt_iff. lia.
    + destruct (Z.compare_spec ex ey) as [E | L | G].
      * subst ey.
        rewrite mul_compare_r by (apply Z.pow_pos_nonneg; lia).
        reflexivity.
      * pose proof (scaled_exp_lt mx my ex ey Vx Vy L).
        apply Z.compare_lt_iff. lia.
      * pose proof (scaled_exp_lt my mx ey ex Vy Vx G).
        apply Z.compare_gt_iff. lia.
Qed.

Lemma pow_1074 : Zpos (2 ^ 1074)%positive = 2 ^ 1074.
Proof. apply Pos2Z.inj_pow. Qed.

Lemma finite_value_scaled (s : bool) (m : positive) (e : Z) :
  -1074 <= e ->
  ((if s then
      Qopp match e with
           | Zneg p => Zpos m # Pos.pow 2 p
           | _ => inject_Z (Zpos m * 2 ^ e)
           end
    else match e with
         | Zneg p => Zpos m # Pos.pow 2 p
         | _ => inject_Z (Zpos m * 2 ^ e)
         end)
   == scaled (S754_finite s m e) # (2 ^ 1074)%positive)%Q.
Proof.
  intros H.
  assert (V : (match e with
               | Zneg p => Zpos m # Pos.pow 2 p
               | _ => inject_Z (Zpos m * 2 ^ e)
               end
               == (Zpos m * 2 ^ (e + 1074)) # (2 ^ 1074)%positive)%Q).
  { unfold Qeq. destruct e as [|p|p]; cbn [Qnum Qden inject_Z].
    - rewrite pow_1074. change (0 + 1074) with 1074. lia.
    - rewrite pow_1074, Z.pow_add_r by lia. lia.
    - rewrite pow_1074, Pos2Z.inj_pow.
      replace (2 ^ 1074) with (2 ^ (Zneg p + 1074) * 2 ^ Zpos p).
      + lia.
      + rewrite <- Z.pow_add_r by lia. f_equal. lia. }
  cbn [scaled]. destruct s; [|exact V].
  rewrite V. unfold Qeq, Qopp. cbn [Qnum Qden]. reflexivity.
Qed.

Lemma float_to_Q_scaled (x : float) :
  is_number x = true ->
  (float_to_Q x == scaled (Prim2SF x) # (2 ^ 1074)%positive)%Q.
Proof.
  unfold is_number, float_to_Q. pose proof (Prim2SF_valid x) as V.
  intros F.
  destruct (Prim2SF x) as [s | s | | s m e]; try discriminate F.
  - reflexivity.
  - apply finite_value_scaled.
    cbn [SpecFloat.valid_binary] in V. now apply mantissa_bounds in V.
Qed.

(** [x <= y] on doubles that are numbers is [<=] on their exact
    values. *)
Lemma leb_exact (x y : float) :
  is_number x = true -> is_number y = true ->
  (x <=? y)%float = Qle_bool (float_to_Q x) (float_to_Q y).
Proof.
  intros Fx Fy.
  rewrite (Qleb_comp _ _ (float_to_Q_scaled x Fx) _ _ (float_to_Q_scaled y Fy)).
  rewrite leb_spec. unfold SFleb.
  pose proof (Prim2SF_valid x) as Vx. pose proof (Prim2SF_valid y) as Vy.
  unfold is_number in Fx, Fy.
  rewrite (SFcompare_scaled (Prim2SF x) (Prim2SF y) Vx Vy).
  - unfold Qle_bool. cbn [Qnum Qden]. unfold Z.leb.
    rewrite mul_compare_r by reflexivity.
    destruct (scaled (Prim2SF x) ?= scaled (Prim2SF y)); reflexivity.
  - destruct (Prim2SF x); try discriminate; exact I.
  - destruct (Prim2SF y); try discriminate; exact I.
Qed.

End FloatExact.

(** X24. For a combined score that is a number, the label of the
    shortlist estimate is the bucket of the exact value of the double
    [ats_score * 0.45 + job_fit_score * 0.55]: comparing doubles and
    comparing their exact values with 80, 65, 50 and 35 agree. *)
Theorem shortlist_label_by_exact_value (ats jf : float) :
  let c := combined_of ats jf in
  is_number c = true ->
  probability (calculate_shortlist_probability ats jf)
  = bucket_label (float_to_Q c)
  /\ (forall t : float, is_number t = true ->
        (t <=? c)%float = Qle_bool (float_to_Q t) (float_to_Q c)).
Proof.
  intros c F. split; [|intros t Ft; now apply FloatExact.leb_exact].
  unfold calculate_shortlist_probability. fold (combined_of ats jf). fold c.
  unfold bucket_label.
  rewrite !(fun t Ft => FloatExact.leb_exact t c Ft F) by reflexivity.
  assert (E80 : (float_to_Q 80 == 80)%Q) by reflexivity.
  assert (E65 : (float_to_Q 65 == 65)%Q) by reflexivity.
  assert (E50 : (float_to_Q 50 == 50)%Q) by reflexivity.
  assert (E35 : (float_to_Q 35 == 35)%Q) by reflexivity.
  rewrite (Qleb_comp _ _ E80 _ _ (Qeq_refl _)),
          (Qleb_comp _ _ E65 _ _ (Qeq_refl _)),
          (Qleb_comp _ _ E50 _ _ (Qeq_refl _)),
          (Qleb_comp _ _ E35 _ _ (Qeq_refl _)).
  destruct (Qle_bool 80 (float_to_Q c)), (Qle_bool 65 (float_to_Q c)),
           (Qle_bool 50 (float_to_Q c)), (Qle_bool 35 (float_to_Q c));
    reflexivity.
Qed.

Lemma shortlist_label_by_exact_value_witness :
  is_number (combined_of 71.85 4.85) = true
  /\ probability (calculate_shortlist_probability 71.85 4.85)
     = bucket_label (float_to_Q (combined_of 71.85 4.85)).
Proof.
  assert (F : is_number (combined_of 71.85 4.85) = true) by reflexivity.
  split; [exact F|].
  apply (proj1 (shortlist_label_by_exact_value 71.85 4.85 F)).
Defined.
